(** * smartmeter-netz-noe: fetcher and importer

    A shallow embedding of [smartmeter.py] and [import_sqlite.py].  The
    repository carries two revisions of each script: the scripts at the
    top level (module [V1] below) and the reworked ones under [src/]
    (module [V2]).  [download_consumptions_for_meter] and the row
    construction of [import_data] are textually the same in both, so they
    are embedded once and shared.

    External collaborators are parameters of the development: the remote
    portal (a function from requests to responses), [json.dumps],
    [date.isoformat], [datetime.fromisoformat] and the datetime adapter of
    [sqlite3]. *)

From Stdlib Require Import ZArith QArith String List Lia Sorted.
From stdpp Require Import base option list gmap strings pretty.

Local Open Scope string_scope.
Local Open Scope list_scope.
Local Open Scope Z_scope.
Local Set Warnings "-register-all".

(** ** Python values and exceptions *)

(** What [json.loads] and [response.json()] return.  A [dict] keeps its
    insertion order and has no duplicate key after parsing. *)
Inductive value : Type :=
| VNone
| VBool (b : bool)
| VInt (z : Z)
| VFloat (q : Q)
| VStr (s : string)
| VList (l : list value)
| VDict (d : list (string * value)).

(** The exceptions the two scripts can end with. *)
Inductive exn : Type :=
| HTTPError (status : Z)
| SystemExit (code : Z)
| KeyError
| IndexError
| TypeError
| ValueError
| JSONDecodeError
| ValidationError
| FileNotFoundError
| FileExistsError
| NotADirectoryError
| IsADirectoryError
| OperationalError
| InterfaceError
| OverflowError.

Inductive result (A : Type) : Type :=
| Return (a : A)
| Raise (e : exn).
Arguments Return {A} a.
Arguments Raise {A} e.

Definition is_raise {A} (r : result A) : bool :=
  match r with Return _ => false | Raise _ => true end.

Module Py.

(** [d[key]] on a dict. *)
Fixpoint dict_get (d : list (string * value)) (key : string) : option value :=
  match d with
  | [] => None
  | (k, v) :: d' => if String.eqb k key then Some v else dict_get d' key
  end.

(** [d[key] = v]: an existing key keeps its position. *)
Fixpoint dict_set (d : list (string * value)) (key : string) (v : value)
  : list (string * value) :=
  match d with
  | [] => [(key, v)]
  | (k, x) :: d' =>
      if String.eqb k key then (k, v) :: d' else (k, x) :: dict_set d' key v
  end.

(** [d | other] on two dicts: the right operand wins. *)
Definition dict_merge (d other : list (string * value)) : list (string * value) :=
  fold_left (fun acc kv => dict_set acc (fst kv) (snd kv)) other d.

Definition chars (s : string) : list value :=
  map (fun c => VStr (String c EmptyString)) (list_ascii_of_string s).

(** [obj[key]] with a string key. *)
Definition getitem (obj : value) (key : string) : result value :=
  match obj with
  | VDict d => match dict_get d key with
               | Some v => Return v
               | None => Raise KeyError
               end
  | _ => Raise TypeError
  end.

(** [obj[0]].  The keys of a parsed JSON object are strings, so the
    integer key of a dict is never found. *)
Definition getitem0 (obj : value) : result value :=
  match obj with
  | VList (x :: _) => Return x
  | VList [] => Raise IndexError
  | VStr s => match chars s with
              | c :: _ => Return c
              | [] => Raise IndexError
              end
  | VDict _ => Raise KeyError
  | _ => Raise TypeError
  end.

(** [obj | {...}]: only a dict on the left supports it. *)
Definition or_dict (obj : value) (other : list (string * value)) : result value :=
  match obj with
  | VDict d => Return (VDict (dict_merge d other))
  | _ => Raise TypeError
  end.

(** [iter(obj)], as used by [for], comprehensions and [zip]. *)
Definition iter (obj : value) : result (list value) :=
  match obj with
  | VList l => Return l
  | VDict d => Return (map (fun kv => VStr (fst kv)) d)
  | VStr s => Return (chars s)
  | _ => Raise TypeError
  end.

(** [bool(obj)]. *)
Definition truthy (obj : value) : bool :=
  match obj with
  | VNone => false
  | VBool b => b
  | VInt z => negb (z =? 0)%Z
  | VFloat q => negb (Qeq_bool q 0)
  | VStr s => negb (String.eqb s "")
  | VList l => match l with [] => false | _ => true end
  | VDict d => match d with [] => false | _ => true end
  end.

Definition is_list (obj : value) : bool :=
  match obj with VList _ => true | _ => false end.

(** [len(obj)] of a value known to be a list. *)
Definition len (obj : value) : Z :=
  match obj with VList l => Z.of_nat (length l) | _ => 0 end.

(** [range(n)]: empty when [n <= 0]. *)
Definition range (n : Z) : list Z :=
  map Z.of_nat (seq 0 (Z.to_nat n)).

End Py.

(** ** The remote portal and the effects of the fetcher *)

Inductive request : Type :=
| Post (url : string) (json : list (string * value))
| Get (url : string) (params : list (string * value)).

(** [json_body = None]: the body is not JSON and [response.json()] raises. *)
Record response : Type := { status_code : Z; json_body : option value }.

Inductive level : Type := Debug | Error.

(** What a [SmartMeter] method can do to the outside. *)
Inductive net_event : Type :=
| Sent (r : request)
| Printed (s : string)
| Logged (lvl : level) (fmt : string) (args : list string).

(** A calendar date, as its proleptic ordinal ([date.toordinal()]). *)
Abbreviation date := Z (only parsing).
Abbreviation path := (list string) (only parsing).

Inductive node : Type :=
| File (text : string)
| Directory.

(** The trace of a run of the fetcher. *)
Inductive event : Type :=
| Net (e : net_event)
| Fetch (meter : string) (day : date) (traffic : list net_event)
| Probed (p : path)
| MadeDir (p : path)
| Wrote (p : path) (text : string).

(** Methods of [SmartMeter]: network traffic and logging only. *)
Definition Session (A : Type) : Type := list net_event * result A.

(** The module-level functions: they also read and change the files. *)
Definition IO (A : Type) : Type :=
  gmap (list string) node -> list event * gmap (list string) node * result A.

#[global] Instance session_ret : MRet Session := fun A a => ([], Return a).
#[global] Instance session_bind : MBind Session := fun A B f m =>
  match m with
  | (t, Return a) => let '(t', r) := f a in (t ++ t', r)
  | (t, Raise e) => (t, Raise e)
  end.

#[global] Instance io_ret : MRet IO := fun A a fs => ([], fs, Return a).
#[global] Instance io_bind : MBind IO := fun A B f m fs =>
  match m fs with
  | (t, fs', Return a) => let '(t', fs'', r) := f a fs' in (t ++ t', fs'', r)
  | (t, fs', Raise e) => (t, fs', Raise e)
  end.

Definition trace_of {A} (x : list event * gmap (list string) node * result A) :=
  fst (fst x).
Definition files_of {A} (x : list event * gmap (list string) node * result A) :=
  snd (fst x).
Definition result_of {A} (x : list event * gmap (list string) node * result A) :=
  snd x.

Module Session.

Definition raise {A} (e : exn) : Session A := ([], Raise e).

Definition of_result {A} (r : result A) : Session A := ([], r).

(** [session.post(url, json=...)] and [session.get(url, params=...)]. *)
Definition post (session : request -> response) (url : string)
    (json : list (string * value)) : Session response :=
  ([Sent (Post url json)], Return (session (Post url json))).

Definition get (session : request -> response) (url : string)
    (params : list (string * value)) : Session response :=
  ([Sent (Get url params)], Return (session (Get url params))).

(** [response.raise_for_status()]: an [HTTPError] for a 4xx or 5xx status
    and for nothing else. *)
Definition raise_for_status (r : response) : Session unit :=
  if ((400 <=? status_code r) && (status_code r <? 600))%Z
  then raise (HTTPError (status_code r))
  else mret tt.

(** [response.json()]. *)
Definition json (r : response) : Session value :=
  match json_body r with
  | Some v => mret v
  | None => raise JSONDecodeError
  end.

Definition print (s : string) : Session unit := ([Printed s], Return tt).

Definition log (lvl : level) (fmt : string) (args : list string) : Session unit :=
  ([Logged lvl fmt args], Return tt).

(** [sys.exit(code)]. *)
Definition sys_exit {A} (code : Z) : Session A := raise (SystemExit code).

End Session.

Module Fs.

Definition parent (p : path) : path := removelast p.

(** The error of creating an entry whose parent is not a directory. *)
Definition parent_error (fs : gmap (list string) node) (p : path) : option exn :=
  match fs !! parent p with
  | Some Directory => None
  | Some (File _) => Some NotADirectoryError
  | None => Some FileNotFoundError
  end.

(** [Path.exists()]. *)
Definition exists_ (p : path) : IO bool := fun fs =>
  ([Probed p], fs, Return (match fs !! p with Some _ => true | None => false end)).

(** [Path.mkdir()]. *)
Definition mkdir (p : path) : IO unit := fun fs =>
  match fs !! p with
  | Some _ => ([], fs, Raise FileExistsError)
  | None =>
      match parent_error fs p with
      | Some e => ([], fs, Raise e)
      | None => ([MadeDir p], <[p := Directory]> fs, Return tt)
      end
  end.

(** [Path.write_text(text)]. *)
Definition write_text (p : path) (text : string) : IO unit := fun fs =>
  match fs !! p with
  | Some Directory => ([], fs, Raise IsADirectoryError)
  | _ =>
      match parent_error fs p with
      | Some e => ([], fs, Raise e)
      | None => ([Wrote p text], <[p := File text]> fs, Return tt)
      end
  end.

End Fs.

(** A [SmartMeter] method called from a module-level function. *)
Definition perform {A} (m : Session A) : IO A := fun fs =>
  (map Net (fst m), fs, snd m).

(** [for x in xs: body], where [continue] ends the body. *)
Fixpoint for_each {A} (xs : list A) (body : A -> IO unit) : IO unit :=
  match xs with
  | [] => mret tt
  | x :: xs' => body x ;; for_each xs' body
  end.

(** ** [download_consumptions_for_meter]

    The function only calls [get_consumption_records_for_day] on its
    [smartmeter] argument (with [include_mean_profile] left at its default),
    so it is written over every class that has the method. *)

(** The answer is a function of the meter and the day: the portal is
    taken to answer a request the same way throughout. *)
Class SmartMeterLike (SM : Type) : Type :=
  consumption_records_for_day : SM -> string -> date -> Session value.

Section Download.
Context {SM : Type} `{SmartMeterLike SM}.
Variable json_dumps : option Z -> value -> string.
Variable isoformat : date -> string.
(** [datetime.date.today()] *)
Variable today : date.

Definition json_file (storage_path : path) (day : date) : path :=
  storage_path ++ [isoformat day +:+ ".json"].

Definition fetch (smartmeter : SM) (energy_meter : string) (day : date) : IO value :=
  fun fs =>
    let '(traffic, r) := consumption_records_for_day smartmeter energy_meter day in
    ([Fetch energy_meter day traffic], fs, r).

(** The body of the loop. *)
Definition download_day (smartmeter : SM) (storage_path : path)
    (energy_meter : string) (day : date) : IO unit :=
  found ← Fs.exists_ (json_file storage_path day);
  if (found : bool) then
    perform (Session.log Debug
      "Consumption records for '%s' and '%s' already exists."
      [energy_meter; isoformat day])
  else
    consumption_records ← fetch smartmeter energy_meter day;
    metered ← perform (Session.of_result
                         (Py.getitem consumption_records "meteredValues"));
    if negb (Py.truthy metered) then
      perform (Session.log Error
        "Consumption records for '%s' and '%s' missing data."
        [energy_meter; isoformat day])
    else
      Fs.write_text (json_file storage_path day)
        (json_dumps (Some 4) consumption_records).

Definition day_range (start_date : date) : list date :=
  let number_since_measure_start := today - start_date in
  map (fun i => start_date + i) (Py.range number_since_measure_start).

Definition download_consumptions_for_meter (smartmeter : SM)
    (storage_path : path) (energy_meter : string) (start_date : date) : IO unit :=
  for_each (day_range start_date)
    (download_day smartmeter storage_path energy_meter).

End Download.

Definition BASE_URL : string := "https://smartmeter.netz-noe.at/orchestration".

Record Settings : Type := {
  username : string;
  password : string;
  measure_start_date : date;
  storage_path : path;
  user_agent : string
}.

(** ** [smartmeter.py], top-level revision

    The class as far as the loop above and the login use it; the account
    and meter enumeration of this revision is not embedded. *)
Module V1.
Section Smartmeter.
Variable portal : request -> response.
Variable json_dumps : option Z -> value -> string.
Variable isoformat : date -> string.

(** [self.session]: the channel to the portal. *)
Record SmartMeter : Type := { session : request -> response }.

Definition _login (self : SmartMeter) (username password : string) : Session unit :=
  let url := BASE_URL +:+ "/Authentication/Login" in
  response ← Session.post (session self) url
               [("user", VStr username); ("pwd", VStr password)];
  Session.raise_for_status response.

Definition __init__ (username password : string) : Session SmartMeter :=
  let self := {| session := portal |} in
  _login self username password;;
  mret self.

Definition _get_mean_profile_for_day (self : SmartMeter)
    (metering_point : string) (day : date) : Session value :=
  let url := BASE_URL +:+ "/ConsumptionRecord/MeanProfileDay" in
  response ← Session.get (session self) url
               [("meterId", VStr metering_point); ("day", VStr (isoformat day))];
  Session.raise_for_status response;;
  logged ← Session.json response;
  Session.log Debug "Response for '%s' was: %s" [url; json_dumps None logged];;
  Session.json response.

Definition get_consumption_records_for_day (self : SmartMeter)
    (metering_point : string) (day : date) (include_mean_profile : bool)
  : Session value :=
  let url := BASE_URL +:+ "/ConsumptionRecord/Day" in
  response ← Session.get (session self) url
               [("meterId", VStr metering_point); ("day", VStr (isoformat day))];
  Session.raise_for_status response;;
  logged ← Session.json response;
  Session.log Debug "Response for '%s' was: %s" [url; json_dumps None logged];;
  if negb include_mean_profile then Session.json response
  else
    mean_profile ← _get_mean_profile_for_day self metering_point day;
    records ← Session.json response;
    Session.of_result (Py.or_dict records [("meanProfile", mean_profile)]).

#[local] Instance smartmeter_like : SmartMeterLike SmartMeter :=
  fun self metering_point day =>
    get_consumption_records_for_day self metering_point day true.

End Smartmeter.
End V1.

(** ** [src/smartmeter.py], the reworked revision *)
Module V2.
Section Smartmeter.
Variable portal : request -> response.
Variable json_dumps : option Z -> value -> string.
Variable isoformat : date -> string.
Variable _settings : Settings.
(** [datetime.date.today()], the same for the whole run. *)
Variable today : date.

Inductive Context : Type := CONSUMPTION_INFO | DOWNLOAD_INFO.

Definition Context_value (c : Context) : Z :=
  match c with CONSUMPTION_INFO => 2 | DOWNLOAD_INFO => 5 end.

Record ConsumptionInfo : Type := {
  account_id : string;
  metering_point_id : string
}.

(** The constructor of the pydantic model: both fields must be strings. *)
Definition new_ConsumptionInfo (account metering_point : value)
  : result ConsumptionInfo :=
  match account, metering_point with
  | VStr a, VStr m => Return {| account_id := a; metering_point_id := m |}
  | _, _ => Raise ValidationError
  end.

(** [self.session]: the channel to the portal. *)
Record SmartMeter : Type := { session : request -> response }.

Definition _login (self : SmartMeter) (username password : string) : Session unit :=
  let url := BASE_URL +:+ "/Authentication/Login" in
  response ← Session.post (session self) url
               [("user", VStr username); ("pwd", VStr password)];
  Session.raise_for_status response;;
  (* raise_for_status does not deal with 999 *)
  if status_code response =? 999 then
    Session.print "Smartmeter Platform dürfte wieder Wartungsarbeiten durchführen!";;
    Session.sys_exit 1
  else mret tt.

Definition _extend_session_lifetime (self : SmartMeter) : Session unit :=
  let url := BASE_URL +:+ "/Authentication/ExtendSessionLifetime" in
  response ← Session.get (session self) url [];
  Session.raise_for_status response.

Definition __init__ (username password : string) : Session SmartMeter :=
  let self := {| session := portal |} in
  _login self username password;;
  _extend_session_lifetime self;;
  mret self.

Definition get_consumption_info (self : SmartMeter) : Session (list ConsumptionInfo) :=
  let url := BASE_URL +:+ "/User/GetMeteringPointsByBusinesspartnerId" in
  response ← Session.get (session self) url
               [("context", VInt (Context_value CONSUMPTION_INFO))];
  Session.raise_for_status response;;
  json_response ← Session.json response;
  Session.log Debug "Response for '%s' was: %s" [url; json_dumps None json_response];;
  entries ← Session.of_result (Py.iter json_response);
  mapM (fun consumption_info =>
          account ← Session.of_result (Py.getitem consumption_info "accountId");
          metering_point ← Session.of_result
                             (Py.getitem consumption_info "meteringPointId");
          Session.of_result (new_ConsumptionInfo account metering_point))
       entries.

Definition _get_mean_profile_for_day (self : SmartMeter)
    (metering_point : string) (day : date) : Session value :=
  let url := BASE_URL +:+ "/ConsumptionRecord/MeanProfileDay" in
  response ← Session.get (session self) url
               [("meterId", VStr metering_point); ("day", VStr (isoformat day))];
  Session.raise_for_status response;;
  logged ← Session.json response;
  Session.log Debug "Response for '%s' was: %s" [url; json_dumps None logged];;
  Session.json response.

Definition get_consumption_records_for_day (self : SmartMeter)
    (metering_point : string) (day : date) (include_mean_profile : bool)
  : Session value :=
  let url := BASE_URL +:+ "/ConsumptionRecord/Day" in
  response ← Session.get (session self) url
               [("meterId", VStr metering_point); ("day", VStr (isoformat day))];
  Session.raise_for_status response;;
  logged ← Session.json response;
  Session.log Debug "Response for '%s' was: %s" [url; json_dumps None logged];;
  consumption_per_day ← Session.json response;
  (if Py.is_list consumption_per_day && (1 <? Py.len consumption_per_day) then
     Session.log Error
       "Consumption records for '%s' and '%s' returns more than one entry!"
       [metering_point; isoformat day];;
     Session.sys_exit 1
   else mret tt);;
  if negb include_mean_profile then
    Session.of_result (Py.getitem0 consumption_per_day)
  else
    mean_profile ← _get_mean_profile_for_day self metering_point day;
    first ← Session.of_result (Py.getitem0 consumption_per_day);
    Session.of_result (Py.or_dict first [("meanProfile", mean_profile)]).

#[local] Instance smartmeter_like : SmartMeterLike SmartMeter :=
  fun self metering_point day =>
    get_consumption_records_for_day self metering_point day true.

(** [if not d.exists(): d.mkdir()] *)
Definition ensure_dir (d : path) : IO unit :=
  found ← Fs.exists_ d;
  if (found : bool) then mret tt else Fs.mkdir d.

Definition main : IO unit :=
  smartmeter ← perform (__init__ (username _settings) (password _settings));
  infos ← perform (get_consumption_info smartmeter);
  for_each infos (fun consumption_info =>
    let account_dir := storage_path _settings ++ [account_id consumption_info] in
    ensure_dir account_dir;;
    let energy_meter_dir := account_dir ++ [metering_point_id consumption_info] in
    ensure_dir energy_meter_dir;;
    download_consumptions_for_meter json_dumps isoformat today
      smartmeter energy_meter_dir (metering_point_id consumption_info)
      (measure_start_date _settings)).

End Smartmeter.
End V2.

(** ** [import_sqlite.py] *)

#[global] Instance result_ret : MRet result := fun A a => Return a.
#[global] Instance result_bind : MBind result := fun A B f m =>
  match m with
  | Return a => f a
  | Raise e => Raise e
  end.

(** The table [consumption_data] with its unique index on [timestamp].
    A cell holds the value as it was bound; the coercions of the column
    affinities are left to the engine. *)
Module Sqlite.

Inductive sqlval : Type :=
| Null
| Integer (z : Z)
| Real (q : Q)
| Text (s : string).

Record row : Type := {
  id : Z;
  timestamp : string;
  metered : sqlval;
  estimated : sqlval;
  metered_peak : sqlval;
  estimated_peak : sqlval;
  mean_profile : sqlval
}.

(** [sequence] is the entry of the table in [sqlite_sequence]. *)
Record table : Type := { rows : list row; sequence : Z }.

(** After [CREATE_TABLE_SQL] and [CREATE_UNIQUE_INDEX_SQL]. *)
Definition created : table := {| rows := []; sequence := 0 |}.

(** The six parameters of [INSERT_SQL]. *)
Definition params : Type :=
  (string * sqlval * sqlval * sqlval * sqlval * sqlval)%type.

Definition max_rowid (l : list row) : Z :=
  fold_right (fun r m => Z.max (id r) m) 0 l.

(** AUTOINCREMENT: larger than every rowid the table has ever had. *)
Definition next_rowid (t : table) : Z :=
  Z.max (sequence t) (max_rowid (rows t)) + 1.

Definition conflict (t : table) (ts : string) : bool :=
  existsb (fun r => String.eqb (timestamp r) ts) (rows t).

(** [INSERT_SQL]: [ON CONFLICT(timestamp) DO NOTHING].  Whether the
    rowid drawn for an ignored row is used up is the engine's choice
    ([consumed]). *)
Definition insert (consumed : bool) (t : table) (p : params) : table :=
  let '(ts, m, e, mp, ep, mean) := p in
  if conflict t ts then
    {| rows := rows t;
       sequence := if consumed then next_rowid t else sequence t |}
  else
    {| rows := rows t ++
         [{| id := next_rowid t; timestamp := ts; metered := m;
             estimated := e; metered_peak := mp; estimated_peak := ep;
             mean_profile := mean |}];
       sequence := next_rowid t |}.

Definition timestamps (t : table) : list string := map timestamp (rows t).

(** The constraint of [consumption_timestamp_idx]. *)
Definition unique (t : table) : Prop := NoDup (timestamps t).

Definition timestamp_of (p : params) : string :=
  let '(ts, _, _, _, _, _) := p in ts.

(** How [sqlite3] binds a Python value; lists and dicts are not
    supported, and an [int] must fit 64 bits. *)
Definition adapt (v : value) : result sqlval :=
  match v with
  | VNone => Return Null
  | VBool b => Return (Integer (if b then 1 else 0))
  | VInt z => if (- 2 ^ 63 <=? z) && (z <? 2 ^ 63)
              then Return (Integer z) else Raise OverflowError
  | VFloat q => Return (Real q)
  | VStr s => Return (Text s)
  | VList _ | VDict _ => Raise InterfaceError
  end.

End Sqlite.

(** An entry of a metering-point directory.  A file is given by what
    [json.loads] makes of its text: [None] when the text is not JSON. *)
Inductive entry : Type :=
| EFile (json : option value)
| EDir.

(** A directory of one metering point: its entries other than the
    database, and the table of [consumption_data.db] if it has one. *)
Record meter_dir : Type := {
  entries : list (string * entry);
  database : option Sqlite.table
}.

Inductive meter_entry : Type :=
| MeterFile
| MeterDir (d : meter_dir).

Inductive account_entry : Type :=
| AccountFile
| AccountDir (meters : list (string * meter_entry)).

(** The storage root: its entries in the order [iterdir()] lists them. *)
Abbreviation storage := (list (string * account_entry)) (only parsing).

Fixpoint zip6 {A B C D E F} (a : list A) (b : list B) (c : list C)
    (d : list D) (e : list E) (f : list F) : list (A * B * C * D * E * F) :=
  match a, b, c, d, e, f with
  | x1 :: a', x2 :: b', x3 :: c', x4 :: d', x5 :: e', x6 :: f' =>
      (x1, x2, x3, x4, x5, x6) :: zip6 a' b' c' d' e' f'
  | _, _, _, _, _, _ => []
  end.

Definition DB_FILENAME : string := "consumption_data.db".
Definition IGNORED_PATH : list string := [".DS_Store"].

Section Importer.
Variable datetime : Type.
Variable fromisoformat : string -> option datetime.
(** The adapter [sqlite3] applies to a [datetime] parameter. *)
Variable adapt_datetime_iso : datetime -> string.
Variable rowid_consumed_on_conflict : bool.

(** [datetime.datetime.fromisoformat(d)] *)
Definition parse_time (d : value) : result datetime :=
  match d with
  | VStr s => match fromisoformat s with
              | Some t => Return t
              | None => Raise ValueError
              end
  | _ => Raise TypeError
  end.

(** [data = list(zip(...))] *)
Definition zip_data (json_data : value)
  : result (list (datetime * value * value * value * value * value)) :=
  peak_demand_times ← Py.getitem json_data "peakDemandTimes";
  ds ← Py.iter peak_demand_times;
  times ← mapM parse_time ds;
  metered_values ← Py.getitem json_data "meteredValues";
  estimated_values ← Py.getitem json_data "estimatedValues";
  metered_peak_demands ← Py.getitem json_data "meteredPeakDemands";
  estimated_peak_demands ← Py.getitem json_data "estimatedPeakDemands";
  mean_profile ← Py.getitem json_data "meanProfile";
  l2 ← Py.iter metered_values;
  l3 ← Py.iter estimated_values;
  l4 ← Py.iter metered_peak_demands;
  l5 ← Py.iter estimated_peak_demands;
  l6 ← Py.iter mean_profile;
  mret (zip6 times l2 l3 l4 l5 l6).

Definition bind_parameters
    (r : datetime * value * value * value * value * value)
  : result Sqlite.params :=
  let '(t, v2, v3, v4, v5, v6) := r in
  p2 ← Sqlite.adapt v2;
  p3 ← Sqlite.adapt v3;
  p4 ← Sqlite.adapt v4;
  p5 ← Sqlite.adapt v5;
  p6 ← Sqlite.adapt v6;
  mret (adapt_datetime_iso t, p2, p3, p4, p5, p6).

(** [con.executemany(INSERT_SQL, data)] *)
Fixpoint executemany (t : Sqlite.table)
    (data : list (datetime * value * value * value * value * value))
  : result Sqlite.table :=
  match data with
  | [] => Return t
  | r :: data' =>
      p ← bind_parameters r;
      executemany (Sqlite.insert rowid_consumed_on_conflict t p) data'
  end.

(** [with con: con.executemany(...)]: commit, or roll back and re-raise. *)
Definition transaction (t : Sqlite.table)
    (data : list (datetime * value * value * value * value * value))
  : Sqlite.table * result unit :=
  match executemany t data with
  | Return t' => (t', Return tt)
  | Raise e => (t, Raise e)
  end.

(** What a day file asks the engine to insert, or the exception raised
    on the way: reading, zipping and binding do not look at the table. *)
Definition day_params (day_path : entry) : result (list Sqlite.params) :=
  match day_path with
  | EDir => Raise IsADirectoryError
  | EFile None => Raise JSONDecodeError
  | EFile (Some json_data) =>
      data ← zip_data json_data;
      mapM bind_parameters data
  end.

(** The body of the loop over the day files. *)
Definition import_day (t : Sqlite.table) (day_path : entry)
  : Sqlite.table * result unit :=
  match day_path with
  | EDir => (t, Raise IsADirectoryError)
  | EFile None => (t, Raise JSONDecodeError)
  | EFile (Some json_data) =>
      match zip_data json_data with
      | Raise e => (t, Raise e)
      | Return data => transaction t data
      end
  end.

Fixpoint import_days (t : Sqlite.table) (day_paths : list (string * entry))
  : Sqlite.table * result unit :=
  match day_paths with
  | [] => (t, Return tt)
  | (_, day_path) :: rest =>
      match import_day t day_path with
      | (t', Return _) => import_days t' rest
      | (t', Raise e) => (t', Raise e)
      end
  end.

(** [glob("*.json")] *)
Definition is_json (name : string) : bool :=
  let n := String.length name in
  (5 <=? n)%nat && String.eqb (substring (n - 5) 5 name) ".json".

Definition glob_json (l : list (string * entry)) : list (string * entry) :=
  filter (fun e => is_json (fst e) = true) l.

Fixpoint insert_sorted (x : string * entry) (l : list (string * entry))
  : list (string * entry) :=
  match l with
  | [] => [x]
  | y :: l' => if String.leb (fst x) (fst y) then x :: y :: l'
               else y :: insert_sorted x l'
  end.

(** [sorted(...)] of paths in one directory: by name. *)
Definition sorted (l : list (string * entry)) : list (string * entry) :=
  fold_right insert_sorted [] l.

(** [_check_database(con)]: the table is created when the probe fails. *)
Definition _check_database (db : option Sqlite.table) : Sqlite.table :=
  match db with
  | Some t => t
  | None => Sqlite.created
  end.

(** The body of the loop over the metering-point paths.
    [sqlite3.connect] cannot open a database beneath a plain file. *)
Definition import_energy_meter (m : meter_entry) : meter_entry * result unit :=
  match m with
  | MeterFile => (MeterFile, Raise OperationalError)
  | MeterDir d =>
      let con := _check_database (database d) in
      let '(t, r) := import_days con (sorted (glob_json (entries d))) in
      (MeterDir {| entries := entries d; database := Some t |}, r)
  end.

(** The two nested loops of [import_data].  The revisions differ in
    their guards only: [is_dir_guard] is the test
    [if not account_path.is_dir(): continue], and [ignored] the names
    skipped by [if energy_meter_path.name in IGNORED_PATH: continue]. *)
Variable is_dir_guard : bool.
Variable ignored : list string.

Definition is_ignored (name : string) : bool :=
  existsb (String.eqb name) ignored.

Fixpoint import_energy_meters (meters : list (string * meter_entry))
  : list (string * meter_entry) * result unit :=
  match meters with
  | [] => ([], Return tt)
  | (name, m) :: rest =>
      if is_ignored name then
        let '(rest', r) := import_energy_meters rest in ((name, m) :: rest', r)
      else
        match import_energy_meter m with
        | (m', Return _) =>
            let '(rest', r) := import_energy_meters rest in
            ((name, m') :: rest', r)
        | (m', Raise e) => ((name, m') :: rest, Raise e)
        end
  end.

(** [account_path.iterdir()] raises on a plain file. *)
Definition import_account (a : account_entry) : account_entry * result unit :=
  match a with
  | AccountFile =>
      (AccountFile, if is_dir_guard then Return tt else Raise NotADirectoryError)
  | AccountDir meters =>
      let '(meters', r) := import_energy_meters meters in (AccountDir meters', r)
  end.

Fixpoint import_accounts (accounts : storage) : storage * result unit :=
  match accounts with
  | [] => ([], Return tt)
  | (name, a) :: rest =>
      match import_account a with
      | (a', Return _) =>
          let '(rest', r) := import_accounts rest in ((name, a') :: rest', r)
      | (a', Raise e) => ((name, a') :: rest, Raise e)
      end
  end.

End Importer.

(** [import_sqlite.py], top-level revision: no guard. *)
Module ImportV1.
Definition import_data (datetime : Type)
    (fromisoformat : string -> option datetime)
    (adapt_datetime_iso : datetime -> string)
    (rowid_consumed_on_conflict : bool) (storage_path : storage)
  : storage * result unit :=
  import_accounts datetime fromisoformat adapt_datetime_iso
    rowid_consumed_on_conflict false [] storage_path.
End ImportV1.

(** [src/import_sqlite.py]: stray files at the account level and
    [.DS_Store] at the meter level are skipped. *)
Module ImportV2.
Definition import_data (datetime : Type)
    (fromisoformat : string -> option datetime)
    (adapt_datetime_iso : datetime -> string)
    (rowid_consumed_on_conflict : bool) (storage_path : storage)
  : storage * result unit :=
  import_accounts datetime fromisoformat adapt_datetime_iso
    rowid_consumed_on_conflict true IGNORED_PATH storage_path.
End ImportV2.

(** ** What a trace shows *)

(** The paths whose existence was tested, in order. *)
Definition probed (t : list event) : list path :=
  flat_map (fun e => match e with Probed p => [p] | _ => [] end) t.

(** The paths written by [write_text]. *)
Definition written (t : list event) : list path :=
  flat_map (fun e => match e with Wrote p _ => [p] | _ => [] end) t.

(** The calls of [get_consumption_records_for_day]. *)
Definition fetched (t : list event) : list (string * date) :=
  flat_map (fun e => match e with Fetch m d _ => [(m, d)] | _ => [] end) t.

(** The requests sent to the portal, including those inside a fetch. *)
Definition sent_of (t : list net_event) : list request :=
  flat_map (fun e => match e with Sent r => [r] | _ => [] end) t.

Definition requests (t : list event) : list request :=
  flat_map (fun e => match e with
                     | Net (Sent r) => [r]
                     | Fetch _ _ traffic => sent_of traffic
                     | _ => []
                     end) t.

(** The tables of a storage tree, without their [sqlite_sequence]. *)
Definition stored_rows (m : meter_entry) : option (list Sqlite.row) :=
  match m with
  | MeterFile => None
  | MeterDir d => Sqlite.rows <$> database d
  end.

Definition account_rows (a : account_entry)
  : list (string * option (list Sqlite.row)) :=
  match a with
  | AccountFile => []
  | AccountDir meters => map (fun nm => (fst nm, stored_rows (snd nm))) meters
  end.

Definition storage_rows (s : storage)
  : list (string * list (string * option (list Sqlite.row))) :=
  map (fun na => (fst na, account_rows (snd na))) s.

Definition unique_meter (m : meter_entry) : Prop :=
  match m with
  | MeterDir {| database := Some t |} => Sqlite.unique t
  | _ => True
  end.

Definition unique_account (a : account_entry) : Prop :=
  match a with
  | AccountFile => True
  | AccountDir meters => Forall (fun nm => unique_meter (snd nm)) meters
  end.

(** Every table of the tree satisfies its unique index. *)
Definition unique_storage (s : storage) : Prop :=
  Forall (fun na => unique_account (snd na)) s.

(** The six columns the importer binds. *)
Definition columns (r : Sqlite.row) : Sqlite.params :=
  (Sqlite.timestamp r, Sqlite.metered r, Sqlite.estimated r,
   Sqlite.metered_peak r, Sqlite.estimated_peak r, Sqlite.mean_profile r).

(** ** The requests of the fetcher, as the portal sees them *)

Definition login_request (user pwd : string) : request :=
  Post (BASE_URL +:+ "/Authentication/Login")
       [("user", VStr user); ("pwd", VStr pwd)].

Definition day_request (isoformat : date -> string) (meter : string) (day : date)
  : request :=
  Get (BASE_URL +:+ "/ConsumptionRecord/Day")
      [("meterId", VStr meter); ("day", VStr (isoformat day))].

Definition mean_profile_request (isoformat : date -> string) (meter : string)
    (day : date) : request :=
  Get (BASE_URL +:+ "/ConsumptionRecord/MeanProfileDay")
      [("meterId", VStr meter); ("day", VStr (isoformat day))].

(** [raise_for_status] lets the status through. *)
Definition passes (r : response) : bool :=
  negb ((400 <=? status_code r) && (status_code r <? 600)).

(** ** Sample data for the examples *)
Module Sample.

(** A stand-in for [date.isoformat]: the ordinal in decimal. *)
Definition isoformat (d : date) : string := pretty d.

Definition json_dumps (indent : option Z) (v : value) : string :=
  match v with
  | VDict _ => "{...}"
  | _ => "?"
  end.

Definition record : value :=
  VDict [("peakDemandTimes", VList [VStr "2023-01-01T00:15:00"]);
         ("meteredValues", VList [VFloat 0.25]);
         ("estimatedValues", VList [VNone]);
         ("meteredPeakDemands", VList [VFloat 1]);
         ("estimatedPeakDemands", VList [VNone])].

Definition mean_profile : value := VList [VFloat 0.2].

Definition ok (v : value) : response :=
  {| status_code := 200; json_body := Some v |}.

Definition is_day_request (r : request) : bool :=
  match r with
  | Get url _ => String.eqb url (BASE_URL +:+ "/ConsumptionRecord/Day")
  | Post _ _ => false
  end.

(** A portal that serves every day as a one-element list. *)
Definition portal (r : request) : response :=
  if is_day_request r then ok (VList [record]) else ok mean_profile.

(** A portal in maintenance mode. *)
Definition portal_maintenance (r : request) : response :=
  {| status_code := 999; json_body := None |}.

(** A portal that serves two candidate records for every day. *)
Definition portal_conflict (r : request) : response :=
  if is_day_request r then ok (VList [record; record]) else ok mean_profile.

(** A portal that serves every day as a bare object. *)
Definition portal_object (r : request) : response :=
  if is_day_request r then ok record else ok mean_profile.

Definition settings : Settings :=
  {| username := "user"; password := "secret"; measure_start_date := 738521;
     storage_path := ["data"]; user_agent := "agent" |}.

Definition meter_path : path := ["data"; "account"; "meter"].

(** The storage root with one metering-point directory. *)
Definition files : gmap (list string) node :=
  <[meter_path := Directory]>
    (<[["data"; "account"] := Directory]> (<[["data"] := Directory]> ∅)).

(** A stand-in for [datetime.fromisoformat] and for the adapter: a
    timestamp is kept as its text, and only texts of the length of
    [YYYY-MM-DDTHH:MM:SS] parse. *)
Definition fromisoformat (s : string) : option string :=
  if (String.length s =? 19)%nat then Some s else None.

Definition adapt_datetime_iso (s : string) : string := s.

(** The day record of the row-correctness example. *)
Definition day_record (T1 T2 : string) : value :=
  VDict [("peakDemandTimes", VList [VStr T1; VStr T2]);
         ("meteredValues", VList [VFloat 1.1; VFloat 2.2]);
         ("estimatedValues", VList [VFloat 0.1; VFloat 0.2]);
         ("meteredPeakDemands", VList [VInt 5; VInt 6]);
         ("estimatedPeakDemands", VList [VFloat 0.5; VFloat 0.6]);
         ("meanProfile", VList [VInt 9; VInt 10])].

(** Two timestamps, but a single metered value. *)
Definition short_record : value :=
  VDict [("peakDemandTimes",
          VList [VStr "2023-01-01T00:15:00"; VStr "2023-01-01T00:30:00"]);
         ("meteredValues", VList [VFloat 1.1]);
         ("estimatedValues", VList [VFloat 0.1; VFloat 0.2]);
         ("meteredPeakDemands", VList [VInt 5; VInt 6]);
         ("estimatedPeakDemands", VList [VFloat 0.5; VFloat 0.6]);
         ("meanProfile", VList [VInt 9; VInt 10])].

(** One stored row, and a table holding it. *)
Definition stored_row : Sqlite.row :=
  {| Sqlite.id := 1; Sqlite.timestamp := "2023-01-01T00:15:00";
     Sqlite.metered := Sqlite.Real 1.1; Sqlite.estimated := Sqlite.Null;
     Sqlite.metered_peak := Sqlite.Null; Sqlite.estimated_peak := Sqlite.Null;
     Sqlite.mean_profile := Sqlite.Null |}.

Definition table : Sqlite.table :=
  {| Sqlite.rows := [stored_row]; Sqlite.sequence := 1 |}.

(** A storage root: one account with one metering point that has a day
    file and no database yet, next to a stray file. *)
Definition tree : list (string * account_entry) :=
  [("account",
    AccountDir
      [("meter",
        MeterDir
          {| entries :=
               [("2023-01-01.json",
                 EFile (Some (day_record "2023-01-01T00:15:00"
                                         "2023-01-01T00:30:00")))];
             database := None |})]);
   (".DS_Store", AccountFile)].

End Sample.

(** ** The rest of the top-level [smartmeter.py]: enumeration and [main] *)

(** Keys of a Python [dict] that are JSON values. *)
Module PyDict.

(** [hash(v)] raises [TypeError] for a list and for a dict. *)
Definition hashable (v : value) : bool :=
  match v with
  | VList _ | VDict _ => false
  | _ => true
  end.

Definition number_of (v : value) : option Q :=
  match v with
  | VBool b => Some (if b then 1%Q else 0%Q)
  | VInt z => Some (inject_Z z)
  | VFloat q => Some q
  | _ => None
  end.

(** [a == b] on hashable values: numbers (and booleans) compare by value. *)
Definition key_eqb (a b : value) : bool :=
  match a, b with
  | VNone, VNone => true
  | VStr s, VStr t => String.eqb s t
  | _, _ =>
      match number_of a, number_of b with
      | Some x, Some y => Qeq_bool x y
      | _, _ => false
      end
  end.

(** [d[key] = v]: an equal key keeps its place and its first spelling. *)
Fixpoint store {V} (d : list (value * V)) (key : value) (v : V)
  : list (value * V) :=
  match d with
  | [] => [(key, v)]
  | (k, x) :: d' =>
      if key_eqb k key then (k, v) :: d' else (k, x) :: store d' key v
  end.

Fixpoint lookup {V} (d : list (value * V)) (key : value) : option V :=
  match d with
  | [] => None
  | (k, x) :: d' => if key_eqb k key then Some x else lookup d' key
  end.

End PyDict.

Module V1Main.
Section Smartmeter.
Variable portal : request -> response.
Variable json_dumps : option Z -> value -> string.
Variable isoformat : date -> string.
Variable _settings : Settings.
(** [datetime.date.today()], the same for the whole run. *)
Variable today : date.

Definition _get_account_ids (self : V1.SmartMeter) : Session (list value) :=
  let url := BASE_URL +:+ "/User/GetAccountIdByBussinespartnerId" in
  response ← Session.get (V1.session self) url [];
  Session.raise_for_status response;;
  logged ← Session.json response;
  Session.log Debug "Response for '%s' was: %s" [url; json_dumps None logged];;
  accounts ← Session.json response;
  accounts ← Session.of_result (Py.iter accounts);
  mapM (fun account => Session.of_result (Py.getitem account "accountId"))
       accounts.

Definition _get_meters (self : V1.SmartMeter) (account_id : value)
  : Session (list value) :=
  let url := BASE_URL +:+ "/User/GetMeteringPointByAccountId" in
  response ← Session.get (V1.session self) url [("accountId", account_id)];
  Session.raise_for_status response;;
  logged ← Session.json response;
  Session.log Debug "Response for '%s' was: %s" [url; json_dumps None logged];;
  entries ← Session.json response;
  entries ← Session.of_result (Py.iter entries);
  mapM (fun entry => Session.of_result (Py.getitem entry "meteringPointId"))
       entries.

(** The dict comprehension of [get_account_meters]: for every account id
    the meters are fetched, then the pair is stored. *)
Fixpoint collect_meters (self : V1.SmartMeter) (account_ids : list value)
    (acc : list (value * list value)) : Session (list (value * list value)) :=
  match account_ids with
  | [] => mret acc
  | account_id :: rest =>
      meters ← _get_meters self account_id;
      if PyDict.hashable account_id
      then collect_meters self rest (PyDict.store acc account_id meters)
      else Session.raise TypeError
  end.

Definition get_account_meters (self : V1.SmartMeter)
  : Session (list (value * list value)) :=
  account_ids ← _get_account_ids self;
  collect_meters self account_ids [].

(** [directory / name]: the name must be a string, and is taken as one
    component of the path. *)
Definition joinpath (directory : path) (name : value) : IO path :=
  match name with
  | VStr s => mret (directory ++ [s])
  | _ => perform (Session.raise TypeError)
  end.

(** [if not d.exists(): d.mkdir()] *)
Definition ensure_dir (d : path) : IO unit :=
  found ← Fs.exists_ d;
  if (found : bool) then mret tt else Fs.mkdir d.

Definition sync_energy_meter (smartmeter : V1.SmartMeter) (account_dir : path)
    (energy_meter : value) : IO unit :=
  energy_meter_dir ← joinpath account_dir energy_meter;
  ensure_dir energy_meter_dir;;
  match energy_meter with
  | VStr name =>
      download_consumptions_for_meter
        (H := V1.smartmeter_like json_dumps isoformat)
        json_dumps isoformat today smartmeter energy_meter_dir name
        (measure_start_date _settings)
  | _ => perform (Session.raise TypeError)
  end.

Definition main : IO unit :=
  smartmeter ← perform (V1.__init__ portal (username _settings) (password _settings));
  acount_meters ← perform (get_account_meters smartmeter);
  for_each acount_meters (fun item =>
    account_dir ← joinpath (storage_path _settings) (fst item);
    ensure_dir account_dir;;
    for_each (snd item) (sync_energy_meter smartmeter account_dir)).

End Smartmeter.
End V1Main.

(** ** More requests and notions for the statements below *)

Definition extend_request : request :=
  Get (BASE_URL +:+ "/Authentication/ExtendSessionLifetime") [].

Definition consumption_info_request : request :=
  Get (BASE_URL +:+ "/User/GetMeteringPointsByBusinesspartnerId")
      [("context", VInt 2)].

Definition account_ids_request : request :=
  Get (BASE_URL +:+ "/User/GetAccountIdByBussinespartnerId") [].

Definition meters_request (account_id : value) : request :=
  Get (BASE_URL +:+ "/User/GetMeteringPointByAccountId")
      [("accountId", account_id)].

(** The portal has a record for the day, but without metered values yet. *)
Definition missing_data {SM : Type} `{SmartMeterLike SM} (smartmeter : SM)
    (energy_meter : string) (day : date) : Prop :=
  exists records metered,
    snd (consumption_records_for_day smartmeter energy_meter day) = Return records /\
    Py.getitem records "meteredValues" = Return metered /\
    Py.truthy metered = false.

(** The directories of a run of [main]. *)
Definition account_path (root : path) (account : string) : path :=
  root ++ [account].
Definition meter_path (root : path) (account meter : string) : path :=
  (root ++ [account]) ++ [meter].

(** A well-formed entry of the enumeration response. *)
Definition describes (entry : value) (info : V2.ConsumptionInfo) : Prop :=
  Py.getitem entry "accountId" = Return (VStr (V2.account_id info)) /\
  Py.getitem entry "meteringPointId" = Return (VStr (V2.metering_point_id info)).

(** The timestamps a day file asks to store. *)
Definition day_timestamps (datetime : Type)
    (fromisoformat : string -> option datetime)
    (adapt_datetime_iso : datetime -> string) (day_path : entry) : list string :=
  match day_params datetime fromisoformat adapt_datetime_iso day_path with
  | Return ps => map Sqlite.timestamp_of ps
  | Raise _ => []
  end.


(** No guard of the reworked importer applies to the tree. *)
Definition plain_account (a : account_entry) : Prop :=
  match a with
  | AccountFile => False
  | AccountDir meters =>
      Forall (fun nm => is_ignored IGNORED_PATH (fst nm) = false) meters
  end.

Definition plain_storage (s : storage) : Prop :=
  Forall (fun na => plain_account (snd na)) s.

(** The two revisions store a timestamp under different texts: the
    top-level one leaves the adapter of [sqlite3] itself in place
    ([val.isoformat(' ')]), the reworked one registers
    [adapt_datetime_iso] ([val.isoformat()]).  Two storage trees are the
    same up to that rendering when they differ in nothing but the texts
    of the stored timestamps, which render the same times. *)
Section Rendering.
Variable datetime : Type.
Variable adapt_datetime : datetime -> string.
Variable adapt_datetime_iso : datetime -> string.

Definition same_row (r1 r2 : Sqlite.row) : Prop :=
  Sqlite.id r1 = Sqlite.id r2 /\
  (exists d, Sqlite.timestamp r1 = adapt_datetime d /\
             Sqlite.timestamp r2 = adapt_datetime_iso d) /\
  Sqlite.metered r1 = Sqlite.metered r2 /\
  Sqlite.estimated r1 = Sqlite.estimated r2 /\
  Sqlite.metered_peak r1 = Sqlite.metered_peak r2 /\
  Sqlite.estimated_peak r1 = Sqlite.estimated_peak r2 /\
  Sqlite.mean_profile r1 = Sqlite.mean_profile r2.

Definition same_table (t1 t2 : Sqlite.table) : Prop :=
  Forall2 same_row (Sqlite.rows t1) (Sqlite.rows t2) /\
  Sqlite.sequence t1 = Sqlite.sequence t2.

Definition same_database (db1 db2 : option Sqlite.table) : Prop :=
  match db1, db2 with
  | Some t1, Some t2 => same_table t1 t2
  | None, None => True
  | _, _ => False
  end.

Definition same_meter (m1 m2 : meter_entry) : Prop :=
  match m1, m2 with
  | MeterFile, MeterFile => True
  | MeterDir d1, MeterDir d2 =>
      entries d1 = entries d2 /\ same_database (database d1) (database d2)
  | _, _ => False
  end.

Definition same_account (a1 a2 : account_entry) : Prop :=
  match a1, a2 with
  | AccountFile, AccountFile => True
  | AccountDir meters1, AccountDir meters2 =>
      Forall2 (fun x y => fst x = fst y /\ same_meter (snd x) (snd y))
              meters1 meters2
  | _, _ => False
  end.

Definition same_storage (s1 s2 : storage) : Prop :=
  Forall2 (fun x y => fst x = fst y /\ same_account (snd x) (snd y)) s1 s2.

End Rendering.

(** A computation that leaves every existing entry as it is. *)
Definition keeps_entries {A} (c : IO A) : Prop :=
  forall fs p n, fs !! p = Some n -> files_of (c fs) !! p = Some n.

(** A computation that adds nothing but entries that are [allowed]. *)
Definition adds_only {A} (allowed : path -> node -> Prop) (c : IO A) : Prop :=
  forall fs p n,
    files_of (c fs) !! p = Some n -> fs !! p = Some n \/ allowed p n.

(** What a run of [main] adds beneath the storage root: directories, and
    files three levels down (the day files). *)
Definition directory_or_day_file (root : path) (p : path) (n : node) : Prop :=
  n = Directory \/ length p = (length root + 3)%nat.

(** No two keys of the dict are equal. *)
Definition distinct_keys {V} (d : list (value * V)) : Prop :=
  ForallOrdPairs (fun x y => PyDict.key_eqb (fst x) (fst y) = false) d.

(** The day response gets past the checks of
    [get_consumption_records_for_day]: a status that passes, a JSON body,
    and not a list of more than one candidate. *)
Definition accepted (r : response) : bool :=
  passes r &&
  match json_body r with
  | Some v => negb (Py.is_list v && (1 <? Py.len v))
  | None => false
  end.

(** What a run of inserts does to the rows: it appends rows whose
    timestamps are new and distinct, with ids above all the ids before. *)
Definition appended (t t' : Sqlite.table) (new : list Sqlite.row) : Prop :=
  Sqlite.rows t' = Sqlite.rows t ++ new /\
  NoDup (map Sqlite.timestamp new) /\
  (forall r, In r new -> ~ In (Sqlite.timestamp r) (Sqlite.timestamps t)) /\
  (forall r r0, In r new -> In r0 (Sqlite.rows t) -> Sqlite.id r0 < Sqlite.id r) /\
  (NoDup (map Sqlite.id (Sqlite.rows t)) -> NoDup (map Sqlite.id (Sqlite.rows t'))).

(** ** More sample data *)
Module Fixture.

Definition url_of (r : request) : string :=
  match r with
  | Post url _ => url
  | Get url _ => url
  end.

Definition enumeration : value :=
  VList [VDict [("accountId", VStr "account"); ("meteringPointId", VStr "meter")]].

(** A portal that answers every request of both revisions: one account
    with one metering point, and a record for every day. *)
Definition portal (r : request) : response :=
  if String.eqb (url_of r) (BASE_URL +:+ "/ConsumptionRecord/Day")
  then Sample.ok (VList [Sample.record])
  else if String.eqb (url_of r) (BASE_URL +:+ "/ConsumptionRecord/MeanProfileDay")
  then Sample.ok Sample.mean_profile
  else if String.eqb (url_of r)
            (BASE_URL +:+ "/User/GetMeteringPointsByBusinesspartnerId")
  then Sample.ok enumeration
  else if String.eqb (url_of r)
            (BASE_URL +:+ "/User/GetAccountIdByBussinespartnerId")
  then Sample.ok (VList [VDict [("accountId", VStr "account")];
                         VDict [("accountId", VStr "account")]])
  else if String.eqb (url_of r) (BASE_URL +:+ "/User/GetMeteringPointByAccountId")
  then Sample.ok (VList [VDict [("meteringPointId", VStr "meter")]])
  else Sample.ok VNone.

(** A portal in maintenance mode as the top-level revision meets it: the
    login is answered with status 999, and every other request as the
    revision expects it, a day being served as a bare object. *)
Definition portal_maintenance (r : request) : response :=
  match r with
  | Post _ _ => {| status_code := 999; json_body := None |}
  | Get _ _ => if Sample.is_day_request r then Sample.ok Sample.record
               else portal r
  end.

(** A stand-in for the adapter of [sqlite3] itself: another rendering of
    the time that [Sample.adapt_datetime_iso] renders as its text. *)
Definition adapt_datetime (s : string) : string := " " +:+ s.

(** A portal whose day records have no metered values yet. *)
Definition portal_no_data (r : request) : response :=
  if Sample.is_day_request r
  then Sample.ok (VList [VDict [("meteredValues", VList [])]])
  else Sample.ok Sample.mean_profile.

(** A portal that answers a day with an empty list. *)
Definition portal_empty_list (r : request) : response :=
  if Sample.is_day_request r then Sample.ok (VList [])
  else Sample.ok Sample.mean_profile.

(** Only the storage root exists. *)
Definition root : gmap (list string) node := <[["data"] := Directory]> ∅.

(** A metering-point directory whose second day file is not JSON. *)
Definition broken_days : list (string * entry) :=
  [("2023-01-01.json",
    EFile (Some (Sample.day_record "2023-01-01T00:15:00" "2023-01-01T00:30:00")));
   ("2023-01-02.json", EFile None)].

(** A storage tree no guard of the reworked importer applies to. *)
Definition plain_tree : list (string * account_entry) :=
  [("account",
    AccountDir [("meter", MeterDir {| entries := broken_days; database := None |})])].

(** A day record without metered values, as lists. *)
Definition empty_record : value :=
  VDict [("peakDemandTimes", VList [VStr "2023-01-01T00:15:00"]);
         ("meteredValues", VList []);
         ("estimatedValues", VList [VNone]);
         ("meteredPeakDemands", VList [VNone]);
         ("estimatedPeakDemands", VList [VNone]);
         ("meanProfile", VList [VFloat 0.2])].

End Fixture.

(** * Properties of the fetcher *)

(** A few evaluations of the embedded functions. *)

Example range_three : Py.range 3 = [0; 1; 2].
Proof. reflexivity. Qed.

Example range_negative : Py.range (-2) = [].
Proof. reflexivity. Qed.

Example merge_overwrites_in_place :
  Py.dict_merge [("meanProfile", VNone); ("meteredValues", VList [])]
                [("meanProfile", VInt 1)] =
  [("meanProfile", VInt 1); ("meteredValues", VList [])].
Proof. reflexivity. Qed.

Example index_of_object : Py.getitem0 Sample.record = Raise KeyError.
Proof. reflexivity. Qed.

Example glob_keeps_day_files :
  map fst (sorted (glob_json [("consumption_data.db", EFile None);
                              ("2023-01-02.json", EFile None);
                              (".DS_Store", EFile None);
                              ("2023-01-01.json", EFile None)])) =
  ["2023-01-01.json"; "2023-01-02.json"].
Proof. reflexivity. Qed.

Example fetch_from_sample_portal :
  snd (V2.get_consumption_records_for_day Sample.json_dumps Sample.isoformat
         {| V2.session := Sample.portal |} "meter" 738521 true) =
  Py.or_dict Sample.record [("meanProfile", Sample.mean_profile)].
Proof. reflexivity. Qed.

Example first_day_is_written :
  written (trace_of
    (download_consumptions_for_meter
       (H := V2.smartmeter_like Sample.json_dumps Sample.isoformat)
       Sample.json_dumps Sample.isoformat 738522
       {| V2.session := Sample.portal |} Sample.meter_path "meter" 738521
       Sample.files)) =
  [Sample.meter_path ++ ["738521.json"]].
Proof. vm_compute. reflexivity. Qed.

Example sample_tree_is_imported :
  storage_rows
    (fst (ImportV2.import_data string Sample.fromisoformat
            Sample.adapt_datetime_iso true Sample.tree)) =
  [("account",
    [("meter",
      Some [{| Sqlite.id := 1; Sqlite.timestamp := "2023-01-01T00:15:00";
               Sqlite.metered := Sqlite.Real 1.1;
               Sqlite.estimated := Sqlite.Real 0.1;
               Sqlite.metered_peak := Sqlite.Integer 5;
               Sqlite.estimated_peak := Sqlite.Real 0.5;
               Sqlite.mean_profile := Sqlite.Integer 9 |};
            {| Sqlite.id := 2; Sqlite.timestamp := "2023-01-01T00:30:00";
               Sqlite.metered := Sqlite.Real 2.2;
               Sqlite.estimated := Sqlite.Real 0.2;
               Sqlite.metered_peak := Sqlite.Integer 6;
               Sqlite.estimated_peak := Sqlite.Real 0.6;
               Sqlite.mean_profile := Sqlite.Integer 10 |}])]);
   (".DS_Store", [])].
Proof. vm_compute. reflexivity. Qed.

Example sample_tree_stops_the_first_revision :
  snd (ImportV1.import_data string Sample.fromisoformat
         Sample.adapt_datetime_iso true Sample.tree) = Raise NotADirectoryError.
Proof. vm_compute. reflexivity. Qed.

Lemma probed_app t1 t2 : probed (t1 ++ t2) = probed t1 ++ probed t2.
Proof. unfold probed. apply flat_map_app. Qed.

Lemma written_app t1 t2 : written (t1 ++ t2) = written t1 ++ written t2.
Proof. unfold written. apply flat_map_app. Qed.

Lemma fetched_app t1 t2 : fetched (t1 ++ t2) = fetched t1 ++ fetched t2.
Proof. unfold fetched. apply flat_map_app. Qed.

Lemma probed_net (t : list net_event) : probed (map Net t) = [].
Proof. induction t; simpl; auto. Qed.

Lemma written_net (t : list net_event) : written (map Net t) = [].
Proof. induction t; simpl; auto. Qed.

Lemma fetched_net (t : list net_event) : fetched (map Net t) = [].
Proof. induction t; simpl; auto. Qed.

Lemma range_nonpositive n : n <= 0 -> Py.range n = [].
Proof.
  intros Hn. unfold Py.range.
  replace (Z.to_nat n) with 0%nat by lia. reflexivity.
Qed.

Lemma list_ascii_of_append s t :
  list_ascii_of_string (s +:+ t) = list_ascii_of_string s ++ list_ascii_of_string t.
Proof. induction s as [|a s IH]; simpl; [reflexivity | now rewrite IH]. Qed.

Lemma append_cancel_r s1 s2 t : s1 +:+ t = s2 +:+ t -> s1 = s2.
Proof.
  intros Heq.
  apply (f_equal list_ascii_of_string) in Heq.
  rewrite !list_ascii_of_append in Heq.
  apply app_inv_tail in Heq.
  rewrite <- (string_of_list_ascii_of_string s1),
          <- (string_of_list_ascii_of_string s2).
  now rewrite Heq.
Qed.

Section Loop.
Context {SM : Type} `{SmartMeterLike SM}.
Variable json_dumps : option Z -> value -> string.
Variable isoformat : date -> string.
Variable smartmeter : SM.
Variable storage_path : path.
Variable energy_meter : string.

Let file := json_file isoformat storage_path.
Let body := download_day json_dumps isoformat smartmeter storage_path energy_meter.

(** One iteration, case by case; [dbg] and [err] are its two log lines. *)
Lemma download_day_eq (day : date) :
  exists dbg err : net_event, forall fs,
    body day fs =
    match fs !! file day with
    | Some _ => ([Probed (file day); Net dbg], fs, Return tt)
    | None =>
        let call := Fetch energy_meter day
                      (fst (consumption_records_for_day smartmeter energy_meter day)) in
        match snd (consumption_records_for_day smartmeter energy_meter day) with
        | Raise e => ([Probed (file day); call], fs, Raise e)
        | Return records =>
            match Py.getitem records "meteredValues" with
            | Raise e => ([Probed (file day); call], fs, Raise e)
            | Return metered =>
                if Py.truthy metered then
                  match Fs.parent_error fs (file day) with
                  | Some e => ([Probed (file day); call], fs, Raise e)
                  | None =>
                      ([Probed (file day); call;
                        Wrote (file day) (json_dumps (Some 4) records)],
                       <[file day := File (json_dumps (Some 4) records)]> fs,
                       Return tt)
                  end
                else ([Probed (file day); call; Net err], fs, Return tt)
            end
        end
    end.
Proof.
  eexists _, _. intros fs. subst body file.
  unfold download_day, mbind, io_bind, Fs.exists_.
  destruct (fs !! json_file isoformat storage_path day) as [n|] eqn:Hf.
  - cbn. reflexivity.
  - unfold fetch.
    destruct (consumption_records_for_day smartmeter energy_meter day)
      as [traffic [records|e]]; [|reflexivity].
    unfold perform, Session.of_result. cbn [fst snd map].
    destruct (Py.getitem records "meteredValues") as [metered|e]; [|reflexivity].
    destruct (Py.truthy metered); cbn [negb].
    + unfold Fs.write_text. rewrite Hf.
      destruct (Fs.parent_error fs _); reflexivity.
    + cbn. reflexivity.
Qed.


(** No iteration removes a file. *)
Lemma download_day_keeps day fs p :
  is_Some (fs !! p) -> is_Some (files_of (body day fs) !! p).
Proof.
  intros Hp. destruct (download_day_eq day) as (dbg & err & ->).
  repeat case_match; cbn; try assumption.
  destruct (decide (file day = p)) as [->|Hne].
  - rewrite lookup_insert_eq. eauto.
  - rewrite lookup_insert_ne; auto.
Qed.

(** An iteration whose file exists does nothing else. *)
Lemma download_day_skip day fs :
  is_Some (fs !! file day) ->
  fetched (trace_of (body day fs)) = [] /\
  written (trace_of (body day fs)) = [] /\
  files_of (body day fs) = fs /\
  result_of (body day fs) = Return tt.
Proof.
  intros [n Hn]. destruct (download_day_eq day) as (dbg & err & ->).
  rewrite Hn. cbn. destruct dbg; auto.
Qed.

(** An iteration fetches and writes for its own day only. *)
Lemma download_day_own day fs :
  incl (fetched (trace_of (body day fs))) [(energy_meter, day)] /\
  incl (written (trace_of (body day fs))) [file day].
Proof.
  destruct (download_day_eq day) as (dbg & err & ->).
  repeat case_match; cbn; destruct dbg, err; cbn;
    split; (apply incl_refl || apply incl_nil_l).
Qed.

(** A failing iteration has written nothing. *)
Lemma download_day_raise day fs e :
  result_of (body day fs) = Raise e ->
  files_of (body day fs) = fs /\ written (trace_of (body day fs)) = [].
Proof.
  destruct (download_day_eq day) as (dbg & err & ->).
  repeat case_match; cbn; intros; try discriminate; destruct dbg; auto.
Qed.

(** Repeating a successful iteration on files that have grown since
    leaves them alone. *)
Lemma download_day_rerun day fs fs1 :
  result_of (body day fs) = Return tt ->
  (forall p, is_Some (files_of (body day fs) !! p) -> is_Some (fs1 !! p)) ->
  files_of (body day fs1) = fs1 /\
  result_of (body day fs1) = Return tt /\
  written (trace_of (body day fs1)) = [].
Proof.
  destruct (download_day_eq day) as (dbg & err & E). rewrite !E. clear E.
  intros Hr Hgrow.
  destruct (fs1 !! file day) as [n1|] eqn:H1.
  { cbn. destruct dbg; auto. }
  assert (Hnot : ~ is_Some (fs1 !! file day)) by (rewrite H1; apply is_Some_None).
  destruct (fs !! file day) as [n|] eqn:H0.
  { exfalso. apply Hnot, Hgrow. cbn. eauto. }
  cbv zeta in *.
  destruct (snd (consumption_records_for_day smartmeter energy_meter day))
    as [records|e]; [|discriminate].
  destruct (Py.getitem records "meteredValues") as [metered|e]; [|discriminate].
  destruct (Py.truthy metered).
  - destruct (Fs.parent_error fs (file day)); [discriminate|].
    exfalso. apply Hnot, Hgrow. cbn. rewrite lookup_insert_eq. eauto.
  - cbn. destruct err; auto.
Qed.

(** When fetching fails for every day stored under [p], nothing is ever
    written there. *)
Lemma download_day_unwritable day fs p :
  (forall d, file d = p ->
     is_raise (snd (consumption_records_for_day smartmeter energy_meter d)) = true) ->
  ~ In p (written (trace_of (body day fs))) /\
  (fs !! p = None -> files_of (body day fs) !! p = None) /\
  (file day = p -> fs !! p = None -> is_raise (result_of (body day fs)) = true).
Proof.
  intros Hfail.
  destruct (download_day_eq day) as (dbg & err & ->).
  destruct (decide (file day = p)) as [Heq|Hne].
  - specialize (Hfail day Heq). rewrite Heq.
    destruct (fs !! p) eqn:Hp.
    + cbn. destruct dbg; cbn; repeat split; auto; discriminate.
    + cbv zeta.
      destruct (snd (consumption_records_for_day smartmeter energy_meter day));
        [discriminate|].
      cbn. repeat split; auto.
  - repeat case_match; cbn; destruct dbg, err; cbn;
      (split; [intuition congruence|]);
      (split; [|intros; contradiction]);
      try (intros; assumption).
    all: intros Hp; rewrite lookup_insert_ne; auto.
Qed.

Lemma for_each_cons {A} (x : A) xs (f : A -> IO unit) fs :
  for_each (x :: xs) f fs =
  match f x fs with
  | (t, fs', Return _) =>
      let '(t', fs'', r) := for_each xs f fs' in (t ++ t', fs'', r)
  | (t, fs', Raise e) => (t, fs', Raise e)
  end.
Proof. reflexivity. Qed.

Ltac outcome := cbn [trace_of files_of result_of fst snd] in *.

Ltac loop_step d fs Hbody :=
  rewrite for_each_cons;
  destruct (body d fs) as [[?t ?fs] [[]|?e]] eqn:Hbody.

Lemma loop_keeps days fs p :
  is_Some (fs !! p) -> is_Some (files_of (for_each days body fs) !! p).
Proof.
  revert fs. induction days as [|d days IH]; intros fs Hp; [exact Hp|].
  pose proof (download_day_keeps d fs p Hp) as Hd.
  loop_step d fs Hb; outcome; [|exact Hd].
  specialize (IH _ Hd).
  destruct (for_each days body fs0) as [[t' fs''] r]. exact IH.
Qed.


(** A file that exists is neither fetched again nor written. *)
Lemma loop_existing days fs day :
  is_Some (fs !! file day) ->
  ~ In (energy_meter, day) (fetched (trace_of (for_each days body fs))) /\
  ~ In (file day) (written (trace_of (for_each days body fs))).
Proof.
  revert fs. induction days as [|d days IH]; intros fs Hp; [cbn; auto|].
  assert (Hd : ~ In (energy_meter, day) (fetched (trace_of (body d fs))) /\
               ~ In (file day) (written (trace_of (body d fs)))).
  { destruct (decide (file d = file day)) as [Heq|Hne].
    - rewrite <- Heq in Hp.
      destruct (download_day_skip d fs Hp) as (-> & -> & _). cbn. auto.
    - destruct (download_day_own d fs) as [Hf Hw]. split; intros Hin.
      + apply Hf in Hin. cbn in Hin. destruct Hin as [Hin|[]].
        inversion Hin; subst. congruence.
      + apply Hw in Hin. cbn in Hin. intuition. }
  pose proof (download_day_keeps d fs _ Hp) as Hk.
  loop_step d fs Hb; outcome; [|exact Hd].
  specialize (IH _ Hk).
  destruct (for_each days body fs0) as [[t' fs''] r]. outcome.
  rewrite fetched_app, written_app, !in_app_iff. tauto.
Qed.

(** Running the loop again on the files it left writes nothing. *)
Lemma loop_rerun days fs :
  written (trace_of (for_each days body (files_of (for_each days body fs)))) = [] /\
  files_of (for_each days body (files_of (for_each days body fs))) =
    files_of (for_each days body fs) /\
  result_of (for_each days body (files_of (for_each days body fs))) =
    result_of (for_each days body fs).
Proof.
  revert fs. induction days as [|d days IH]; intros fs; [cbn; auto|].
  rewrite (for_each_cons d days body fs).
  destruct (body d fs) as [[t fa] [[]|e]] eqn:Hb.
  - specialize (IH fa).
    pose proof (fun p => loop_keeps days fa p) as Hgrow.
    destruct (for_each days body fa) as [[t1 f1] r1] eqn:Hrest. outcome.
    destruct (download_day_rerun d fs f1) as (Hf & Hr & Hw).
    { rewrite Hb. reflexivity. }
    { rewrite Hb. exact Hgrow. }
    rewrite for_each_cons.
    destruct (body d f1) as [[t2 f2] r2]. outcome. subst f2 r2.
    destruct (for_each days body f1) as [[t1' f1'] r1']. outcome.
    rewrite written_app, Hw. tauto.
  - destruct (download_day_raise d fs e) as [Hf Hw]; [rewrite Hb; reflexivity|].
    rewrite Hb in Hf, Hw. outcome. subst fa.
    rewrite for_each_cons, Hb. cbn. auto.
Qed.

(** Days whose fetch always fails: their file is never written, stays
    absent, and reaching one of them ends the loop with an exception. *)
Lemma loop_unwritable days fs p :
  (forall d, file d = p ->
     is_raise (snd (consumption_records_for_day smartmeter energy_meter d)) = true) ->
  ~ In p (written (trace_of (for_each days body fs))) /\
  (fs !! p = None -> files_of (for_each days body fs) !! p = None) /\
  (fs !! p = None -> (exists d, In d days /\ file d = p) ->
   is_raise (result_of (for_each days body fs)) = true).
Proof.
  intros Hfail. revert fs. induction days as [|d days IH]; intros fs.
  - cbn. repeat split; auto. intros _ (d & [] & _).
  - destruct (download_day_unwritable d fs p Hfail) as (Hw & Hk & Hr).
    loop_step d fs Hb; outcome.
    + destruct (IH fs0) as (Hw' & Hk' & Hr').
      destruct (for_each days body fs0) as [[t' fs''] r]. outcome.
      rewrite written_app, in_app_iff. repeat split.
      * tauto.
      * auto.
      * intros Hp (d' & [->|Hin] & Hd').
        -- specialize (Hr Hd' Hp). discriminate.
        -- apply Hr'; eauto.
    + cbn. auto.
Qed.

End Loop.

Section Sync.
Context {SM : Type} `{SmartMeterLike SM}.
Variable json_dumps : option Z -> value -> string.
Variable isoformat : date -> string.

Lemma day_range_eq today start :
  day_range today start =
  map (fun i => start + Z.of_nat i) (seq 0 (Z.to_nat (today - start))).
Proof. unfold day_range, Py.range. now rewrite map_map. Qed.

Lemma day_range_members today start d :
  In d (day_range today start) <-> start <= d < today.
Proof.
  rewrite day_range_eq, in_map_iff. split.
  - intros (i & <- & Hi). apply in_seq in Hi. lia.
  - intros Hd. exists (Z.to_nat (d - start)). split; [lia|].
    apply in_seq. lia.
Qed.


(** C10: when [start_date] is on or after the current date the day range is
    empty and [download_consumptions_for_meter] returns normally with an
    empty trace (no existence test, no fetch, no write) and the files
    untouched. *)
Theorem sync_from_today_or_later_is_empty
    (today start_date : date) (smartmeter : SM) (storage_path : path)
    (energy_meter : string) (fs : gmap (list string) node) :
  today <= start_date ->
  day_range today start_date = [] /\
  download_consumptions_for_meter json_dumps isoformat today smartmeter
    storage_path energy_meter start_date fs = ([], fs, Return tt).
Proof.
  intros Hle.
  assert (Hr : day_range today start_date = []).
  { unfold day_range. rewrite range_nonpositive by lia. reflexivity. }
  split; [exact Hr|].
  unfold download_consumptions_for_meter. rewrite Hr. reflexivity.
Qed.


(** C9: a day whose file exists is neither fetched nor written, and a
    second run of [download_consumptions_for_meter] with the same
    arguments, the same date and the same answers of the portal, started
    on the files the first run left, writes nothing, leaves the files as
    they are and ends as the first run did. *)
Theorem sync_skips_existing_and_rerun_writes_nothing
    (today start_date : date) (smartmeter : SM) (storage_path : path)
    (energy_meter : string) (fs : gmap (list string) node) :
  let sync := download_consumptions_for_meter json_dumps isoformat today
                smartmeter storage_path energy_meter start_date in
  (forall day,
     In day (day_range today start_date) ->
     is_Some (fs !! json_file isoformat storage_path day) ->
     ~ In (energy_meter, day) (fetched (trace_of (sync fs))) /\
     ~ In (json_file isoformat storage_path day) (written (trace_of (sync fs)))) /\
  written (trace_of (sync (files_of (sync fs)))) = [] /\
  files_of (sync (files_of (sync fs))) = files_of (sync fs) /\
  result_of (sync (files_of (sync fs))) = result_of (sync fs).
Proof.
  intros sync. split.
  - intros day _ Hday. apply loop_existing. exact Hday.
  - apply loop_rerun.
Qed.

End Sync.

Section Reworked.
Variable json_dumps : option Z -> value -> string.
Variable isoformat : date -> string.

Ltac session_simpl :=
  cbv beta iota zeta delta
    [V2.get_consumption_records_for_day V2._get_mean_profile_for_day
     V2._login V2._extend_session_lifetime V2.__init__
     V1.get_consumption_records_for_day V1._get_mean_profile_for_day
     V1._login V1.__init__
     Session.raise_for_status Session.json Session.log Session.sys_exit
     Session.print Session.raise Session.of_result Session.get Session.post
     mbind session_bind mret session_ret fst snd
     day_request mean_profile_request login_request passes] in *.

Ltac name_responses self :=
  try set (resp := V2.session self (Get (BASE_URL +:+ "/ConsumptionRecord/Day") _)) in *;
  try set (mean := V2.session self
                     (Get (BASE_URL +:+ "/ConsumptionRecord/MeanProfileDay") _)) in *.

(** More than one candidate record: the method ends in [sys.exit(1)],
    unless [raise_for_status] has already raised. *)
Lemma records_conflict (self : V2.SmartMeter) (m : string) (d : date)
    (include : bool) (l : list value) :
  json_body (V2.session self (day_request isoformat m d)) = Some (VList l) ->
  (1 < length l)%nat ->
  snd (V2.get_consumption_records_for_day json_dumps isoformat self m d include) =
  Raise (if passes (V2.session self (day_request isoformat m d))
         then SystemExit 1
         else HTTPError (status_code (V2.session self (day_request isoformat m d)))).
Proof.
  intros Hbody Hlen. session_simpl. name_responses self.
  destruct ((400 <=? status_code resp) && (status_code resp <? 600));
    cbn [negb]; [reflexivity|].
  rewrite Hbody. cbn [Py.is_list Py.len andb].
  replace (1 <? Z.of_nat (length l)) with true
    by (symmetry; apply Z.ltb_lt; lia).
  reflexivity.
Qed.

(** A one-element list holding a dict is accepted: the result is its
    element, with the mean profile merged in when that is asked for. *)
Lemma records_singleton (self : V2.SmartMeter) (m : string) (d : date)
    (record : list (string * value)) (profile : value) :
  passes (V2.session self (day_request isoformat m d)) = true ->
  json_body (V2.session self (day_request isoformat m d)) =
    Some (VList [VDict record]) ->
  passes (V2.session self (mean_profile_request isoformat m d)) = true ->
  json_body (V2.session self (mean_profile_request isoformat m d)) = Some profile ->
  snd (V2.get_consumption_records_for_day json_dumps isoformat self m d false) =
    Return (VDict record) /\
  snd (V2.get_consumption_records_for_day json_dumps isoformat self m d true) =
    Return (VDict (Py.dict_merge record [("meanProfile", profile)])).
Proof.
  intros Hok Hbody Hok' Hbody'. session_simpl. name_responses self.
  apply negb_true_iff in Hok, Hok'. rewrite Hok, Hok', Hbody, Hbody'.
  split; reflexivity.
Qed.

(** C5: on [src/smartmeter.py] a day response that is a bare record object
    passes the [isinstance] test and is then indexed with [0]: the method
    never returns it.  It raises [KeyError] as soon as the requests
    themselves succeed. *)
Theorem records_single_object_raises (self : V2.SmartMeter) (m : string)
    (d : date) (include : bool) (record : list (string * value)) :
  json_body (V2.session self (day_request isoformat m d)) = Some (VDict record) ->
  is_raise (snd (V2.get_consumption_records_for_day json_dumps isoformat
                   self m d include)) = true /\
  (passes (V2.session self (day_request isoformat m d)) = true ->
   snd (V2.get_consumption_records_for_day json_dumps isoformat self m d false) =
     Raise KeyError) /\
  (passes (V2.session self (day_request isoformat m d)) = true ->
   passes (V2.session self (mean_profile_request isoformat m d)) = true ->
   is_Some (json_body (V2.session self (mean_profile_request isoformat m d))) ->
   snd (V2.get_consumption_records_for_day json_dumps isoformat self m d true) =
     Raise KeyError).
Proof.
  intros Hbody. session_simpl. name_responses self.
  rewrite Hbody. cbn [Py.is_list andb Py.getitem0].
  split; [|split].
  - destruct ((400 <=? status_code resp) && (status_code resp <? 600));
      [reflexivity|].
    destruct include; cbn [negb]; [|reflexivity].
    destruct ((400 <=? status_code mean) && (status_code mean <? 600));
      [reflexivity|].
    destruct (json_body mean); reflexivity.
  - intros Hok. apply negb_true_iff in Hok. rewrite Hok. reflexivity.
  - intros Hok Hok' [profile Hp].
    apply negb_true_iff in Hok, Hok'. rewrite Hok, Hok', Hp. reflexivity.
Qed.

(** The top-level revision is the other way round: it returns a bare
    object and cannot merge the mean profile into a list. *)
Lemma V1_records_object_only (self : V1.SmartMeter) (m : string) (d : date)
    (v profile : value) :
  passes (V1.session self (day_request isoformat m d)) = true ->
  json_body (V1.session self (day_request isoformat m d)) = Some v ->
  passes (V1.session self (mean_profile_request isoformat m d)) = true ->
  json_body (V1.session self (mean_profile_request isoformat m d)) = Some profile ->
  snd (V1.get_consumption_records_for_day json_dumps isoformat self m d true) =
    Py.or_dict v [("meanProfile", profile)].
Proof.
  intros Hok Hbody Hok' Hbody'. session_simpl.
  apply negb_true_iff in Hok, Hok'. rewrite Hok, Hok', Hbody, Hbody'.
  reflexivity.
Qed.

(** C7: when the day response for a day is a list of more than one
    candidate record, [get_consumption_records_for_day] ends in an
    exception ([sys.exit(1)] once the status has passed), so in every run
    of [download_consumptions_for_meter] the file of that day is never
    written and stays absent, and a run that reaches the day ends with an
    exception. *)
Theorem conflicting_records_abort_before_write
    (today start_date : date) (self : V2.SmartMeter) (storage_path : path)
    (energy_meter : string) (fs : gmap (list string) node)
    (day : date) (l : list value) :
  json_body (V2.session self (day_request isoformat energy_meter day)) =
    Some (VList l) ->
  (1 < length l)%nat ->
  let sync := download_consumptions_for_meter
                (H := V2.smartmeter_like json_dumps isoformat)
                json_dumps isoformat today self storage_path energy_meter
                start_date in
  snd (V2.get_consumption_records_for_day json_dumps isoformat
         self energy_meter day true) =
    Raise (if passes (V2.session self (day_request isoformat energy_meter day))
           then SystemExit 1
           else HTTPError (status_code (V2.session self
                             (day_request isoformat energy_meter day)))) /\
  ~ In (json_file isoformat storage_path day) (written (trace_of (sync fs))) /\
  (fs !! json_file isoformat storage_path day = None ->
   files_of (sync fs) !! json_file isoformat storage_path day = None) /\
  (In day (day_range today start_date) ->
   fs !! json_file isoformat storage_path day = None ->
   is_raise (result_of (sync fs)) = true).
Proof.
  intros Hbody Hlen sync.
  split; [apply (records_conflict _ _ _ _ l); assumption|].
  assert (Hfail : forall d,
            json_file isoformat storage_path d = json_file isoformat storage_path day ->
            is_raise (snd (consumption_records_for_day
                             (SmartMeterLike := V2.smartmeter_like json_dumps isoformat)
                             self energy_meter d)) = true).
  { intros d Hd. unfold json_file in Hd.
    apply app_inj_1 in Hd as [_ Hd]; [|reflexivity]. injection Hd as Hd.
    apply append_cancel_r in Hd.
    unfold consumption_records_for_day, V2.smartmeter_like.
    rewrite (records_conflict self energy_meter d true l).
    - reflexivity.
    - unfold day_request. rewrite Hd. exact Hbody.
    - exact Hlen. }
  destruct (loop_unwritable json_dumps isoformat self storage_path energy_meter
              (day_range today start_date) fs _ Hfail) as (Hw & Hk & Hr).
  repeat split; auto.
  intros Hin Hnone. apply Hr; eauto.
Qed.

(** The reworked revision: when the login response carries status 999,
    [main] prints the diagnostic and ends in [sys.exit(1)].  The login
    request is the only request of the run: it is not repeated, and no
    enumeration, directory test or day fetch follows; the files are
    untouched. *)
Lemma reworked_main_halts_at_maintenance
    (portal : request -> response) (_settings : Settings) (today : date)
    (fs : gmap (list string) node) :
  status_code (portal (login_request (username _settings) (password _settings)))
    = 999 ->
  exists diagnostic,
    V2.main portal json_dumps isoformat _settings today fs =
      ([Net (Sent (login_request (username _settings) (password _settings)));
        Net (Printed diagnostic)],
       fs, Raise (SystemExit 1)) /\
    requests (trace_of (V2.main portal json_dumps isoformat _settings today fs)) =
      [login_request (username _settings) (password _settings)] /\
    fetched (trace_of (V2.main portal json_dumps isoformat _settings today fs)) = [].
Proof.
  intros Hstatus.
  assert (Hinit : exists diagnostic,
            V2.__init__ portal (username _settings) (password _settings) =
            ([Sent (login_request (username _settings) (password _settings));
              Printed diagnostic], Raise (SystemExit 1))).
  { eexists. session_simpl. cbn [V2.session]. rewrite Hstatus. reflexivity. }
  destruct Hinit as [diagnostic Hinit]. exists diagnostic.
  assert (Hmain : V2.main portal json_dumps isoformat _settings today fs =
            ([Net (Sent (login_request (username _settings) (password _settings)));
              Net (Printed diagnostic)], fs, Raise (SystemExit 1))).
  { unfold V2.main. unfold mbind at 1. unfold io_bind, perform.
    rewrite Hinit. reflexivity. }
  rewrite Hmain. repeat split.
Qed.

(** The top-level revision has no such test: with status 999 its login
    returns normally and the run goes on. *)
Lemma V1_login_ignores_maintenance (portal : request -> response)
    (user pwd : string) :
  status_code (portal (login_request user pwd)) = 999 ->
  snd (V1.__init__ portal user pwd) = Return {| V1.session := portal |}.
Proof.
  intros Hstatus. session_simpl. cbn [V1.session]. rewrite Hstatus. reflexivity.
Qed.

End Reworked.

(** * Properties of the importer *)

Section Table.
Variable consumed : bool.

Lemma conflict_In t ts :
  Sqlite.conflict t ts = true <-> In ts (Sqlite.timestamps t).
Proof.
  unfold Sqlite.conflict, Sqlite.timestamps.
  rewrite existsb_exists, in_map_iff.
  split; intros (r & H1 & H2); exists r.
  - apply String.eqb_eq in H2. auto.
  - split; [assumption|]. now apply String.eqb_eq.
Qed.

(** An insert whose timestamp is stored changes no row. *)
Lemma insert_present t p :
  In (Sqlite.timestamp_of p) (Sqlite.timestamps t) ->
  Sqlite.rows (Sqlite.insert consumed t p) = Sqlite.rows t.
Proof.
  intros Hin. apply conflict_In in Hin.
  destruct p as [[[[[ts m] e] mp] ep] mean]. cbn in *. now rewrite Hin.
Qed.

(** An insert whose timestamp is new appends one row, with these columns. *)
Lemma insert_absent t p :
  ~ In (Sqlite.timestamp_of p) (Sqlite.timestamps t) ->
  exists r, Sqlite.rows (Sqlite.insert consumed t p) = Sqlite.rows t ++ [r] /\
            columns r = p /\ Sqlite.id r = Sqlite.next_rowid t.
Proof.
  intros Hin. rewrite <- conflict_In in Hin. apply not_true_is_false in Hin.
  destruct p as [[[[[ts m] e] mp] ep] mean]. cbn in *. rewrite Hin.
  eexists. split; [reflexivity|]. split; reflexivity.
Qed.

Lemma insert_timestamps t p :
  Sqlite.timestamps (Sqlite.insert consumed t p) =
  if Sqlite.conflict t (Sqlite.timestamp_of p) then Sqlite.timestamps t
  else Sqlite.timestamps t ++ [Sqlite.timestamp_of p].
Proof.
  destruct p as [[[[[ts m] e] mp] ep] mean]. cbn.
  destruct (Sqlite.conflict t ts); [reflexivity|].
  unfold Sqlite.timestamps. cbn. now rewrite map_app.
Qed.

Lemma insert_stores t p :
  In (Sqlite.timestamp_of p) (Sqlite.timestamps (Sqlite.insert consumed t p)).
Proof.
  rewrite insert_timestamps.
  destruct (Sqlite.conflict t _) eqn:Hc.
  - now apply conflict_In.
  - apply in_or_app. right. now left.
Qed.

Lemma insert_keeps t p ts :
  In ts (Sqlite.timestamps t) ->
  In ts (Sqlite.timestamps (Sqlite.insert consumed t p)).
Proof.
  intros Hin. rewrite insert_timestamps.
  destruct (Sqlite.conflict t _); [assumption|].
  apply in_or_app. now left.
Qed.

(** Existing rows are never touched: an insert only appends. *)
Lemma insert_extends t p :
  exists new, Sqlite.rows (Sqlite.insert consumed t p) = Sqlite.rows t ++ new.
Proof.
  destruct p as [[[[[ts m] e] mp] ep] mean]. cbn.
  destruct (Sqlite.conflict t ts); cbn.
  - exists []. now rewrite app_nil_r.
  - eexists. reflexivity.
Qed.

Lemma insert_unique t p :
  Sqlite.unique t -> Sqlite.unique (Sqlite.insert consumed t p).
Proof.
  unfold Sqlite.unique. intros Hu. rewrite insert_timestamps.
  destruct (Sqlite.conflict t _) eqn:Hc; [assumption|].
  apply NoDup_app. split; [assumption|]. split.
  - intros x Hx Hin. apply list_elem_of_In in Hx, Hin.
    destruct Hin as [<-|[]].
    apply conflict_In in Hx. congruence.
  - apply NoDup_singleton.
Qed.

(** The same for a run of inserts. *)
Lemma inserts_keep ps t ts :
  In ts (Sqlite.timestamps t) ->
  In ts (Sqlite.timestamps (fold_left (Sqlite.insert consumed) ps t)).
Proof.
  revert t. induction ps as [|p ps IH]; intros t Hin; [assumption|].
  cbn. apply IH, insert_keeps, Hin.
Qed.

Lemma inserts_store ps t p :
  In p ps ->
  In (Sqlite.timestamp_of p)
     (Sqlite.timestamps (fold_left (Sqlite.insert consumed) ps t)).
Proof.
  revert t. induction ps as [|q ps IH]; intros t [].
  - subst q. cbn. apply inserts_keep, insert_stores.
  - cbn. now apply IH.
Qed.

Lemma inserts_present ps t :
  (forall p, In p ps -> In (Sqlite.timestamp_of p) (Sqlite.timestamps t)) ->
  Sqlite.rows (fold_left (Sqlite.insert consumed) ps t) = Sqlite.rows t.
Proof.
  revert t. induction ps as [|p ps IH]; intros t Hall; [reflexivity|].
  cbn. rewrite IH.
  - apply insert_present, Hall. now left.
  - intros q Hq. apply insert_keeps, Hall. now right.
Qed.

Lemma inserts_unique ps t :
  Sqlite.unique t -> Sqlite.unique (fold_left (Sqlite.insert consumed) ps t).
Proof.
  revert t. induction ps as [|p ps IH]; intros t Hu; [assumption|].
  cbn. apply IH, insert_unique, Hu.
Qed.

Lemma inserts_extend ps t :
  exists new,
    Sqlite.rows (fold_left (Sqlite.insert consumed) ps t) = Sqlite.rows t ++ new.
Proof.
  revert t. induction ps as [|p ps IH]; intros t.
  - exists []. cbn. now rewrite app_nil_r.
  - cbn. destruct (IH (Sqlite.insert consumed t p)) as [new' ->].
    destruct (insert_extends t p) as [new ->].
    exists (new ++ new'). now rewrite app_assoc.
Qed.

End Table.

Section DayFiles.
Variable datetime : Type.
Variable fromisoformat : string -> option datetime.
Variable adapt_datetime_iso : datetime -> string.
Variable consumed : bool.

Let load_day := import_day datetime fromisoformat adapt_datetime_iso consumed.
Let load_days := import_days datetime fromisoformat adapt_datetime_iso consumed.
Let params_of := day_params datetime fromisoformat adapt_datetime_iso.
Let inserts := fold_left (Sqlite.insert consumed).

Lemma mapM_cons {A B} (f : A -> result B) x l :
  mapM f (x :: l) = y ← f x; k ← mapM f l; mret (y :: k).
Proof. reflexivity. Qed.

(** [executemany] binds every row and inserts it; binding does not depend
    on the table. *)
Lemma executemany_eq data t :
  executemany datetime adapt_datetime_iso consumed t data =
  match mapM (bind_parameters datetime adapt_datetime_iso) data with
  | Return ps => Return (inserts ps t)
  | Raise e => Raise e
  end.
Proof.
  revert t. induction data as [|r data IH]; intros t; [reflexivity|].
  rewrite mapM_cons. cbn [executemany]. unfold mbind at 1 3, result_bind.
  destruct (bind_parameters datetime adapt_datetime_iso r) as [p|e];
    [|reflexivity].
  rewrite IH. unfold mbind, result_bind.
  destruct (mapM _ data); reflexivity.
Qed.

(** One day file: either all its rows go through the insert, or the table
    is as before. *)
Lemma import_day_eq t day_path :
  load_day t day_path =
  match params_of day_path with
  | Return ps => (inserts ps t, Return tt)
  | Raise e => (t, Raise e)
  end.
Proof.
  subst load_day params_of. unfold import_day, day_params.
  destruct day_path as [[json_data|]|]; try reflexivity.
  unfold mbind, result_bind.
  destruct (zip_data datetime fromisoformat json_data) as [data|e];
    [|reflexivity].
  unfold transaction. rewrite executemany_eq.
  destruct (mapM _ data); reflexivity.
Qed.

Lemma import_days_cons t name day_path rest :
  load_days t ((name, day_path) :: rest) =
  match params_of day_path with
  | Return ps => load_days (inserts ps t) rest
  | Raise e => (t, Raise e)
  end.
Proof.
  subst load_days. cbn [import_days]. fold load_day.
  rewrite import_day_eq. destruct (params_of day_path); reflexivity.
Qed.

Lemma import_days_keep day_paths t ts :
  In ts (Sqlite.timestamps t) ->
  In ts (Sqlite.timestamps (fst (load_days t day_paths))).
Proof.
  revert t. induction day_paths as [|[name e] rest IH]; intros t Hin;
    [assumption|].
  rewrite import_days_cons. destruct (params_of e); [|assumption].
  apply IH, inserts_keep, Hin.
Qed.

Lemma import_days_unique day_paths t :
  Sqlite.unique t -> Sqlite.unique (fst (load_days t day_paths)).
Proof.
  revert t. induction day_paths as [|[name e] rest IH]; intros t Hu;
    [assumption|].
  rewrite import_days_cons. destruct (params_of e); [|assumption].
  apply IH, inserts_unique, Hu.
Qed.

Lemma import_days_extend day_paths t :
  exists new, Sqlite.rows (fst (load_days t day_paths)) = Sqlite.rows t ++ new.
Proof.
  revert t. induction day_paths as [|[name e] rest IH]; intros t.
  - exists []. cbn. now rewrite app_nil_r.
  - rewrite import_days_cons. destruct (params_of e) as [ps|x].
    + destruct (IH (inserts ps t)) as [new' ->].
      destruct (inserts_extend consumed ps t) as [new Hnew].
      subst inserts. rewrite Hnew.
      exists (new ++ new'). now rewrite app_assoc.
    + exists []. cbn. now rewrite app_nil_r.
Qed.

(** Importing the same day files into a table that already holds what a
    first import stored changes no row and ends the same way. *)
Lemma import_days_rerun day_paths t u :
  (forall ts, In ts (Sqlite.timestamps (fst (load_days t day_paths))) ->
              In ts (Sqlite.timestamps u)) ->
  Sqlite.rows (fst (load_days u day_paths)) = Sqlite.rows u /\
  snd (load_days u day_paths) = snd (load_days t day_paths).
Proof.
  revert t u. induction day_paths as [|[name e] rest IH]; intros t u Hcov;
    [cbn; auto|].
  rewrite !import_days_cons in *.
  destruct (params_of e) as [ps|x]; [|cbn; auto].
  destruct (IH (inserts ps t) (inserts ps u)) as [Hrows Hres].
  { intros ts Hts. apply inserts_keep, Hcov, Hts. }
  split; [|exact Hres].
  rewrite Hrows. apply inserts_present.
  intros p Hp. apply Hcov, import_days_keep, inserts_store, Hp.
Qed.

Section Tree.
Variable is_dir_guard : bool.
Variable ignored : list string.

Let load_meter := import_energy_meter datetime fromisoformat adapt_datetime_iso consumed.
Let load_meters :=
  import_energy_meters datetime fromisoformat adapt_datetime_iso consumed ignored.
Let load_account :=
  import_account datetime fromisoformat adapt_datetime_iso consumed
    is_dir_guard ignored.
Let load_accounts :=
  import_accounts datetime fromisoformat adapt_datetime_iso consumed
    is_dir_guard ignored.

Lemma import_energy_meter_rerun m :
  stored_rows (fst (load_meter (fst (load_meter m)))) =
    stored_rows (fst (load_meter m)) /\
  snd (load_meter (fst (load_meter m))) = snd (load_meter m).
Proof.
  destruct m as [|d]; [cbn; auto|].
  subst load_meter. cbn [import_energy_meter]. fold load_days.
  destruct (load_days (_check_database (database d)) _) as [t r] eqn:Hfirst.
  cbn [fst snd import_energy_meter entries database _check_database].
  fold load_days.
  destruct (import_days_rerun (sorted (glob_json (entries d)))
              (_check_database (database d)) t) as [Hrows Hres].
  { rewrite Hfirst. auto. }
  rewrite Hfirst in Hres.
  destruct (load_days t _) as [t' r']. cbn in *. now rewrite Hrows, Hres.
Qed.

Lemma import_energy_meter_unique m :
  unique_meter m -> unique_meter (fst (load_meter m)).
Proof.
  destruct m as [|[es db]]; [auto|]. intros Hu.
  subst load_meter. cbn [import_energy_meter entries database]. fold load_days.
  pose proof (import_days_unique (sorted (glob_json es)) (_check_database db))
    as Hk.
  destruct (load_days (_check_database db) _) as [t r]. cbn in *.
  apply Hk. destruct db; [exact Hu|]. cbn. constructor.
Qed.

Lemma import_energy_meters_cons name m rest :
  load_meters ((name, m) :: rest) =
  if is_ignored ignored name then
    ((name, m) :: fst (load_meters rest), snd (load_meters rest))
  else
    match snd (load_meter m) with
    | Return _ =>
        ((name, fst (load_meter m)) :: fst (load_meters rest),
         snd (load_meters rest))
    | Raise e => ((name, fst (load_meter m)) :: rest, Raise e)
    end.
Proof.
  subst load_meters load_meter. cbn [import_energy_meters].
  destruct (is_ignored ignored name).
  - destruct (import_energy_meters _ _ _ _ _ rest). reflexivity.
  - destruct (import_energy_meter _ _ _ _ m) as [m' [[]|e]]; [|reflexivity].
    destruct (import_energy_meters _ _ _ _ _ rest). reflexivity.
Qed.

Lemma import_energy_meters_rerun meters :
  account_rows (AccountDir (fst (load_meters (fst (load_meters meters))))) =
    account_rows (AccountDir (fst (load_meters meters))) /\
  snd (load_meters (fst (load_meters meters))) = snd (load_meters meters).
Proof.
  induction meters as [|[name m] rest [IHrows IHres]]; [cbn; auto|].
  rewrite import_energy_meters_cons.
  destruct (is_ignored ignored name) eqn:Hig.
  - cbn [fst snd]. rewrite import_energy_meters_cons, Hig. cbn in *.
    now rewrite IHrows, IHres.
  - destruct (import_energy_meter_rerun m) as [Hrows Hres].
    destruct (snd (load_meter m)) as [[]|e] eqn:Hm; cbn [fst snd];
      rewrite import_energy_meters_cons, Hig, Hres; cbn in *.
    + now rewrite Hrows, IHrows, IHres.
    + now rewrite Hrows.
Qed.

Lemma import_energy_meters_unique meters :
  Forall (fun nm => unique_meter (snd nm)) meters ->
  Forall (fun nm => unique_meter (snd nm)) (fst (load_meters meters)).
Proof.
  induction 1 as [|[name m] rest Hm Hrest IH]; [constructor|].
  rewrite import_energy_meters_cons.
  pose proof (import_energy_meter_unique m Hm) as Hm'.
  destruct (is_ignored ignored name); [constructor; assumption|].
  destruct (snd (load_meter m)); constructor; assumption.
Qed.

Lemma import_account_rerun a :
  account_rows (fst (load_account (fst (load_account a)))) =
    account_rows (fst (load_account a)) /\
  snd (load_account (fst (load_account a))) = snd (load_account a).
Proof.
  destruct a as [|meters]; [cbn; auto|].
  subst load_account. cbn [import_account]. fold load_meters.
  destruct (import_energy_meters_rerun meters) as [Hrows Hres].
  destruct (load_meters meters) as [meters' r].
  cbn [fst snd import_account] in *. fold load_meters.
  destruct (load_meters meters') as [meters'' r'].
  cbn [fst snd] in *. auto.
Qed.

Lemma import_account_unique a :
  unique_account a -> unique_account (fst (load_account a)).
Proof.
  destruct a as [|meters]; [auto|]. intros Hu.
  subst load_account. cbn [import_account]. fold load_meters.
  pose proof (import_energy_meters_unique meters Hu) as Hk.
  destruct (load_meters meters). exact Hk.
Qed.

Lemma import_accounts_cons name a rest :
  load_accounts ((name, a) :: rest) =
  match snd (load_account a) with
  | Return _ =>
      ((name, fst (load_account a)) :: fst (load_accounts rest),
       snd (load_accounts rest))
  | Raise e => ((name, fst (load_account a)) :: rest, Raise e)
  end.
Proof.
  subst load_accounts load_account. cbn [import_accounts].
  destruct (import_account _ _ _ _ _ _ a) as [a' [[]|e]]; [|reflexivity].
  destruct (import_accounts _ _ _ _ _ _ rest). reflexivity.
Qed.

(** The whole traversal, run again on the storage it left. *)
Lemma import_accounts_rerun (s : storage) :
  storage_rows (fst (load_accounts (fst (load_accounts s)))) =
    storage_rows (fst (load_accounts s)) /\
  snd (load_accounts (fst (load_accounts s))) = snd (load_accounts s).
Proof.
  induction s as [|[name a] rest [IHrows IHres]]; [cbn; auto|].
  rewrite import_accounts_cons.
  destruct (import_account_rerun a) as [Hrows Hres].
  destruct (snd (load_account a)) as [[]|e] eqn:Ha; cbn [fst snd];
    rewrite import_accounts_cons, Hres; cbn [fst snd storage_rows map].
  - split; [|exact IHres]. rewrite Hrows. f_equal. exact IHrows.
  - now rewrite Hrows.
Qed.

Lemma import_accounts_unique (s : storage) :
  unique_storage s -> unique_storage (fst (load_accounts s)).
Proof.
  unfold unique_storage.
  induction 1 as [|[name a] rest Ha Hrest IH]; [constructor|].
  rewrite import_accounts_cons.
  pose proof (import_account_unique a Ha) as Ha'.
  destruct (snd (load_account a)); constructor; assumption.
Qed.

End Tree.

End DayFiles.

Section Store.
Variable datetime : Type.
Variable fromisoformat : string -> option datetime.
Variable adapt_datetime_iso : datetime -> string.
Variable consumed : bool.

(** C1: running [import_data] again on the storage it left changes no row
    of any table (so no row count either) and ends as the first run did,
    in both revisions; tables that satisfy the unique index keep
    satisfying it, so a timestamp is stored at most once; and an insert
    whose timestamp is stored leaves the rows as they are. *)
Theorem import_twice_is_import_once (s : storage) :
  (storage_rows
     (fst (ImportV1.import_data datetime fromisoformat adapt_datetime_iso consumed
        (fst (ImportV1.import_data datetime fromisoformat adapt_datetime_iso
                consumed s)))) =
   storage_rows
     (fst (ImportV1.import_data datetime fromisoformat adapt_datetime_iso
             consumed s)) /\
   snd (ImportV1.import_data datetime fromisoformat adapt_datetime_iso consumed
          (fst (ImportV1.import_data datetime fromisoformat adapt_datetime_iso
                  consumed s))) =
   snd (ImportV1.import_data datetime fromisoformat adapt_datetime_iso consumed s)) /\
  (storage_rows
     (fst (ImportV2.import_data datetime fromisoformat adapt_datetime_iso consumed
        (fst (ImportV2.import_data datetime fromisoformat adapt_datetime_iso
                consumed s)))) =
   storage_rows
     (fst (ImportV2.import_data datetime fromisoformat adapt_datetime_iso
             consumed s)) /\
   snd (ImportV2.import_data datetime fromisoformat adapt_datetime_iso consumed
          (fst (ImportV2.import_data datetime fromisoformat adapt_datetime_iso
                  consumed s))) =
   snd (ImportV2.import_data datetime fromisoformat adapt_datetime_iso consumed s)) /\
  (unique_storage s ->
   unique_storage
     (fst (ImportV1.import_data datetime fromisoformat adapt_datetime_iso
             consumed s)) /\
   unique_storage
     (fst (ImportV2.import_data datetime fromisoformat adapt_datetime_iso
             consumed s))) /\
  (forall t p,
     In (Sqlite.timestamp_of p) (Sqlite.timestamps t) ->
     Sqlite.rows (Sqlite.insert consumed t p) = Sqlite.rows t).
Proof.
  unfold ImportV1.import_data, ImportV2.import_data.
  split; [apply import_accounts_rerun|].
  split; [apply import_accounts_rerun|].
  split.
  - intros Hu. split; apply import_accounts_unique, Hu.
  - intros t p. apply insert_present.
Qed.

Lemma zip6_length {A B C D E F} (a : list A) (b : list B) (c : list C)
    (d : list D) (e : list E) (f : list F) :
  length (zip6 a b c d e f) =
  Nat.min (length a) (Nat.min (length b) (Nat.min (length c)
    (Nat.min (length d) (Nat.min (length e) (length f))))).
Proof.
  revert b c d e f. induction a as [|x a IH]; intros b c d e f; [reflexivity|].
  destruct b, c, d, e, f; cbn [zip6 length]; try lia.
  rewrite IH. lia.
Qed.

(** C4, as the code has it: lists of different lengths are zipped up to
    the shortest one.  When the six values are lists and the timestamps
    parse, [zip_data] returns as many rows as the shortest list has
    entries, and the file is imported unless a value cannot be bound; the
    lengths raise nothing. *)
Theorem mismatched_lengths_are_truncated (t : Sqlite.table) (json_data : value)
    (ds : list value) (times : list datetime) (l2 l3 l4 l5 l6 : list value) :
  Py.getitem json_data "peakDemandTimes" = Return (VList ds) ->
  mapM (parse_time datetime fromisoformat) ds = Return times ->
  Py.getitem json_data "meteredValues" = Return (VList l2) ->
  Py.getitem json_data "estimatedValues" = Return (VList l3) ->
  Py.getitem json_data "meteredPeakDemands" = Return (VList l4) ->
  Py.getitem json_data "estimatedPeakDemands" = Return (VList l5) ->
  Py.getitem json_data "meanProfile" = Return (VList l6) ->
  zip_data datetime fromisoformat json_data =
    Return (zip6 times l2 l3 l4 l5 l6) /\
  length (zip6 times l2 l3 l4 l5 l6) =
    Nat.min (length times) (Nat.min (length l2) (Nat.min (length l3)
      (Nat.min (length l4) (Nat.min (length l5) (length l6))))) /\
  import_day datetime fromisoformat adapt_datetime_iso consumed t
    (EFile (Some json_data)) =
    match mapM (bind_parameters datetime adapt_datetime_iso)
               (zip6 times l2 l3 l4 l5 l6) with
    | Return ps => (fold_left (Sqlite.insert consumed) ps t, Return tt)
    | Raise e => (t, Raise e)
    end.
Proof.
  intros H1 Ht H2 H3 H4 H5 H6.
  assert (Hzip : zip_data datetime fromisoformat json_data =
                 Return (zip6 times l2 l3 l4 l5 l6)).
  { unfold zip_data. rewrite H1, H2, H3, H4, H5, H6.
    cbn [mbind result_bind Py.iter]. rewrite Ht. reflexivity. }
  split; [exact Hzip|]. split; [apply zip6_length|].
  rewrite import_day_eq. unfold day_params. rewrite Hzip. reflexivity.
Qed.

(** C6, as the code has it: [meanProfile] is read like the other five
    keys.  Importing a day file that is an object without it raises and
    leaves the table as it was; the exception is [KeyError] when the five
    other keys are there and the timestamps parse. *)
Theorem missing_mean_profile_is_fatal (t : Sqlite.table)
    (d : list (string * value)) :
  Py.dict_get d "meanProfile" = None ->
  (exists e, import_day datetime fromisoformat adapt_datetime_iso consumed t
               (EFile (Some (VDict d))) = (t, Raise e)) /\
  (forall ds times v2 v3 v4 v5,
     Py.dict_get d "peakDemandTimes" = Some ds ->
     (ds' ← Py.iter ds; mapM (parse_time datetime fromisoformat) ds')
       = Return times ->
     Py.dict_get d "meteredValues" = Some v2 ->
     Py.dict_get d "estimatedValues" = Some v3 ->
     Py.dict_get d "meteredPeakDemands" = Some v4 ->
     Py.dict_get d "estimatedPeakDemands" = Some v5 ->
     import_day datetime fromisoformat adapt_datetime_iso consumed t
       (EFile (Some (VDict d))) = (t, Raise KeyError)).
Proof.
  intros Hmean. split.
  - assert (Hzip : exists e, zip_data datetime fromisoformat (VDict d) = Raise e).
    { unfold zip_data, Py.getitem. rewrite Hmean.
      unfold mbind, result_bind.
      repeat match goal with
             | |- exists e, match ?x with _ => _ end = _ =>
                 destruct x; try (eexists; reflexivity)
             end. }
    destruct Hzip as [e Hzip]. exists e. cbn [import_day]. now rewrite Hzip.
  - intros ds times v2 v3 v4 v5 H1 Ht H2 H3 H4 H5.
    cbn [import_day].
    assert (Hzip : zip_data datetime fromisoformat (VDict d) = Raise KeyError).
    { unfold zip_data, Py.getitem. rewrite Hmean, H1, H2, H3, H4, H5.
      unfold mbind, result_bind in *.
      destruct (Py.iter ds) as [ds'|]; [|discriminate].
      rewrite Ht. reflexivity. }
    now rewrite Hzip.
Qed.

(** C8: importing the day record of the example into a table just
    created stores exactly two rows, the six sequences zipped position by
    position, when [T1] and [T2] parse to timestamps that are stored
    under different texts. *)
Theorem day_record_is_zipped_by_position (T1 T2 : string) (d1 d2 : datetime) :
  fromisoformat T1 = Some d1 ->
  fromisoformat T2 = Some d2 ->
  adapt_datetime_iso d1 <> adapt_datetime_iso d2 ->
  snd (import_day datetime fromisoformat adapt_datetime_iso consumed
         Sqlite.created (EFile (Some (Sample.day_record T1 T2)))) = Return tt /\
  map columns
    (Sqlite.rows
       (fst (import_day datetime fromisoformat adapt_datetime_iso consumed
               Sqlite.created (EFile (Some (Sample.day_record T1 T2)))))) =
    [(adapt_datetime_iso d1, Sqlite.Real 1.1, Sqlite.Real 0.1,
      Sqlite.Integer 5, Sqlite.Real 0.5, Sqlite.Integer 9);
     (adapt_datetime_iso d2, Sqlite.Real 2.2, Sqlite.Real 0.2,
      Sqlite.Integer 6, Sqlite.Real 0.6, Sqlite.Integer 10)] /\
  map Sqlite.id
    (Sqlite.rows
       (fst (import_day datetime fromisoformat adapt_datetime_iso consumed
               Sqlite.created (EFile (Some (Sample.day_record T1 T2)))))) =
    [1; 2].
Proof.
  intros H1 H2 Hne.
  assert (Hc : String.eqb (adapt_datetime_iso d1) (adapt_datetime_iso d2) = false)
    by now apply String.eqb_neq.
  rewrite import_day_eq.
  assert (Hparams :
    day_params datetime fromisoformat adapt_datetime_iso
      (EFile (Some (Sample.day_record T1 T2))) =
    Return [(adapt_datetime_iso d1, Sqlite.Real 1.1, Sqlite.Real 0.1,
             Sqlite.Integer 5, Sqlite.Real 0.5, Sqlite.Integer 9);
            (adapt_datetime_iso d2, Sqlite.Real 2.2, Sqlite.Real 0.2,
             Sqlite.Integer 6, Sqlite.Real 0.6, Sqlite.Integer 10)]).
  { unfold day_params, zip_data, Sample.day_record.
    cbn [Py.getitem Py.dict_get String.eqb Ascii.eqb Bool.eqb Py.iter
         mbind result_bind mapM parse_time].
    rewrite H1, H2. reflexivity. }
  rewrite Hparams. cbn [fold_left fst snd].
  split; [reflexivity|].
  set (row1 := {| Sqlite.id := 1; Sqlite.timestamp := adapt_datetime_iso d1;
                  Sqlite.metered := Sqlite.Real 1.1;
                  Sqlite.estimated := Sqlite.Real 0.1;
                  Sqlite.metered_peak := Sqlite.Integer 5;
                  Sqlite.estimated_peak := Sqlite.Real 0.5;
                  Sqlite.mean_profile := Sqlite.Integer 9 |}).
  set (row2 := {| Sqlite.id := 2; Sqlite.timestamp := adapt_datetime_iso d2;
                  Sqlite.metered := Sqlite.Real 2.2;
                  Sqlite.estimated := Sqlite.Real 0.2;
                  Sqlite.metered_peak := Sqlite.Integer 6;
                  Sqlite.estimated_peak := Sqlite.Real 0.6;
                  Sqlite.mean_profile := Sqlite.Integer 10 |}).
  change (Sqlite.insert consumed Sqlite.created _)
    with {| Sqlite.rows := [row1]; Sqlite.sequence := 1 |}.
  assert (Hsecond :
    Sqlite.rows
      (Sqlite.insert consumed {| Sqlite.rows := [row1]; Sqlite.sequence := 1 |}
         (adapt_datetime_iso d2, Sqlite.Real 2.2, Sqlite.Real 0.2,
          Sqlite.Integer 6, Sqlite.Real 0.6, Sqlite.Integer 10)) =
    [row1; row2]).
  { unfold Sqlite.insert, Sqlite.conflict.
    cbn [Sqlite.rows existsb Sqlite.timestamp row1]. rewrite Hc. reflexivity. }
  rewrite Hsecond. split; reflexivity.
Qed.

End Store.

(** * The properties at the sample data *)

Lemma sync_from_today_or_later_is_empty_witness :
  738521 <= 738521 /\
  download_consumptions_for_meter
    (H := V2.smartmeter_like Sample.json_dumps Sample.isoformat)
    Sample.json_dumps Sample.isoformat 738521
    {| V2.session := Sample.portal |} Sample.meter_path "meter" 738521
    Sample.files = ([], Sample.files, Return tt).
Proof.
  split; [lia|].
  apply (sync_from_today_or_later_is_empty
           (H := V2.smartmeter_like Sample.json_dumps Sample.isoformat)
           Sample.json_dumps Sample.isoformat 738521 738521).
  lia.
Defined.


Lemma sync_skips_existing_and_rerun_writes_nothing_witness :
  In 738521 (day_range 738523 738521) /\
  is_Some (<[json_file Sample.isoformat Sample.meter_path 738521 := File "{}"]>
             Sample.files
           !! json_file Sample.isoformat Sample.meter_path 738521) /\
  ~ In ("meter", 738521)
       (fetched (trace_of
          (download_consumptions_for_meter
             (H := V2.smartmeter_like Sample.json_dumps Sample.isoformat)
             Sample.json_dumps Sample.isoformat 738523
             {| V2.session := Sample.portal |} Sample.meter_path "meter" 738521
             (<[json_file Sample.isoformat Sample.meter_path 738521 := File "{}"]>
                Sample.files)))).
Proof.
  assert (Hin : In 738521 (day_range 738523 738521)) by (vm_compute; auto).
  assert (Hfile :
    is_Some (<[json_file Sample.isoformat Sample.meter_path 738521 := File "{}"]>
               Sample.files
             !! json_file Sample.isoformat Sample.meter_path 738521))
    by (rewrite lookup_insert_eq; eauto).
  split; [exact Hin|]. split; [exact Hfile|].
  destruct (sync_skips_existing_and_rerun_writes_nothing
              (H := V2.smartmeter_like Sample.json_dumps Sample.isoformat)
              Sample.json_dumps Sample.isoformat 738523 738521
              {| V2.session := Sample.portal |} Sample.meter_path "meter"
              (<[json_file Sample.isoformat Sample.meter_path 738521 := File "{}"]>
                 Sample.files)) as [Hskip _].
  exact (proj1 (Hskip 738521 Hin Hfile)).
Defined.

Lemma conflicting_records_abort_before_write_witness :
  json_body (Sample.portal_conflict (day_request Sample.isoformat "meter" 738521)) =
    Some (VList [Sample.record; Sample.record]) /\
  (1 < length [Sample.record; Sample.record])%nat /\
  In 738521 (day_range 738523 738521) /\
  Sample.files !! json_file Sample.isoformat Sample.meter_path 738521 = None /\
  is_raise
    (result_of
       (download_consumptions_for_meter
          (H := V2.smartmeter_like Sample.json_dumps Sample.isoformat)
          Sample.json_dumps Sample.isoformat 738523
          {| V2.session := Sample.portal_conflict |} Sample.meter_path "meter"
          738521 Sample.files)) = true.
Proof.
  assert (Hbody :
    json_body (Sample.portal_conflict (day_request Sample.isoformat "meter" 738521)) =
      Some (VList [Sample.record; Sample.record])) by reflexivity.
  assert (Hlen : (1 < length [Sample.record; Sample.record])%nat) by (cbn; lia).
  assert (Hin : In 738521 (day_range 738523 738521)) by (vm_compute; auto).
  assert (Hnone :
    Sample.files !! json_file Sample.isoformat Sample.meter_path 738521 = None)
    by (vm_compute; reflexivity).
  repeat (split; [assumption|]).
  destruct (conflicting_records_abort_before_write
              Sample.json_dumps Sample.isoformat 738523 738521
              {| V2.session := Sample.portal_conflict |} Sample.meter_path "meter"
              Sample.files 738521 [Sample.record; Sample.record] Hbody Hlen)
    as (_ & _ & _ & Habort).
  exact (Habort Hin Hnone).
Defined.

Lemma records_single_object_raises_witness :
  json_body (Sample.portal_object (day_request Sample.isoformat "meter" 738521)) =
    Some Sample.record /\
  passes (Sample.portal_object (day_request Sample.isoformat "meter" 738521)) = true /\
  snd (V2.get_consumption_records_for_day Sample.json_dumps Sample.isoformat
         {| V2.session := Sample.portal_object |} "meter" 738521 false) =
    Raise KeyError.
Proof.
  assert (Hbody :
    json_body (Sample.portal_object (day_request Sample.isoformat "meter" 738521)) =
      Some Sample.record) by reflexivity.
  assert (Hok :
    passes (Sample.portal_object (day_request Sample.isoformat "meter" 738521)) = true)
    by reflexivity.
  split; [exact Hbody|]. split; [exact Hok|].
  destruct (records_single_object_raises Sample.json_dumps Sample.isoformat
              {| V2.session := Sample.portal_object |} "meter" 738521 false _ Hbody)
    as (_ & Hkey & _).
  exact (Hkey Hok).
Defined.

Lemma import_twice_is_import_once_witness :
  unique_storage Sample.tree /\
  unique_storage
    (fst (ImportV2.import_data string Sample.fromisoformat
            Sample.adapt_datetime_iso true Sample.tree)) /\
  In (Sqlite.timestamp_of ("2023-01-01T00:15:00", Sqlite.Real 9.9, Sqlite.Null,
                           Sqlite.Null, Sqlite.Null, Sqlite.Null))
     (Sqlite.timestamps Sample.table) /\
  Sqlite.rows (Sqlite.insert true Sample.table
                 ("2023-01-01T00:15:00", Sqlite.Real 9.9, Sqlite.Null,
                  Sqlite.Null, Sqlite.Null, Sqlite.Null)) =
    [Sample.stored_row].
Proof.
  assert (Hu : unique_storage Sample.tree).
  { repeat constructor. }
  assert (Hin : In (Sqlite.timestamp_of
                      ("2023-01-01T00:15:00", Sqlite.Real 9.9, Sqlite.Null,
                       Sqlite.Null, Sqlite.Null, Sqlite.Null))
                   (Sqlite.timestamps Sample.table)) by (cbn; auto).
  destruct (import_twice_is_import_once string Sample.fromisoformat
              Sample.adapt_datetime_iso true Sample.tree)
    as (_ & _ & Hunique & Hnoop).
  split; [exact Hu|]. split; [exact (proj2 (Hunique Hu))|].
  split; [exact Hin|]. exact (Hnoop _ _ Hin).
Defined.

(** C4 fails as stated: a day file with two timestamps and one metered
    value is imported without any error, as one row. *)
Lemma mismatched_lengths_import_without_error :
  Py.getitem Sample.short_record "peakDemandTimes" =
    Return (VList [VStr "2023-01-01T00:15:00"; VStr "2023-01-01T00:30:00"]) /\
  Py.getitem Sample.short_record "meteredValues" = Return (VList [VFloat 1.1]) /\
  import_day string Sample.fromisoformat Sample.adapt_datetime_iso true
    Sqlite.created (EFile (Some Sample.short_record)) =
  ({| Sqlite.rows :=
        [{| Sqlite.id := 1; Sqlite.timestamp := "2023-01-01T00:15:00";
            Sqlite.metered := Sqlite.Real 1.1;
            Sqlite.estimated := Sqlite.Real 0.1;
            Sqlite.metered_peak := Sqlite.Integer 5;
            Sqlite.estimated_peak := Sqlite.Real 0.5;
            Sqlite.mean_profile := Sqlite.Integer 9 |}];
      Sqlite.sequence := 1 |},
   Return tt).
Proof. repeat split. Qed.

Lemma mismatched_lengths_are_truncated_witness :
  Py.getitem Sample.short_record "meteredValues" = Return (VList [VFloat 1.1]) /\
  length (zip6 ["2023-01-01T00:15:00"; "2023-01-01T00:30:00"]
            [VFloat 1.1] [VFloat 0.1; VFloat 0.2] [VInt 5; VInt 6]
            [VFloat 0.5; VFloat 0.6] [VInt 9; VInt 10]) = 1%nat.
Proof.
  assert (H2 : Py.getitem Sample.short_record "meteredValues" =
               Return (VList [VFloat 1.1])) by reflexivity.
  split; [exact H2|].
  destruct (mismatched_lengths_are_truncated string Sample.fromisoformat
              Sample.adapt_datetime_iso true Sqlite.created Sample.short_record
              [VStr "2023-01-01T00:15:00"; VStr "2023-01-01T00:30:00"]
              ["2023-01-01T00:15:00"; "2023-01-01T00:30:00"]
              [VFloat 1.1] [VFloat 0.1; VFloat 0.2] [VInt 5; VInt 6]
              [VFloat 0.5; VFloat 0.6] [VInt 9; VInt 10]
              eq_refl eq_refl H2 eq_refl eq_refl eq_refl eq_refl)
    as (_ & Hlen & _).
  rewrite Hlen. reflexivity.
Defined.

(** C6 fails as stated: a day file with the five required sequences and no
    [meanProfile] is not imported; the importer raises [KeyError] and
    the table stays as it was. *)
Lemma missing_mean_profile_raises_key_error :
  Py.getitem Sample.record "meanProfile" = Raise KeyError /\
  import_day string Sample.fromisoformat Sample.adapt_datetime_iso true
    Sample.table (EFile (Some Sample.record)) = (Sample.table, Raise KeyError).
Proof. repeat split. Qed.

Lemma missing_mean_profile_is_fatal_witness :
  Py.getitem Sample.record "meanProfile" = Raise KeyError /\
  exists e,
    import_day string Sample.fromisoformat Sample.adapt_datetime_iso true
      Sample.table (EFile (Some Sample.record)) = (Sample.table, Raise e).
Proof.
  split; [reflexivity|].
  apply (missing_mean_profile_is_fatal string Sample.fromisoformat
           Sample.adapt_datetime_iso true Sample.table). reflexivity.
Defined.

Lemma day_record_is_zipped_by_position_witness :
  Sample.fromisoformat "2023-01-01T00:15:00" = Some "2023-01-01T00:15:00" /\
  Sample.fromisoformat "2023-01-01T00:30:00" = Some "2023-01-01T00:30:00" /\
  Sample.adapt_datetime_iso "2023-01-01T00:15:00" <>
    Sample.adapt_datetime_iso "2023-01-01T00:30:00" /\
  map columns
    (Sqlite.rows
       (fst (import_day string Sample.fromisoformat Sample.adapt_datetime_iso
               true Sqlite.created
               (EFile (Some (Sample.day_record "2023-01-01T00:15:00"
                                               "2023-01-01T00:30:00")))))) =
    [("2023-01-01T00:15:00", Sqlite.Real 1.1, Sqlite.Real 0.1,
      Sqlite.Integer 5, Sqlite.Real 0.5, Sqlite.Integer 9);
     ("2023-01-01T00:30:00", Sqlite.Real 2.2, Sqlite.Real 0.2,
      Sqlite.Integer 6, Sqlite.Real 0.6, Sqlite.Integer 10)].
Proof.
  assert (Hne : Sample.adapt_datetime_iso "2023-01-01T00:15:00" <>
                Sample.adapt_datetime_iso "2023-01-01T00:30:00")
    by (vm_compute; discriminate).
  split; [reflexivity|]. split; [reflexivity|]. split; [exact Hne|].
  destruct (day_record_is_zipped_by_position string Sample.fromisoformat
              Sample.adapt_datetime_iso true
              "2023-01-01T00:15:00" "2023-01-01T00:30:00"
              "2023-01-01T00:15:00" "2023-01-01T00:30:00"
              eq_refl eq_refl Hne) as (_ & Hrows & _).
  exact Hrows.
Defined.

(** * Further properties of the fetcher *)

Ltac outcome := cbn [trace_of files_of result_of fst snd] in *.

Section LoopMore.
Context {SM : Type} `{SmartMeterLike SM}.
Variable json_dumps : option Z -> value -> string.
Variable isoformat : date -> string.
Variable smartmeter : SM.
Variable storage_path : path.
Variable energy_meter : string.

Let file := json_file isoformat storage_path.
Let body := download_day json_dumps isoformat smartmeter storage_path energy_meter.
Let answer := consumption_records_for_day smartmeter energy_meter.
Let dump := json_dumps (Some 4).

Ltac day_cases day fs :=
  destruct (download_day_eq json_dumps isoformat smartmeter storage_path
              energy_meter day) as (dbg & err & Hday);
  fold file in Hday; fold body in Hday; fold answer in Hday;
  rewrite ?Hday in *; clear Hday;
  destruct (fs !! file day) as [?n|] eqn:Hfile;
  [|cbv zeta in *;
    destruct (snd (answer day)) as [records|?e] eqn:Hanswer;
    [destruct (Py.getitem records "meteredValues") as [metered|?e] eqn:Hmetered;
     [destruct (Py.truthy metered) eqn:Htruthy;
      [destruct (Fs.parent_error fs (file day)) as [?e|] eqn:Hparent|]|]|]];
  outcome.

(** What is there stays as it is. *)
Lemma download_day_preserves day fs p n :
  fs !! p = Some n -> files_of (body day fs) !! p = Some n.
Proof.
  intros Hp. day_cases day fs; try assumption.
  rewrite lookup_insert_ne; [assumption|]. congruence.
Qed.

Lemma loop_preserves days fs p n :
  fs !! p = Some n -> files_of (for_each days body fs) !! p = Some n.
Proof.
  revert fs. induction days as [|d days IH]; intros fs Hp; [exact Hp|].
  pose proof (download_day_preserves d fs p n Hp) as Hd.
  rewrite for_each_cons.
  destruct (body d fs) as [[t fs0] [[]|e]]; outcome; [|exact Hd].
  specialize (IH _ Hd).
  destruct (for_each days body fs0) as [[t' fs''] r]. exact IH.
Qed.

(** What an iteration adds is the dump of the records of its day. *)
Lemma download_day_adds day fs p n :
  fs !! p = None -> files_of (body day fs) !! p = Some n ->
  p = file day /\
  exists records metered,
    snd (answer day) = Return records /\
    Py.getitem records "meteredValues" = Return metered /\
    Py.truthy metered = true /\
    n = File (dump records) /\
    In (Wrote p (dump records)) (trace_of (body day fs)).
Proof.
  intros Hp Hn. day_cases day fs; try congruence.
  destruct (decide (file day = p)) as [<-|Hne].
  - rewrite lookup_insert_eq in Hn. injection Hn as <-.
    split; [reflexivity|]. exists records, metered.
    repeat split; auto. cbn. auto.
  - rewrite lookup_insert_ne in Hn by assumption. congruence.
Qed.

Lemma loop_adds days fs p n :
  fs !! p = None -> files_of (for_each days body fs) !! p = Some n ->
  exists day records metered,
    In day days /\ p = file day /\
    snd (answer day) = Return records /\
    Py.getitem records "meteredValues" = Return metered /\
    Py.truthy metered = true /\
    n = File (dump records) /\
    In (Wrote p (dump records)) (trace_of (for_each days body fs)).
Proof.
  revert fs. induction days as [|d days IH]; intros fs Hp Hn;
    [cbn in Hn; congruence|].
  pose proof (download_day_adds d fs p) as Hadd.
  pose proof (fun n0 => loop_preserves days (files_of (body d fs)) p n0) as Hkeep.
  rewrite for_each_cons in *.
  destruct (body d fs) as [[t fs0] r] eqn:Hb. outcome.
  destruct (fs0 !! p) as [n0|] eqn:Hp0.
  - destruct (Hadd n0 Hp eq_refl) as (-> & records & metered & H1 & H2 & H3 & -> & Hw).
    exists d, records, metered.
    assert (n = File (dump records)).
    { destruct r as [[]|e]; outcome; [|congruence].
      specialize (Hkeep _ eq_refl).
      destruct (for_each days body fs0) as [[t' fs''] r']. outcome. congruence. }
    subst n. repeat split; auto; [now left|].
    destruct r as [[]|e]; outcome; [|exact Hw].
    destruct (for_each days body fs0) as [[t' fs''] r']. outcome.
    apply in_or_app. now left.
  - destruct r as [[]|e]; outcome; [|congruence].
    specialize (IH fs0 Hp0).
    destruct (for_each days body fs0) as [[t' fs''] r']. outcome.
    destruct (IH Hn) as (day & records & metered & Hin & H0 & H1 & H2 & H3 & H4 & Hw).
    exists day, records, metered. repeat split; auto; [now right|].
    apply in_or_app. now right.
Qed.


(** The fetches and the writes follow the days, each day at most once. *)
Lemma loop_in_order days fs :
  sublist (fetched (trace_of (for_each days body fs)))
          (map (fun d => (energy_meter, d)) days) /\
  sublist (written (trace_of (for_each days body fs))) (map file days).
Proof.
  revert fs. induction days as [|d days IH]; intros fs; [cbn; split; constructor|].
  rewrite for_each_cons.
  assert (Hhere :
    (fetched (trace_of (body d fs)) = [] \/
     fetched (trace_of (body d fs)) = [(energy_meter, d)]) /\
    (written (trace_of (body d fs)) = [] \/
     written (trace_of (body d fs)) = [file d])).
  { day_cases d fs; cbn; destruct dbg, err; cbn; auto. }
  destruct (body d fs) as [[t fs0] r]. outcome.
  destruct (IH fs0) as [IHf IHw].
  assert (Hrest :
    sublist (fetched t ++ fetched (trace_of (for_each days body fs0)))
            (map (fun d => (energy_meter, d)) (d :: days)) /\
    sublist (written t ++ written (trace_of (for_each days body fs0)))
            (map file (d :: days))).
  { destruct Hhere as [[->| ->] [->| ->]]; cbn [app map];
      split; (apply sublist_skip || apply sublist_cons); assumption. }
  destruct r as [[]|e].
  - destruct (for_each days body fs0) as [[t' fs''] r']. outcome.
    rewrite fetched_app, written_app. exact Hrest.
  - outcome. destruct Hrest as [Hf Hw]. split.
    + etrans; [|exact Hf]. apply sublist_inserts_r. reflexivity.
    + etrans; [|exact Hw]. apply sublist_inserts_r. reflexivity.
Qed.

(** A fetch happens only for a file that was not there. *)
Lemma loop_fetches_absent days fs day :
  In (energy_meter, day) (fetched (trace_of (for_each days body fs))) ->
  fs !! file day = None.
Proof.
  intros Hin. destruct (fs !! file day) as [n|] eqn:Hf; [|reflexivity].
  exfalso.
  destruct (loop_existing json_dumps isoformat smartmeter storage_path energy_meter
              days fs day) as [Hno _].
  { fold file. rewrite Hf. eauto. }
  apply Hno. exact Hin.
Qed.

(** When every day stored under [p] has no data, nothing is written there. *)
Lemma download_day_missing day fs p :
  (forall d, file d = p -> missing_data smartmeter energy_meter d) ->
  ~ In p (written (trace_of (body day fs))) /\
  (fs !! p = None -> files_of (body day fs) !! p = None) /\
  (file day = p -> result_of (body day fs) = Return tt).
Proof.
  intros Hmiss.
  destruct (decide (file day = p)) as [Heq|Hne].
  - destruct (Hmiss day Heq) as (records0 & metered0 & H1 & H2 & H3).
    fold answer in H1.
    day_cases day fs; cbn; destruct dbg, err; cbn;
      repeat split; auto; try congruence.
  - day_cases day fs; cbn; destruct dbg, err; cbn;
      repeat split; auto; try tauto; try congruence.
    all: intros Hp; rewrite lookup_insert_ne; auto.
Qed.

Lemma loop_missing days fs p :
  (forall d, file d = p -> missing_data smartmeter energy_meter d) ->
  ~ In p (written (trace_of (for_each days body fs))) /\
  (fs !! p = None -> files_of (for_each days body fs) !! p = None).
Proof.
  intros Hmiss. revert fs. induction days as [|d days IH]; intros fs; [cbn; auto|].
  destruct (download_day_missing d fs p Hmiss) as (Hw & Hk & _).
  rewrite for_each_cons.
  destruct (body d fs) as [[t fs0] [[]|e]]; outcome; [|auto].
  destruct (IH fs0) as [Hw' Hk'].
  destruct (for_each days body fs0) as [[t' fs''] r]. outcome.
  rewrite written_app, in_app_iff. split; [tauto|auto].
Qed.

(** Without the directory nothing can be written. *)
Lemma parent_of_file day : Fs.parent (file day) = storage_path.
Proof.
  subst file. unfold Fs.parent, json_file. apply removelast_last.
Qed.

Lemma download_day_no_directory day fs :
  fs !! storage_path <> Some Directory ->
  files_of (body day fs) = fs /\ written (trace_of (body day fs)) = [].
Proof.
  intros Hdir.
  assert (Hparent' : Fs.parent_error fs (file day) <> None).
  { unfold Fs.parent_error. rewrite parent_of_file.
    destruct (fs !! storage_path) as [[|]|]; congruence. }
  day_cases day fs; try congruence; cbn; destruct dbg, err; auto.
Qed.

Lemma loop_no_directory days fs :
  fs !! storage_path <> Some Directory ->
  files_of (for_each days body fs) = fs /\
  written (trace_of (for_each days body fs)) = [].
Proof.
  intros Hdir. induction days as [|d days [IHf IHw]]; [cbn; auto|].
  destruct (download_day_no_directory d fs Hdir) as [Hf Hw].
  rewrite for_each_cons.
  destruct (body d fs) as [[t fs0] [[]|e]]; outcome; subst fs0; [|auto].
  destruct (for_each days body fs) as [[t' fs''] r]. outcome.
  rewrite written_app, Hw, IHw. auto.
Qed.

End LoopMore.

Section SyncMore.
Context {SM : Type} `{SmartMeterLike SM}.
Variable json_dumps : option Z -> value -> string.
Variable isoformat : date -> string.

Lemma day_range_NoDup today start : NoDup (day_range today start).
Proof.
  rewrite (day_range_eq today start).
  apply NoDup_fmap_2; [|apply NoDup_seq].
  intros i j Hij. lia.
Qed.


(** X2: [download_consumptions_for_meter] leaves every entry that exists as
    it is, and an entry it adds is the file of a day of the range, holding
    [json.dumps(records, indent=4)] of the records fetched for that day,
    whose metered values are not empty. *)
Theorem sync_only_adds_day_files
    (today start_date : date) (smartmeter : SM) (storage_path : path)
    (energy_meter : string) (fs : gmap (list string) node) :
  (forall p n,
     fs !! p = Some n ->
     files_of (download_consumptions_for_meter json_dumps isoformat today
                 smartmeter storage_path energy_meter start_date fs) !! p = Some n) /\
  (forall p n,
     fs !! p = None ->
     files_of (download_consumptions_for_meter json_dumps isoformat today
                 smartmeter storage_path energy_meter start_date fs) !! p = Some n ->
     exists day records metered,
       In day (day_range today start_date) /\
       p = json_file isoformat storage_path day /\
       snd (consumption_records_for_day smartmeter energy_meter day) = Return records /\
       Py.getitem records "meteredValues" = Return metered /\
       Py.truthy metered = true /\
       n = File (json_dumps (Some 4) records) /\
       In (Wrote p (json_dumps (Some 4) records))
          (trace_of (download_consumptions_for_meter json_dumps isoformat today
                       smartmeter storage_path energy_meter start_date fs))).
Proof.
  split.
  - intros p n. apply loop_preserves.
  - intros p n. apply loop_adds.
Qed.

(** X3: the days fetched in a run are days of the range whose file was not
    there, in ascending order and each at most once; the files written
    follow the same order. *)
Theorem sync_fetches_in_order_once
    (today start_date : date) (smartmeter : SM) (storage_path : path)
    (energy_meter : string) (fs : gmap (list string) node) :
  sublist (fetched (trace_of (download_consumptions_for_meter json_dumps
                                isoformat today smartmeter storage_path
                                energy_meter start_date fs)))
          (map (fun d => (energy_meter, d)) (day_range today start_date)) /\
  sublist (written (trace_of (download_consumptions_for_meter json_dumps
                                isoformat today smartmeter storage_path
                                energy_meter start_date fs)))
          (map (json_file isoformat storage_path) (day_range today start_date)) /\
  NoDup (fetched (trace_of (download_consumptions_for_meter json_dumps
                              isoformat today smartmeter storage_path
                              energy_meter start_date fs))) /\
  (forall m day,
     In (m, day) (fetched (trace_of (download_consumptions_for_meter json_dumps
                                       isoformat today smartmeter storage_path
                                       energy_meter start_date fs))) ->
     m = energy_meter /\ start_date <= day < today /\
     fs !! json_file isoformat storage_path day = None).
Proof.
  destruct (loop_in_order json_dumps isoformat smartmeter storage_path
              energy_meter (day_range today start_date) fs) as [Hf Hw].
  split; [exact Hf|]. split; [exact Hw|]. split.
  - eapply sublist_NoDup; [|exact Hf].
    apply NoDup_fmap_2; [|apply day_range_NoDup].
    intros a b Hab. now injection Hab.
  - intros m day Hin.
    assert (Hin' : In (m, day)
                     (map (fun d => (energy_meter, d)) (day_range today start_date))).
    { apply list_elem_of_In. eapply elem_of_sublist; [|exact Hf].
      now apply list_elem_of_In. }
    apply in_map_iff in Hin'. destruct Hin' as (d & Heq & Hd).
    injection Heq as <- <-.
    split; [reflexivity|]. split; [now apply day_range_members|].
    eapply loop_fetches_absent. exact Hin.
Qed.

(** X4: a day for which the portal has a record with empty metered values
    is skipped without a file: nothing is written under its name and the
    file stays absent, so the next run asks again. *)
Theorem sync_writes_no_file_without_data
    (today start_date : date) (smartmeter : SM) (storage_path : path)
    (energy_meter : string) (fs : gmap (list string) node) (p : path) :
  (forall day, json_file isoformat storage_path day = p ->
               missing_data smartmeter energy_meter day) ->
  ~ In p (written (trace_of (download_consumptions_for_meter json_dumps isoformat
                               today smartmeter storage_path energy_meter
                               start_date fs))) /\
  (fs !! p = None ->
   files_of (download_consumptions_for_meter json_dumps isoformat today
               smartmeter storage_path energy_meter start_date fs) !! p = None).
Proof. apply loop_missing. Qed.

(** X5: when [storage_path] is not a directory, a run writes nothing and
    leaves the files as they are, whatever the portal answers. *)
Theorem sync_without_directory_writes_nothing
    (today start_date : date) (smartmeter : SM) (storage_path : path)
    (energy_meter : string) (fs : gmap (list string) node) :
  fs !! storage_path <> Some Directory ->
  files_of (download_consumptions_for_meter json_dumps isoformat today
              smartmeter storage_path energy_meter start_date fs) = fs /\
  written (trace_of (download_consumptions_for_meter json_dumps isoformat today
                       smartmeter storage_path energy_meter start_date fs)) = [].
Proof. apply loop_no_directory. Qed.

End SyncMore.

Section ReworkedMore.
Variable json_dumps : option Z -> value -> string.
Variable isoformat : date -> string.

Ltac session_simpl :=
  cbv beta iota zeta delta
    [V2.get_consumption_records_for_day V2._get_mean_profile_for_day
     V2._login V2._extend_session_lifetime V2.__init__
     V1.get_consumption_records_for_day V1._get_mean_profile_for_day
     V1._login V1.__init__
     Session.raise_for_status Session.json Session.log Session.sys_exit
     Session.print Session.raise Session.of_result Session.get Session.post
     mbind session_bind mret session_ret fst snd
     day_request mean_profile_request login_request extend_request passes]
    in *.

Ltac name_responses self :=
  try set (resp := V2.session self (Get (BASE_URL +:+ "/ConsumptionRecord/Day") _)) in *;
  try set (mean := V2.session self
                     (Get (BASE_URL +:+ "/ConsumptionRecord/MeanProfileDay") _)) in *.

(** X6: the constructor of [SmartMeter] returns the session exactly when
    the login response passes [raise_for_status], is not the maintenance
    status, and the extension of the session passes too.  The credentials
    are posted once; a refused login raises [HTTPError] without asking for
    the extension, and a refused extension raises [HTTPError] as well. *)
Theorem session_is_established_or_refused
    (portal : request -> response) (user pwd : string) :
  (snd (V2.__init__ portal user pwd) = Return {| V2.session := portal |} <->
   passes (portal (login_request user pwd)) = true /\
   status_code (portal (login_request user pwd)) <> 999 /\
   passes (portal extend_request) = true) /\
  (passes (portal (login_request user pwd)) = false ->
   V2.__init__ portal user pwd =
     ([Sent (login_request user pwd)],
      Raise (HTTPError (status_code (portal (login_request user pwd)))))) /\
  (passes (portal (login_request user pwd)) = true ->
   status_code (portal (login_request user pwd)) <> 999 ->
   passes (portal extend_request) = false ->
   V2.__init__ portal user pwd =
     ([Sent (login_request user pwd); Sent extend_request],
      Raise (HTTPError (status_code (portal extend_request))))) /\
  (sent_of (fst (V2.__init__ portal user pwd)) = [login_request user pwd] \/
   sent_of (fst (V2.__init__ portal user pwd)) =
     [login_request user pwd; extend_request]).
Proof.
  session_simpl. cbn [V2.session].
  set (L := portal (Post _ _)). set (E := portal (Get _ _)).
  destruct ((400 <=? status_code L) && (status_code L <? 600)) eqn:HL;
    cbn [negb].
  { intuition (try discriminate; try congruence). }
  destruct (status_code L =? 999) eqn:H999.
  { apply Z.eqb_eq in H999. intuition (try discriminate; try congruence). }
  apply Z.eqb_neq in H999.
  destruct ((400 <=? status_code E) && (status_code E <? 600)) eqn:HE;
    cbn [negb]; intuition (try discriminate; try congruence).
Qed.

(** X7: [get_consumption_records_for_day] asks for the day first, and for
    the mean profile only when that is wanted and the day response has
    passed: a good status, a JSON body, and not more than one candidate. *)
Theorem mean_profile_is_requested_after_the_day
    (self : V2.SmartMeter) (m : string) (d : date) (include : bool) :
  sent_of (fst (V2.get_consumption_records_for_day json_dumps isoformat
                  self m d include)) =
  day_request isoformat m d ::
  (if include && accepted (V2.session self (day_request isoformat m d))
   then [mean_profile_request isoformat m d] else []).
Proof.
  unfold accepted. session_simpl. name_responses self.
  destruct ((400 <=? status_code resp) && (status_code resp <? 600));
    cbn [negb andb]; [now rewrite andb_false_r|].
  destruct (json_body resp) as [v|]; [|now rewrite andb_false_r].
  destruct (Py.is_list v && (1 <? Py.len v)); cbn [negb];
    [now rewrite andb_false_r|].
  rewrite andb_true_r.
  destruct include; cbn [negb].
  - destruct ((400 <=? status_code mean) && (status_code mean <? 600));
      [reflexivity|].
    destruct (json_body mean); [|reflexivity].
    destruct (Py.getitem0 v); reflexivity.
  - destruct (Py.getitem0 v); reflexivity.
Qed.

Lemma dict_get_set d key v key' :
  Py.dict_get (Py.dict_set d key v) key' =
  if String.eqb key key' then Some v else Py.dict_get d key'.
Proof.
  induction d as [|[k x] d IH]; cbn; [reflexivity|].
  destruct (String.eqb k key) eqn:Hk; cbn.
  - apply String.eqb_eq in Hk. subst k.
    destruct (String.eqb key key'); reflexivity.
  - rewrite IH. destruct (String.eqb k key') eqn:Hk'; [|reflexivity].
    apply String.eqb_eq in Hk'. subst k. now rewrite String.eqb_sym, Hk.
Qed.

Lemma merged_mean_profile record profile :
  Py.dict_get (Py.dict_merge record [("meanProfile", profile)]) "meanProfile" =
    Some profile /\
  (forall key, key <> "meanProfile" ->
     Py.dict_get (Py.dict_merge record [("meanProfile", profile)]) key =
     Py.dict_get record key).
Proof.
  unfold Py.dict_merge. cbn [fold_left fst snd]. split.
  - now rewrite dict_get_set, String.eqb_refl.
  - intros key Hkey. rewrite dict_get_set.
    destruct (String.eqb "meanProfile" key) eqn:Hk; [|reflexivity].
    apply String.eqb_eq in Hk. congruence.
Qed.

(** X8: for a day response that is a one-element list holding an object,
    [get_consumption_records_for_day] returns that object with the mean
    profile under ["meanProfile"], replacing what the object had under
    that key; every other key reads as in the object. *)
Theorem fetched_record_carries_the_mean_profile
    (self : V2.SmartMeter) (m : string) (d : date)
    (record : list (string * value)) (profile : value) :
  passes (V2.session self (day_request isoformat m d)) = true ->
  json_body (V2.session self (day_request isoformat m d)) =
    Some (VList [VDict record]) ->
  passes (V2.session self (mean_profile_request isoformat m d)) = true ->
  json_body (V2.session self (mean_profile_request isoformat m d)) = Some profile ->
  exists merged,
    snd (V2.get_consumption_records_for_day json_dumps isoformat self m d true) =
      Return (VDict merged) /\
    Py.dict_get merged "meanProfile" = Some profile /\
    (forall key, key <> "meanProfile" ->
       Py.dict_get merged key = Py.dict_get record key).
Proof.
  intros H1 H2 H3 H4.
  destruct (records_singleton json_dumps isoformat self m d record profile
              H1 H2 H3 H4) as [_ Hmerged].
  eexists. split; [exact Hmerged|]. apply merged_mean_profile.
Qed.

(** X9: the top-level revision merges the mean profile into the day
    response itself: an object comes back with ["meanProfile"] set and its
    other keys untouched, anything else raises [TypeError]. *)
Theorem first_revision_merges_into_the_response
    (self : V1.SmartMeter) (m : string) (d : date) (v profile : value) :
  passes (V1.session self (day_request isoformat m d)) = true ->
  json_body (V1.session self (day_request isoformat m d)) = Some v ->
  passes (V1.session self (mean_profile_request isoformat m d)) = true ->
  json_body (V1.session self (mean_profile_request isoformat m d)) = Some profile ->
  (forall record, v = VDict record ->
     exists merged,
       snd (V1.get_consumption_records_for_day json_dumps isoformat self m d true) =
         Return (VDict merged) /\
       Py.dict_get merged "meanProfile" = Some profile /\
       (forall key, key <> "meanProfile" ->
          Py.dict_get merged key = Py.dict_get record key)) /\
  ((forall record, v <> VDict record) ->
   snd (V1.get_consumption_records_for_day json_dumps isoformat self m d true) =
     Raise TypeError).
Proof.
  intros H1 H2 H3 H4.
  rewrite (V1_records_object_only json_dumps isoformat self m d v profile
             H1 H2 H3 H4).
  split.
  - intros record ->. eexists. split; [reflexivity|]. apply merged_mean_profile.
  - intros Hnot. destruct v; try reflexivity. now destruct (Hnot d0).
Qed.

(** X10: an empty list as day response is not taken as "no data": the
    method raises, with [IndexError] from the subscript once the requests
    themselves have passed. *)
Theorem empty_day_response_raises
    (self : V2.SmartMeter) (m : string) (d : date) (include : bool) :
  json_body (V2.session self (day_request isoformat m d)) = Some (VList []) ->
  is_raise (snd (V2.get_consumption_records_for_day json_dumps isoformat
                   self m d include)) = true /\
  (passes (V2.session self (day_request isoformat m d)) = true ->
   snd (V2.get_consumption_records_for_day json_dumps isoformat self m d false) =
     Raise IndexError) /\
  (passes (V2.session self (day_request isoformat m d)) = true ->
   passes (V2.session self (mean_profile_request isoformat m d)) = true ->
   is_Some (json_body (V2.session self (mean_profile_request isoformat m d))) ->
   snd (V2.get_consumption_records_for_day json_dumps isoformat self m d true) =
     Raise IndexError).
Proof.
  intros Hbody. session_simpl. name_responses self.
  rewrite Hbody. cbn [Py.is_list Py.len length andb Py.getitem0].
  split; [|split].
  - destruct ((400 <=? status_code resp) && (status_code resp <? 600));
      [reflexivity|].
    destruct include; cbn [negb]; [|reflexivity].
    destruct ((400 <=? status_code mean) && (status_code mean <? 600));
      [reflexivity|].
    destruct (json_body mean); reflexivity.
  - intros Hok. apply negb_true_iff in Hok. rewrite Hok. reflexivity.
  - intros Hok Hok' [profile Hp].
    apply negb_true_iff in Hok, Hok'. rewrite Hok, Hok', Hp. reflexivity.
Qed.

(** [mapM] over a function that only computes. *)
Lemma session_mapM_pure {A B} (f : A -> Session B) (g : A -> result B) l :
  (forall a, f a = ([], g a)) ->
  mapM f l = ([], mapM g l).
Proof.
  intros Hfg. induction l as [|a l IH]; [reflexivity|].
  change (mapM f (a :: l)) with (y ← f a; k ← mapM f l; mret (y :: k)).
  change (mapM g (a :: l)) with (y ← g a; k ← mapM g l; mret (y :: k)).
  rewrite Hfg, IH. unfold mbind, session_bind, result_bind.
  destruct (g a); [|reflexivity]. destruct (mapM g l); reflexivity.
Qed.

Lemma result_mapM_cons {A B} (g : A -> result B) a l :
  mapM g (a :: l) =
  match g a with
  | Return b => match mapM g l with
                | Return k => Return (b :: k)
                | Raise e => Raise e
                end
  | Raise e => Raise e
  end.
Proof. reflexivity. Qed.

Lemma result_mapM_Forall2 {A B} (g : A -> result B) l k :
  mapM g l = Return k <-> Forall2 (fun a b => g a = Return b) l k.
Proof.
  revert k. induction l as [|a l IH]; intros k.
  - cbn. split.
    + intros Hk. injection Hk as <-. constructor.
    + intros Hk. inversion Hk. reflexivity.
  - rewrite result_mapM_cons. split.
    + destruct (g a) as [b|] eqn:Ha; [|discriminate].
      destruct (mapM g l) as [k'|] eqn:Hl; [|discriminate].
      intros Hk. injection Hk as <-. constructor; [exact Ha|]. now apply IH.
    + intros Hk. inversion Hk as [|? b ? k' Ha Hrest]; subst.
      rewrite Ha. apply IH in Hrest. rewrite Hrest. reflexivity.
Qed.

(** What [get_consumption_info] makes of one entry. *)
Lemma describes_iff entry info :
  (account ← Py.getitem entry "accountId";
   metering_point ← Py.getitem entry "meteringPointId";
   V2.new_ConsumptionInfo account metering_point) = Return info <->
  describes entry info.
Proof.
  unfold describes, mbind, result_bind.
  destruct (Py.getitem entry "accountId") as [a|];
    [|split; [discriminate|intros [? _]; discriminate]].
  destruct (Py.getitem entry "meteringPointId") as [p|];
    [|split; [discriminate|intros [_ ?]; discriminate]].
  destruct info as [ia ip]. cbn.
  destruct a, p; cbn; split; intros Hx;
    try discriminate; try (destruct Hx; discriminate).
  - injection Hx as <- <-. auto.
  - destruct Hx as [Ha Hp]. injection Ha as <-. injection Hp as <-. reflexivity.
Qed.

Lemma session_bind_ext {A B} (f f' : A -> Session B) (m : Session A) :
  (forall a, f a = f' a) -> mbind f m = mbind f' m.
Proof.
  intros Hf. destruct m as [t [a|e]]; [|reflexivity].
  unfold mbind, session_bind. now rewrite Hf.
Qed.

(** The enumeration, with the construction of the infos set apart. *)
Lemma get_consumption_info_eq (self : V2.SmartMeter) :
  V2.get_consumption_info json_dumps self =
  (response ← Session.get (V2.session self)
                (BASE_URL +:+ "/User/GetMeteringPointsByBusinesspartnerId")
                [("context", VInt 2)];
   Session.raise_for_status response;;
   json_response ← Session.json response;
   Session.log Debug "Response for '%s' was: %s"
     [BASE_URL +:+ "/User/GetMeteringPointsByBusinesspartnerId";
      json_dumps None json_response];;
   entries ← Session.of_result (Py.iter json_response);
   ([], mapM (fun entry =>
                account ← Py.getitem entry "accountId";
                metering_point ← Py.getitem entry "meteringPointId";
                V2.new_ConsumptionInfo account metering_point) entries)).
Proof.
  unfold V2.get_consumption_info. cbv zeta. cbn [V2.Context_value].
  apply session_bind_ext. intros response.
  apply session_bind_ext. intros _.
  apply session_bind_ext. intros json_response.
  apply session_bind_ext. intros _.
  apply session_bind_ext. intros entries.
  apply session_mapM_pure. intros entry.
  unfold mbind, session_bind, result_bind, Session.of_result.
  destruct (Py.getitem entry "accountId"); [|reflexivity].
  destruct (Py.getitem entry "meteringPointId"); reflexivity.
Qed.

(** X11: [get_consumption_info] sends one request, with the context of the
    consumption info.  Once the response has passed and iterates, it
    returns a list exactly when every entry has a string [accountId] and a
    string [meteringPointId]; the list then describes the entries one by
    one, in order: no entry is skipped. *)
Theorem enumeration_returns_every_entry
    (self : V2.SmartMeter) (json : value) (entries : list value) :
  sent_of (fst (V2.get_consumption_info json_dumps self)) =
    [consumption_info_request] /\
  (passes (V2.session self consumption_info_request) = true ->
   json_body (V2.session self consumption_info_request) = Some json ->
   Py.iter json = Return entries ->
   forall infos,
     snd (V2.get_consumption_info json_dumps self) = Return infos <->
     Forall2 describes entries infos).
Proof.
  rewrite get_consumption_info_eq.
  unfold consumption_info_request, passes.
  cbv beta iota zeta delta
    [Session.raise_for_status Session.json Session.log Session.raise
     Session.of_result Session.get mbind session_bind mret session_ret fst snd].
  set (R := V2.session self (Get _ _)).
  split.
  - destruct ((400 <=? status_code R) && (status_code R <? 600)); [reflexivity|].
    destruct (json_body R) as [j|]; [|reflexivity].
    destruct (Py.iter j); reflexivity.
  - intros Hok Hbody Hiter infos.
    apply negb_true_iff in Hok. rewrite Hok, Hbody, Hiter.
    cbn [fst snd].
    rewrite result_mapM_Forall2.
    split; intros HF; eapply Forall2_impl; try exact HF;
      intros entry info; apply describes_iff.
Qed.

End ReworkedMore.

Section Runs.
Variable json_dumps : option Z -> value -> string.
Variable isoformat : date -> string.

Lemma io_bind_eq {A B} (c : IO A) (k : A -> IO B) fs :
  (c ≫= k) fs =
  match c fs with
  | (t, fs', Return a) => let '(t', fs'', r) := k a fs' in (t ++ t', fs'', r)
  | (t, fs', Raise e) => (t, fs', Raise e)
  end.
Proof. reflexivity. Qed.

Lemma keeps_ret {A} (a : A) : keeps_entries (mret a).
Proof. intros fs p n Hp. exact Hp. Qed.

Lemma keeps_perform {A} (m : Session A) : keeps_entries (perform m).
Proof. intros fs p n Hp. exact Hp. Qed.

Lemma keeps_bind {A B} (c : IO A) (k : A -> IO B) :
  keeps_entries c -> (forall a, keeps_entries (k a)) -> keeps_entries (c ≫= k).
Proof.
  intros Hc Hk fs p n Hp. rewrite io_bind_eq.
  specialize (Hc fs p n Hp).
  destruct (c fs) as [[t fs'] [a|e]]; outcome; [|exact Hc].
  specialize (Hk a fs' p n Hc).
  destruct (k a fs') as [[t' fs''] r]. exact Hk.
Qed.

Lemma keeps_exists p : keeps_entries (Fs.exists_ p).
Proof. intros fs q n Hq. exact Hq. Qed.

Lemma keeps_mkdir p : keeps_entries (Fs.mkdir p).
Proof.
  intros fs q n Hq. unfold Fs.mkdir.
  destruct (fs !! p) eqn:Hp; [exact Hq|].
  destruct (Fs.parent_error fs p); [exact Hq|].
  cbn. rewrite lookup_insert_ne; [exact Hq|]. congruence.
Qed.

Lemma keeps_for_each {A} (l : list A) (f : A -> IO unit) :
  (forall a, keeps_entries (f a)) -> keeps_entries (for_each l f).
Proof.
  intros Hf. induction l as [|a l IH]; [apply keeps_ret|].
  cbn [for_each]. apply keeps_bind; [apply Hf|]. intros _. exact IH.
Qed.

Lemma keeps_download {SM : Type} `{SmartMeterLike SM} today (smartmeter : SM)
    dir meter start :
  keeps_entries (download_consumptions_for_meter json_dumps isoformat today
                   smartmeter dir meter start).
Proof. intros fs p n. apply loop_preserves. Qed.

Lemma keeps_ensure_dir d : keeps_entries (V2.ensure_dir d).
Proof.
  apply keeps_bind; [apply keeps_exists|].
  intros []; [apply keeps_ret|apply keeps_mkdir].
Qed.

Lemma keeps_ensure_dir_first d : keeps_entries (V1Main.ensure_dir d).
Proof.
  apply keeps_bind; [apply keeps_exists|].
  intros []; [apply keeps_ret|apply keeps_mkdir].
Qed.

Lemma keeps_joinpath d name : keeps_entries (V1Main.joinpath d name).
Proof. destruct name; (apply keeps_ret || apply keeps_perform). Qed.

(** X12: a run of [main], of either revision, leaves every entry that
    exists as it is: nothing is removed, and no file or directory is
    replaced. *)
Theorem main_keeps_every_entry
    (portal : request -> response) (_settings : Settings) (today : date) :
  keeps_entries (V2.main portal json_dumps isoformat _settings today) /\
  keeps_entries (V1Main.main portal json_dumps isoformat _settings today).
Proof.
  split.
  - apply keeps_bind; [apply keeps_perform|]. intros smartmeter.
    apply keeps_bind; [apply keeps_perform|]. intros infos.
    apply keeps_for_each. intros info.
    apply keeps_bind; [apply keeps_ensure_dir|]. intros _.
    apply keeps_bind; [apply keeps_ensure_dir|]. intros _.
    apply keeps_download.
  - apply keeps_bind; [apply keeps_perform|]. intros smartmeter.
    apply keeps_bind; [apply keeps_perform|]. intros meters.
    apply keeps_for_each. intros item.
    apply keeps_bind; [apply keeps_joinpath|]. intros account_dir.
    apply keeps_bind; [apply keeps_ensure_dir_first|]. intros _.
    apply keeps_for_each. intros energy_meter.
    apply keeps_bind; [apply keeps_joinpath|]. intros energy_meter_dir.
    apply keeps_bind; [apply keeps_ensure_dir_first|]. intros _.
    destruct energy_meter; (apply keeps_download || apply keeps_perform).
Qed.

Lemma returns_bind {A B} (c : IO A) (k : A -> IO B) fs b :
  result_of ((c ≫= k) fs) = Return b ->
  exists a, result_of (c fs) = Return a /\
            result_of (k a (files_of (c fs))) = Return b /\
            files_of ((c ≫= k) fs) = files_of (k a (files_of (c fs))).
Proof.
  rewrite io_bind_eq.
  destruct (c fs) as [[t fs'] [a|e]]; outcome; [|discriminate].
  intros Hb. exists a. destruct (k a fs') as [[t' fs''] r]. outcome. auto.
Qed.

Lemma ensure_dir_exists d fs :
  result_of (V2.ensure_dir d fs) = Return tt ->
  is_Some (files_of (V2.ensure_dir d fs) !! d).
Proof.
  unfold V2.ensure_dir. rewrite io_bind_eq. unfold Fs.exists_.
  destruct (fs !! d) as [n|] eqn:Hd.
  - cbn. rewrite Hd. eauto.
  - unfold Fs.mkdir. rewrite Hd.
    destruct (Fs.parent_error fs d); cbn; [discriminate|].
    rewrite lookup_insert_eq. eauto.
Qed.

Lemma keeps_is_Some {A} (c : IO A) fs p :
  keeps_entries c -> is_Some (fs !! p) -> is_Some (files_of (c fs) !! p).
Proof. intros Hc [n Hn]. exists n. now apply Hc. Qed.

(** A loop establishes for every element what its body establishes, when
    later iterations do not undo it. *)
Lemma for_each_establishes {A} (P : A -> gmap (list string) node -> Prop)
    (l : list A) (f : A -> IO unit) :
  (forall a fs, result_of (f a fs) = Return tt -> P a (files_of (f a fs))) ->
  (forall a b fs, P a fs -> P a (files_of (f b fs))) ->
  forall fs, result_of (for_each l f fs) = Return tt ->
  forall a, In a l -> P a (files_of (for_each l f fs)).
Proof.
  intros Hbody Hstable.
  assert (Hloop : forall l' a fs, P a fs -> P a (files_of (for_each l' f fs))).
  { induction l' as [|b l' IH]; intros a fs Ha; [exact Ha|].
    rewrite for_each_cons. specialize (Hstable a b fs Ha).
    destruct (f b fs) as [[t fs'] [[]|e]]; outcome; [|exact Hstable].
    specialize (IH a fs' Hstable).
    destruct (for_each l' f fs') as [[t' fs''] r]. exact IH. }
  induction l as [|b l IH]; intros fs Hret a Hin; [destruct Hin|].
  rewrite for_each_cons in *.
  specialize (Hbody b fs). specialize (Hloop l).
  destruct (f b fs) as [[t fs'] [[]|e]]; outcome; [|discriminate].
  specialize (IH fs').
  destruct (for_each l f fs') as [[t' fs''] r] eqn:Hrest. outcome.
  destruct Hin as [<-|Hin].
  - specialize (Hloop b fs' (Hbody eq_refl)). rewrite Hrest in Hloop. exact Hloop.
  - apply IH; assumption.
Qed.

Lemma init_returns_the_session portal user pwd s :
  snd (V2.__init__ portal user pwd) = Return s -> s = {| V2.session := portal |}.
Proof.
  cbv beta iota zeta delta
    [V2._login V2._extend_session_lifetime V2.__init__
     Session.raise_for_status Session.sys_exit Session.print Session.raise
     Session.get Session.post mbind session_bind mret session_ret fst snd].
  cbn [V2.session].
  repeat match goal with
         | |- context [if ?c then _ else _] => destruct c
         end; intros Hs; try discriminate.
  now injection Hs.
Qed.

(** [main], with its three stages set apart. *)
Lemma main_eq (portal : request -> response) (_settings : Settings)
    (today : date) (fs : gmap (list string) node) :
  V2.main portal json_dumps isoformat _settings today fs =
  match V2.__init__ portal (username _settings) (password _settings) with
  | (t, Raise e) => (map Net t, fs, Raise e)
  | (t, Return smartmeter) =>
      match V2.get_consumption_info json_dumps smartmeter with
      | (t', Raise e) => (map Net t ++ map Net t', fs, Raise e)
      | (t', Return infos) =>
          let '(t'', fs'', r) :=
            for_each infos (fun consumption_info =>
              V2.ensure_dir (storage_path _settings ++
                             [V2.account_id consumption_info]);;
              V2.ensure_dir ((storage_path _settings ++
                              [V2.account_id consumption_info]) ++
                             [V2.metering_point_id consumption_info]);;
              download_consumptions_for_meter
                (H := V2.smartmeter_like json_dumps isoformat)
                json_dumps isoformat today smartmeter
                ((storage_path _settings ++ [V2.account_id consumption_info]) ++
                 [V2.metering_point_id consumption_info])
                (V2.metering_point_id consumption_info)
                (measure_start_date _settings)) fs in
          (map Net t ++ map Net t' ++ t'', fs'', r)
      end
  end.
Proof.
  unfold V2.main. rewrite io_bind_eq. unfold perform at 1.
  destruct (V2.__init__ portal (username _settings) (password _settings))
    as [t [smartmeter|e]]; cbn [fst snd]; [|reflexivity].
  rewrite io_bind_eq. unfold perform at 1.
  destruct (V2.get_consumption_info json_dumps smartmeter) as [t' [infos|e]];
    cbn [fst snd]; [|reflexivity].
  destruct (for_each infos _ fs) as [[t'' fs''] r]. reflexivity.
Qed.

(** When [main] returns normally, the path of every account and of every
    metering point the enumeration returned exists afterwards. *)
Lemma main_paths_exist
    (portal : request -> response) (_settings : Settings) (today : date)
    (fs : gmap (list string) node) (infos : list V2.ConsumptionInfo) :
  result_of (V2.main portal json_dumps isoformat _settings today fs) = Return tt ->
  snd (V2.get_consumption_info json_dumps {| V2.session := portal |}) =
    Return infos ->
  forall info, In info infos ->
    is_Some (files_of (V2.main portal json_dumps isoformat _settings today fs)
             !! account_path (storage_path _settings) (V2.account_id info)) /\
    is_Some (files_of (V2.main portal json_dumps isoformat _settings today fs)
             !! meter_path (storage_path _settings) (V2.account_id info)
                  (V2.metering_point_id info)).
Proof.
  rewrite main_eq. intros Hret Hinfos.
  destruct (V2.__init__ portal (username _settings) (password _settings))
    as [t [s|e]] eqn:Hinit; [|discriminate].
  assert (s = {| V2.session := portal |}) as ->.
  { eapply init_returns_the_session. rewrite Hinit. reflexivity. }
  destruct (V2.get_consumption_info json_dumps {| V2.session := portal |})
    as [t' r']. cbn [snd] in Hinfos. subst r'.
  match type of Hret with
  | context [for_each infos ?f fs] => set (step := f) in *
  end.
  destruct (for_each infos step fs) as [[t'' fs''] r''] eqn:Hloop. outcome.
  subst r''.
  intros info Hin.
  pose (P := fun (info : V2.ConsumptionInfo) (fs : gmap (list string) node) =>
       is_Some (fs !! account_path (storage_path _settings) (V2.account_id info)) /\
       is_Some (fs !! meter_path (storage_path _settings) (V2.account_id info)
                        (V2.metering_point_id info))).
  assert (Hkeeps : forall b, keeps_entries (step b)).
  { intros b. subst step. cbv beta.
    apply keeps_bind; [apply keeps_ensure_dir|]. intros _.
    apply keeps_bind; [apply keeps_ensure_dir|]. intros _.
    apply keeps_download. }
  assert (Hbody : forall a fs0,
            result_of (step a fs0) = Return tt -> P a (files_of (step a fs0))).
  { intros a fs0 Hr. subst step P. cbv beta in *.
    apply returns_bind in Hr. destruct Hr as ([] & Ha & Hr & ->).
    apply returns_bind in Hr. destruct Hr as ([] & Hm & Hr & ->).
    apply ensure_dir_exists in Ha, Hm.
    split.
    - apply keeps_is_Some; [apply keeps_download|].
      apply keeps_is_Some; [apply keeps_ensure_dir|]. exact Ha.
    - apply keeps_is_Some; [apply keeps_download|]. exact Hm. }
  assert (Hstable : forall a b fs0, P a fs0 -> P a (files_of (step b fs0))).
  { intros a b fs0 [Ha Hm]. split; apply keeps_is_Some; auto. }
  pose proof (for_each_establishes P infos step Hbody Hstable fs) as Hall.
  rewrite Hloop in Hall. exact (Hall eq_refl info Hin).
Qed.

Lemma adds_ret {A} allowed (a : A) : adds_only allowed (mret a).
Proof. intros fs p n Hp. now left. Qed.

Lemma adds_perform {A} allowed (m : Session A) : adds_only allowed (perform m).
Proof. intros fs p n Hp. now left. Qed.

Lemma adds_bind {A B} allowed (c : IO A) (k : A -> IO B) :
  adds_only allowed c -> (forall a, adds_only allowed (k a)) ->
  adds_only allowed (c ≫= k).
Proof.
  intros Hc Hk fs p n. rewrite io_bind_eq.
  specialize (Hc fs p n).
  destruct (c fs) as [[t fs'] [a|e]]; outcome; [|exact Hc].
  specialize (Hk a fs' p n).
  destruct (k a fs') as [[t' fs''] r]. outcome.
  intros Hp. destruct (Hk Hp) as [Hmid|Hnew]; [exact (Hc Hmid)|now right].
Qed.

Lemma adds_for_each {A} allowed (l : list A) (f : A -> IO unit) :
  (forall a, adds_only allowed (f a)) -> adds_only allowed (for_each l f).
Proof.
  intros Hf. induction l as [|a l IH]; [apply adds_ret|].
  cbn [for_each]. apply adds_bind; [apply Hf|]. intros _. exact IH.
Qed.

Lemma adds_ensure_dir allowed d :
  (forall p, allowed p Directory) -> adds_only allowed (V2.ensure_dir d).
Proof.
  intros Hdir. apply adds_bind; [intros fs p n Hp; now left|].
  intros []; [apply adds_ret|].
  intros fs p n. unfold Fs.mkdir.
  destruct (fs !! d) eqn:Hd; [now left|].
  destruct (Fs.parent_error fs d); [now left|].
  outcome. destruct (decide (d = p)) as [<-|Hne].
  - rewrite lookup_insert_eq. intros [= <-]. right. apply Hdir.
  - rewrite lookup_insert_ne by assumption. now left.
Qed.

(** What a run of [download_consumptions_for_meter] adds are files of
    days, right beneath [dir]. *)
Lemma adds_download {SM : Type} `{SmartMeterLike SM} allowed today
    (smartmeter : SM) dir meter start :
  (forall day n, allowed (json_file isoformat dir day) n) ->
  adds_only allowed (download_consumptions_for_meter json_dumps isoformat today
                       smartmeter dir meter start).
Proof.
  intros Hday fs p n Hp.
  destruct (fs !! p) as [n0|] eqn:Hfs.
  - left. rewrite <- Hp. symmetry. now apply loop_preserves.
  - right.
    destruct (loop_adds json_dumps isoformat smartmeter dir meter _ fs p n Hfs Hp)
      as (day & _ & _ & _ & -> & _).
    apply Hday.
Qed.

Lemma main_adds_directories_and_day_files
    (portal : request -> response) (_settings : Settings) (today : date) :
  adds_only (directory_or_day_file (storage_path _settings))
            (V2.main portal json_dumps isoformat _settings today).
Proof.
  assert (Hdir : forall p,
            directory_or_day_file (storage_path _settings) p Directory)
    by (intros p; now left).
  apply adds_bind; [apply adds_perform|]. intros smartmeter.
  apply adds_bind; [apply adds_perform|]. intros infos.
  apply adds_for_each. intros info.
  apply adds_bind; [now apply adds_ensure_dir|]. intros _.
  apply adds_bind; [now apply adds_ensure_dir|]. intros _.
  apply adds_download. intros day n. right.
  unfold json_file. rewrite !length_app. cbn [length]. lia.
Qed.

(** X13: when [main] returns normally, the path of every account and of
    every metering point the enumeration returned holds a directory
    afterwards, unless a plain file was at that path before the run: that
    file is then still there, and no directory has been made. *)
Theorem main_makes_the_directories
    (portal : request -> response) (_settings : Settings) (today : date)
    (fs : gmap (list string) node) (infos : list V2.ConsumptionInfo) :
  result_of (V2.main portal json_dumps isoformat _settings today fs) = Return tt ->
  snd (V2.get_consumption_info json_dumps {| V2.session := portal |}) =
    Return infos ->
  forall info, In info infos ->
  forall p,
    p = account_path (storage_path _settings) (V2.account_id info) \/
    p = meter_path (storage_path _settings) (V2.account_id info)
          (V2.metering_point_id info) ->
    files_of (V2.main portal json_dumps isoformat _settings today fs) !! p =
      Some Directory \/
    exists text,
      fs !! p = Some (File text) /\
      files_of (V2.main portal json_dumps isoformat _settings today fs) !! p =
        Some (File text).
Proof.
  intros Hret Hinfos info Hin p Hp.
  destruct (main_paths_exist portal _settings today fs infos Hret Hinfos info Hin)
    as [Haccount Hmeter].
  assert (Hsome : is_Some (files_of (V2.main portal json_dumps isoformat
                                       _settings today fs) !! p))
    by (destruct Hp as [-> | ->]; assumption).
  assert (Hshort : length p <> (length (storage_path _settings) + 3)%nat).
  { destruct Hp as [-> | ->]; unfold account_path, meter_path;
      rewrite !length_app; cbn [length]; lia. }
  destruct Hsome as [n Hn].
  destruct (main_adds_directories_and_day_files portal _settings today fs p n Hn)
    as [Hold|[->|Hlen]].
  - destruct n as [text|]; [right; eauto|now left].
  - now left.
  - contradiction.
Qed.

(** X14: unless the login, the extension of the session and the
    enumeration have all succeeded, [main] ends with an exception and has
    not looked at the files: no existence test, no directory, no fetch. *)
Theorem main_needs_session_and_enumeration
    (portal : request -> response) (_settings : Settings) (today : date)
    (fs : gmap (list string) node) :
  (forall s,
     snd (V2.__init__ portal (username _settings) (password _settings)) = Return s ->
     is_raise (snd (V2.get_consumption_info json_dumps s)) = true) ->
  is_raise (result_of (V2.main portal json_dumps isoformat _settings today fs))
    = true /\
  files_of (V2.main portal json_dumps isoformat _settings today fs) = fs /\
  probed (trace_of (V2.main portal json_dumps isoformat _settings today fs)) = [] /\
  fetched (trace_of (V2.main portal json_dumps isoformat _settings today fs)) = [].
Proof.
  intros Hfail. rewrite main_eq.
  destruct (V2.__init__ portal (username _settings) (password _settings))
    as [t [s|e]]; cbn [fst snd] in *.
  - specialize (Hfail s eq_refl).
    destruct (V2.get_consumption_info json_dumps s) as [t' [infos|e]];
      cbn [fst snd] in *; [discriminate|].
    outcome. rewrite probed_app, fetched_app, !probed_net, !fetched_net. auto.
  - outcome. rewrite probed_net, fetched_net. auto.
Qed.

End Runs.

Section FirstRevision.
Variable json_dumps : option Z -> value -> string.
Variable isoformat : date -> string.

Lemma key_eqb_refl k : PyDict.hashable k = true -> PyDict.key_eqb k k = true.
Proof.
  destruct k; cbn; intros Hk; try discriminate; auto.
  - now destruct b.
  - apply Qeq_bool_iff. reflexivity.
  - apply Qeq_bool_iff. reflexivity.
  - apply String.eqb_refl.
Qed.

Lemma store_keys_Forall {V} (Q : value -> Prop) (d : list (value * V)) key v :
  Forall (fun y => Q (fst y)) d -> Q key ->
  Forall (fun y => Q (fst y)) (PyDict.store d key v).
Proof.
  intros Hd Hkey. induction Hd as [|[k x] d Hk Hd IH]; cbn.
  - constructor; [exact Hkey|constructor].
  - destruct (PyDict.key_eqb k key); constructor; assumption.
Qed.

Lemma store_distinct {V} (d : list (value * V)) key v :
  distinct_keys d -> distinct_keys (PyDict.store d key v).
Proof.
  unfold distinct_keys. induction 1 as [|[k x] d Hk Hd IH]; cbn.
  - repeat constructor.
  - destruct (PyDict.key_eqb k key) eqn:Heq; constructor; try assumption.
    apply (store_keys_Forall (fun y => PyDict.key_eqb k y = false));
      assumption.
Qed.

Lemma store_finds {V} (d : list (value * V)) key v :
  PyDict.hashable key = true ->
  is_Some (PyDict.lookup (PyDict.store d key v) key).
Proof.
  intros Hkey. induction d as [|[k x] d IH]; cbn.
  - rewrite key_eqb_refl by assumption. eauto.
  - destruct (PyDict.key_eqb k key) eqn:Heq; cbn; rewrite Heq; eauto.
Qed.

Lemma store_still_finds {V} (d : list (value * V)) key v k' :
  is_Some (PyDict.lookup d k') ->
  is_Some (PyDict.lookup (PyDict.store d key v) k').
Proof.
  induction d as [|[k x] d IH]; cbn; [intros [? ?]; discriminate|].
  destruct (PyDict.key_eqb k key) eqn:Heq; cbn;
    destruct (PyDict.key_eqb k k'); eauto.
Qed.

Lemma store_length {V} (d : list (value * V)) key v :
  (length (PyDict.store d key v) <= S (length d))%nat.
Proof.
  induction d as [|[k x] d IH]; cbn; [lia|].
  destruct (PyDict.key_eqb k key); cbn; lia.
Qed.

Lemma session_bind_snd {A B} (f : A -> Session B) (m : Session A) b :
  snd (m ≫= f) = Return b ->
  exists a, snd m = Return a /\ snd (f a) = Return b.
Proof.
  destruct m as [t [a|e]]; unfold mbind, session_bind.
  - destruct (f a) as [t' r] eqn:Hf. cbn. intros ->. exists a.
    rewrite Hf. auto.
  - cbn. discriminate.
Qed.

Lemma collect_meters_spec (self : V1.SmartMeter) (account_ids : list value) :
  forall acc d,
    snd (V1Main.collect_meters json_dumps self account_ids acc) = Return d ->
    distinct_keys acc ->
    distinct_keys d /\
    (forall k, In k (map fst d) ->
       In k (map fst acc) \/ (In k account_ids /\ PyDict.hashable k = true)) /\
    (forall k, is_Some (PyDict.lookup acc k) -> is_Some (PyDict.lookup d k)) /\
    (forall k, In k account_ids -> is_Some (PyDict.lookup d k)) /\
    (length d <= length acc + length account_ids)%nat.
Proof.
  induction account_ids as [|account_id rest IH]; intros acc d Hd Hacc.
  - cbn in Hd. injection Hd as <-.
    repeat split; auto; [intros k []|lia].
  - cbn [V1Main.collect_meters] in Hd.
    apply session_bind_snd in Hd. destruct Hd as (meters & _ & Hd).
    destruct (PyDict.hashable account_id) eqn:Hhash; [|discriminate].
    destruct (IH _ _ Hd (store_distinct acc account_id meters Hacc))
      as (Hdist & Hkeys & Hold & Hnew & Hlen).
    split; [exact Hdist|]. split; [|split; [|split]].
    + intros k Hk. destruct (Hkeys k Hk) as [Hin|[Hin Hh]].
      * assert (Hcase : Forall (fun y => In (fst y) (map fst acc) \/
                                         fst y = account_id)
                               (PyDict.store acc account_id meters)).
        { apply (store_keys_Forall
                   (fun key => In key (map fst acc) \/ key = account_id));
            [|now right].
          apply List.Forall_forall. intros y Hy. left. now apply in_map. }
        apply in_map_iff in Hin. destruct Hin as (y & <- & Hy).
        rewrite List.Forall_forall in Hcase.
        destruct (Hcase y Hy) as [Hacc'| ->]; [now left|].
        right. split; [now left|assumption].
      * right. split; [now right|assumption].
    + intros k Hk. apply Hold, store_still_finds, Hk.
    + intros k [<-|Hin]; [|now apply Hnew].
      apply Hold, store_finds, Hhash.
    + pose proof (store_length acc account_id meters). cbn [length]. lia.
Qed.

(** X15: the dict [get_account_meters] returns has no two equal keys; its
    keys are hashable account ids of the enumeration, and every account id
    of the enumeration is found in it: an id the portal lists twice is
    kept, and later synchronised, once. *)
Theorem account_meters_are_keyed_once
    (self : V1.SmartMeter) (d : list (value * list value)) :
  snd (V1Main.get_account_meters json_dumps self) = Return d ->
  distinct_keys d /\
  exists account_ids,
    snd (V1Main._get_account_ids json_dumps self) = Return account_ids /\
    (forall k, In k (map fst d) ->
       In k account_ids /\ PyDict.hashable k = true) /\
    (forall k, In k account_ids -> is_Some (PyDict.lookup d k)) /\
    (length d <= length account_ids)%nat.
Proof.
  unfold V1Main.get_account_meters. intros Hd.
  apply session_bind_snd in Hd. destruct Hd as (account_ids & Hids & Hd).
  destruct (collect_meters_spec self account_ids [] d Hd)
    as (Hdist & Hkeys & _ & Hnew & Hlen); [constructor|].
  split; [exact Hdist|]. exists account_ids.
  split; [exact Hids|]. split; [|split; [exact Hnew|exact Hlen]].
  intros k Hk. destruct (Hkeys k Hk) as [[]|?]. assumption.
Qed.

Lemma requests_app t1 t2 : requests (t1 ++ t2) = requests t1 ++ requests t2.
Proof. unfold requests. apply flat_map_app. Qed.

Lemma requests_net (t : list net_event) : requests (map Net t) = sent_of t.
Proof.
  induction t as [|e t IH]; [reflexivity|].
  unfold requests in *. cbn [map flat_map]. rewrite IH.
  destruct e; reflexivity.
Qed.

Lemma session_bind_fst {A B} (f : A -> Session B) (m : Session A) :
  exists rest, fst (m ≫= f) = fst m ++ rest.
Proof.
  destruct m as [t [a|e]]; unfold mbind, session_bind.
  - destruct (f a) as [t' r]. exists t'. reflexivity.
  - exists []. cbn. now rewrite app_nil_r.
Qed.

(** After a login that passed, the top-level [main] asks for the account
    ids. *)
Lemma first_revision_asks_for_accounts
    (portal : request -> response) (_settings : Settings) (today : date)
    (fs : gmap (list string) node) :
  passes (portal (login_request (username _settings) (password _settings)))
    = true ->
  exists rest,
    requests (trace_of (V1Main.main portal json_dumps isoformat _settings
                          today fs)) =
    login_request (username _settings) (password _settings)
      :: account_ids_request :: rest.
Proof.
  intros Hok. unfold passes in Hok. apply negb_true_iff in Hok.
  assert (Hinit :
    V1.__init__ portal (username _settings) (password _settings) =
    ([Sent (login_request (username _settings) (password _settings))],
     Return {| V1.session := portal |})).
  { cbv beta iota zeta delta
      [V1._login V1.__init__ Session.raise_for_status Session.raise
       Session.post mbind session_bind mret session_ret fst snd login_request].
    cbn [V1.session].
    cbv beta iota zeta delta [login_request] in Hok. rewrite Hok. reflexivity. }
  assert (Hnext : exists rest,
    fst (V1Main.get_account_meters json_dumps {| V1.session := portal |}) =
    Sent account_ids_request :: rest).
  { unfold V1Main.get_account_meters, V1Main._get_account_ids. cbv zeta.
    unfold Session.get. cbn [V1.session].
    match goal with
    | |- exists rest, fst (?m ≫= ?f) = _ =>
        destruct (session_bind_fst f m) as [rest Hrest]; rewrite Hrest
    end.
    match goal with
    | |- exists rest0, fst (?m ≫= ?f) ++ _ = _ =>
        destruct (session_bind_fst f m) as [rest' Hrest']; rewrite Hrest'
    end.
    cbn [fst app]. eexists. reflexivity. }
  destruct Hnext as [rest Hnext].
  unfold V1Main.main. rewrite io_bind_eq. unfold perform at 1.
  rewrite Hinit. cbn [fst snd map].
  rewrite io_bind_eq. unfold perform at 1.
  destruct (V1Main.get_account_meters json_dumps {| V1.session := portal |})
    as [t' r']. cbn [fst snd] in *. subst t'.
  destruct r' as [meters|e].
  - destruct (for_each meters _ fs) as [[t'' fs''] r'']. outcome.
    eexists. cbn [app map]. reflexivity.
  - outcome. eexists. cbn [app map].
    change (requests (Net (Sent ?a) :: Net (Sent ?b) :: ?l))
      with (a :: b :: requests l).
    reflexivity.
Qed.

(** X16: the top-level revision does not know the maintenance status.
    Whenever the login response passes [raise_for_status] (status 999
    does), its [main] goes on and asks for the account ids next. *)
Theorem first_revision_goes_on_after_login
    (portal : request -> response) (_settings : Settings) (today : date)
    (fs : gmap (list string) node) :
  passes (portal (login_request (username _settings) (password _settings)))
    = true ->
  exists rest,
    requests (trace_of (V1Main.main portal json_dumps isoformat _settings
                          today fs)) =
    login_request (username _settings) (password _settings)
      :: account_ids_request :: rest.
Proof. apply first_revision_asks_for_accounts. Qed.

(** C2: a login response with status 999 halts the run of the reworked
    revision: [main] prints the diagnostic and ends in [sys.exit(1)], the
    login request is the only request of the run (it is not repeated),
    and no enumeration, directory test or day fetch follows.  The
    top-level revision has no such test: the same response passes its
    [_login], the constructor returns the session, and [main] goes on to
    ask for the account ids. *)
Theorem maintenance_login_halts_only_the_reworked_run
    (portal : request -> response) (_settings : Settings) (today : date)
    (fs : gmap (list string) node) :
  status_code (portal (login_request (username _settings) (password _settings)))
    = 999 ->
  (exists diagnostic,
     V2.main portal json_dumps isoformat _settings today fs =
       ([Net (Sent (login_request (username _settings) (password _settings)));
         Net (Printed diagnostic)],
        fs, Raise (SystemExit 1)) /\
     requests (trace_of (V2.main portal json_dumps isoformat _settings today fs)) =
       [login_request (username _settings) (password _settings)] /\
     fetched (trace_of (V2.main portal json_dumps isoformat _settings today fs))
       = []) /\
  snd (V1.__init__ portal (username _settings) (password _settings)) =
    Return {| V1.session := portal |} /\
  exists rest,
    requests (trace_of (V1Main.main portal json_dumps isoformat _settings
                          today fs)) =
    login_request (username _settings) (password _settings)
      :: account_ids_request :: rest.
Proof.
  intros Hstatus. split; [|split].
  - now apply reworked_main_halts_at_maintenance.
  - now apply V1_login_ignores_maintenance.
  - apply first_revision_asks_for_accounts.
    unfold passes. rewrite Hstatus. reflexivity.
Qed.

End FirstRevision.

(** * Further properties of the importer *)

Section TableMore.
Variable consumed : bool.

Lemma max_rowid_bound l r : In r l -> Sqlite.id r <= Sqlite.max_rowid l.
Proof.
  induction l as [|x l IH]; intros Hin; [destruct Hin|].
  change (Sqlite.max_rowid (x :: l))
    with (Z.max (Sqlite.id x) (Sqlite.max_rowid l)).
  destruct Hin as [->|Hin]; [lia|]. specialize (IH Hin). lia.
Qed.

Lemma next_rowid_above t r :
  In r (Sqlite.rows t) -> Sqlite.id r < Sqlite.next_rowid t.
Proof.
  intros Hr. apply max_rowid_bound in Hr. unfold Sqlite.next_rowid. lia.
Qed.

Lemma appended_refl t : appended t t [].
Proof.
  unfold appended. rewrite app_nil_r.
  repeat split; auto; try constructor; intros ? ? [].
Qed.

Lemma appended_trans t t1 t2 new1 new2 :
  appended t t1 new1 -> appended t1 t2 new2 -> appended t t2 (new1 ++ new2).
Proof.
  intros (H1 & Hd1 & Hf1 & Hi1 & Hn1) (H2 & Hd2 & Hf2 & Hi2 & Hn2).
  assert (Hts : Sqlite.timestamps t1 =
                Sqlite.timestamps t ++ map Sqlite.timestamp new1).
  { unfold Sqlite.timestamps. now rewrite H1, map_app. }
  unfold appended. split; [now rewrite H2, H1, app_assoc|].
  split; [|split; [|split]].
  - rewrite map_app. apply NoDup_app. split; [exact Hd1|]. split; [|exact Hd2].
    intros ts Hin1 Hin2. apply list_elem_of_In in Hin1, Hin2.
    apply in_map_iff in Hin2. destruct Hin2 as (r & <- & Hr).
    apply (Hf2 r Hr). rewrite Hts. apply in_or_app. now right.
  - intros r Hr Hin. apply in_app_or in Hr. destruct Hr as [Hr|Hr].
    + now apply (Hf1 r Hr).
    + apply (Hf2 r Hr). rewrite Hts. apply in_or_app. now left.
  - intros r r0 Hr Hr0. apply in_app_or in Hr. destruct Hr as [Hr|Hr].
    + now apply Hi1.
    + apply Hi2; [exact Hr|]. rewrite H1. apply in_or_app. now left.
  - auto.
Qed.

Lemma insert_appended t p :
  exists new, appended t (Sqlite.insert consumed t p) new.
Proof.
  destruct (Sqlite.conflict t (Sqlite.timestamp_of p)) eqn:Hc.
  - exists []. apply conflict_In in Hc.
    pose proof (insert_present consumed t p Hc) as Hrows.
    unfold appended. rewrite Hrows, app_nil_r.
    repeat split; auto; try constructor; intros ? ? [].
  - assert (Hnot : ~ In (Sqlite.timestamp_of p) (Sqlite.timestamps t)).
    { rewrite <- conflict_In. congruence. }
    destruct (insert_absent consumed t p Hnot) as (r & Hrows & Hcol & Hid).
    exists [r]. unfold appended. rewrite Hrows.
    assert (Hts : Sqlite.timestamp r = Sqlite.timestamp_of p).
    { rewrite <- Hcol. reflexivity. }
    split; [reflexivity|]. split; [|split; [|split]].
    + cbn. apply NoDup_singleton.
    + intros r' [<-|[]]. now rewrite Hts.
    + intros r' r0 [<-|[]] Hr0. rewrite Hid. now apply next_rowid_above.
    + intros Hnd. rewrite map_app. apply NoDup_app. split; [exact Hnd|].
      split; [|apply NoDup_singleton].
      intros i Hi Hi'. apply list_elem_of_In in Hi, Hi'.
      destruct Hi' as [<-|[]]. apply in_map_iff in Hi.
      destruct Hi as (r0 & Heq & Hr0). apply next_rowid_above in Hr0. lia.
Qed.

Lemma inserts_appended ps t :
  exists new, appended t (fold_left (Sqlite.insert consumed) ps t) new.
Proof.
  revert t. induction ps as [|p ps IH]; intros t.
  - exists []. apply appended_refl.
  - cbn. destruct (insert_appended t p) as [new1 H1].
    destruct (IH (Sqlite.insert consumed t p)) as [new2 H2].
    exists (new1 ++ new2). eapply appended_trans; eassumption.
Qed.

Lemma insert_timestamps_iff t p ts :
  In ts (Sqlite.timestamps (Sqlite.insert consumed t p)) <->
  In ts (Sqlite.timestamps t) \/ ts = Sqlite.timestamp_of p.
Proof.
  rewrite insert_timestamps.
  destruct (Sqlite.conflict t (Sqlite.timestamp_of p)) eqn:Hc.
  - apply conflict_In in Hc. split; [auto|]. intros [?| ->]; assumption.
  - rewrite in_app_iff. cbn. intuition.
Qed.

Lemma inserts_timestamps_iff ps t ts :
  In ts (Sqlite.timestamps (fold_left (Sqlite.insert consumed) ps t)) <->
  In ts (Sqlite.timestamps t) \/ In ts (map Sqlite.timestamp_of ps).
Proof.
  revert t. induction ps as [|p ps IH]; intros t; cbn; [tauto|].
  rewrite IH, insert_timestamps_iff. intuition.
Qed.

End TableMore.

Section ImportMore.
Variable datetime : Type.
Variable fromisoformat : string -> option datetime.
Variable adapt_datetime_iso : datetime -> string.
Variable consumed : bool.

Let load_day := import_day datetime fromisoformat adapt_datetime_iso consumed.
Let load_days := import_days datetime fromisoformat adapt_datetime_iso consumed.
Let load_meter :=
  import_energy_meter datetime fromisoformat adapt_datetime_iso consumed.
Let params_of := day_params datetime fromisoformat adapt_datetime_iso.
Let stamps_of := day_timestamps datetime fromisoformat adapt_datetime_iso.

Lemma days_cons t name day_path rest :
  load_days t ((name, day_path) :: rest) =
  match params_of day_path with
  | Return ps => load_days (fold_left (Sqlite.insert consumed) ps t) rest
  | Raise e => (t, Raise e)
  end.
Proof. apply import_days_cons. Qed.

Lemma day_eq t day_path :
  load_day t day_path =
  match params_of day_path with
  | Return ps => (fold_left (Sqlite.insert consumed) ps t, Return tt)
  | Raise e => (t, Raise e)
  end.
Proof. apply import_day_eq. Qed.

Lemma import_days_appended day_paths t :
  exists new, appended t (fst (load_days t day_paths)) new.
Proof.
  revert t. induction day_paths as [|[name e] rest IH]; intros t.
  - exists []. apply appended_refl.
  - rewrite days_cons. destruct (params_of e) as [ps|x].
    + destruct (inserts_appended consumed ps t) as [new1 H1].
      destruct (IH (fold_left (Sqlite.insert consumed) ps t)) as [new2 H2].
      exists (new1 ++ new2). eapply appended_trans; eassumption.
    + exists []. apply appended_refl.
Qed.

(** X17: a day file is imported whole or not at all, and an exception
    ends the loop at that file: the table then holds what importing the
    files before it gives, the failing file has added nothing, and the
    files after it have not been read. *)
Theorem failing_day_file_ends_the_import
    (t t' : Sqlite.table) (day_paths : list (string * entry)) (e : exn) :
  import_days datetime fromisoformat adapt_datetime_iso consumed t day_paths =
    (t', Raise e) ->
  exists before name day_path after,
    day_paths = before ++ (name, day_path) :: after /\
    import_days datetime fromisoformat adapt_datetime_iso consumed t before =
      (t', Return tt) /\
    import_day datetime fromisoformat adapt_datetime_iso consumed t' day_path =
      (t', Raise e).
Proof.
  fold load_days load_day. revert t.
  induction day_paths as [|[name f] rest IH]; intros t Hrun; [discriminate|].
  rewrite days_cons in Hrun.
  destruct (params_of f) as [ps|x] eqn:Hf.
  - destruct (IH _ Hrun) as (before & name' & f' & after & -> & Hbefore & Hfail).
    exists ((name, f) :: before), name', f', after.
    split; [reflexivity|]. split; [|exact Hfail].
    change (((name, f) :: before)) with ([(name, f)] ++ before).
    cbn [app]. rewrite days_cons, Hf. exact Hbefore.
  - injection Hrun as <- <-.
    exists [], name, f, rest. split; [reflexivity|]. split; [reflexivity|].
    rewrite day_eq, Hf. reflexivity.
Qed.

(** X18: importing the day files of a metering point never touches a
    stored row: the table afterwards is the table before followed by new
    rows, whose timestamps are distinct and were not stored before. *)
Theorem import_only_appends_new_timestamps
    (entries0 : list (string * entry)) (t : Sqlite.table) :
  exists new,
    stored_rows
      (fst (import_energy_meter datetime fromisoformat adapt_datetime_iso consumed
              (MeterDir {| entries := entries0; database := Some t |}))) =
      Some (Sqlite.rows t ++ new) /\
    NoDup (map Sqlite.timestamp new) /\
    (forall r, In r new -> ~ In (Sqlite.timestamp r) (Sqlite.timestamps t)).
Proof.
  cbn [import_energy_meter database entries _check_database]. fold load_days.
  destruct (import_days_appended (sorted (glob_json entries0)) t)
    as (new & Hrows & Hd & Hf & _).
  destruct (load_days t (sorted (glob_json entries0))) as [t' r].
  exists new. cbn [fst] in Hrows. cbn. rewrite Hrows. auto.
Qed.

(** X19: [id] stays a key.  When the ids of a table are distinct they are
    distinct after the import, and every row the import adds has an id
    above the ids of all the rows that were there. *)
Theorem import_assigns_fresh_ids
    (day_paths : list (string * entry)) (t : Sqlite.table) :
  (NoDup (map Sqlite.id (Sqlite.rows t)) ->
   NoDup (map Sqlite.id
            (Sqlite.rows (fst (import_days datetime fromisoformat
                                 adapt_datetime_iso consumed t day_paths))))) /\
  exists new,
    Sqlite.rows (fst (import_days datetime fromisoformat adapt_datetime_iso
                        consumed t day_paths)) = Sqlite.rows t ++ new /\
    (forall r r0, In r new -> In r0 (Sqlite.rows t) -> Sqlite.id r0 < Sqlite.id r).
Proof.
  fold load_days.
  destruct (import_days_appended day_paths t) as (new & Hrows & _ & _ & Hi & Hn).
  split; [exact Hn|]. exists new. auto.
Qed.

(** X20: after an import that ended normally, the timestamps stored are
    those stored before together with those of the day files: every
    timestamp of every file is in the table, and nothing else is. *)
Theorem import_stores_every_timestamp
    (day_paths : list (string * entry)) (t : Sqlite.table) :
  snd (import_days datetime fromisoformat adapt_datetime_iso consumed t day_paths)
    = Return tt ->
  forall ts,
    In ts (Sqlite.timestamps
             (fst (import_days datetime fromisoformat adapt_datetime_iso
                     consumed t day_paths))) <->
    In ts (Sqlite.timestamps t) \/
    exists day_path,
      In day_path (map snd day_paths) /\
      In ts (day_timestamps datetime fromisoformat adapt_datetime_iso day_path).
Proof.
  fold load_days stamps_of. revert t.
  induction day_paths as [|[name f] rest IH]; intros t Hret ts.
  - cbn. split; [auto|]. intros [?|(? & [] & _)]. assumption.
  - rewrite days_cons in *.
    assert (Hstamps : stamps_of f =
              match params_of f with
              | Return ps => map Sqlite.timestamp_of ps
              | Raise _ => []
              end) by reflexivity.
    destruct (params_of f) as [ps|x]; [|discriminate].
    rewrite (IH _ Hret), inserts_timestamps_iff. cbn [map snd].
    split.
    + intros [[Hold|Hnew]|(f' & Hin & Hts)].
      * now left.
      * right. exists f. split; [now left|]. now rewrite Hstamps.
      * right. exists f'. split; [now right|assumption].
    + intros [Hold|(f' & [<-|Hin] & Hts)].
      * left. now left.
      * left. right. now rewrite Hstamps in Hts.
      * right. exists f'. auto.
Qed.

(** X21: a day record whose metered values are an empty list adds no row:
    the import of the file succeeds and the table is as before. *)
Theorem empty_day_record_adds_no_row
    (t : Sqlite.table) (json_data v1 v3 v4 v5 v6 : value)
    (times : list datetime) (l3 l4 l5 l6 : list value) :
  Py.getitem json_data "peakDemandTimes" = Return v1 ->
  (ds ← Py.iter v1; mapM (parse_time datetime fromisoformat) ds) = Return times ->
  Py.getitem json_data "meteredValues" = Return (VList []) ->
  Py.getitem json_data "estimatedValues" = Return v3 -> Py.iter v3 = Return l3 ->
  Py.getitem json_data "meteredPeakDemands" = Return v4 -> Py.iter v4 = Return l4 ->
  Py.getitem json_data "estimatedPeakDemands" = Return v5 -> Py.iter v5 = Return l5 ->
  Py.getitem json_data "meanProfile" = Return v6 -> Py.iter v6 = Return l6 ->
  import_day datetime fromisoformat adapt_datetime_iso consumed t
    (EFile (Some json_data)) = (t, Return tt).
Proof.
  intros H1 Ht H2 H3 I3 H4 I4 H5 I5 H6 I6.
  assert (Hzip : zip_data datetime fromisoformat json_data = Return []).
  { unfold zip_data. rewrite H1, H2, H3, H4, H5, H6.
    cbn [mbind result_bind] in *.
    destruct (Py.iter v1) as [ds|]; [|discriminate].
    cbn [mbind result_bind] in *.
    rewrite Ht, I3, I4, I5, I6. cbn [Py.iter mbind result_bind mret result_ret].
    destruct times; reflexivity. }
  cbn [import_day]. rewrite Hzip. reflexivity.
Qed.

End ImportMore.

Section Order.








End Order.

Section Revisions.
Variable datetime : Type.
Variable fromisoformat : string -> option datetime.
Variable adapt_datetime : datetime -> string.
Variable adapt_datetime_iso : datetime -> string.
Variable consumed : bool.

(** The two adapters tell the same times apart. *)
Hypothesis same_times :
  forall d1 d2,
    adapt_datetime d1 = adapt_datetime d2 <->
    adapt_datetime_iso d1 = adapt_datetime_iso d2.

Let alike_rows := Forall2 (same_row datetime adapt_datetime adapt_datetime_iso).
Let alike := same_table datetime adapt_datetime adapt_datetime_iso.
Let alike_meters :=
  Forall2 (fun x y : string * meter_entry =>
             fst x = fst y /\
             same_meter datetime adapt_datetime adapt_datetime_iso (snd x) (snd y)).

Lemma same_conflict (l1 l2 : list Sqlite.row) (d : datetime) :
  alike_rows l1 l2 ->
  existsb (fun r => String.eqb (Sqlite.timestamp r) (adapt_datetime d)) l1 =
  existsb (fun r => String.eqb (Sqlite.timestamp r) (adapt_datetime_iso d)) l2.
Proof.
  induction 1 as [|r1 r2 l1 l2 Hr Hl IH]; [reflexivity|].
  cbn [existsb]. rewrite IH. f_equal.
  destruct Hr as (_ & (d' & -> & ->) & _).
  destruct (String.eqb_spec (adapt_datetime d') (adapt_datetime d)) as [He|Hne];
    destruct (String.eqb_spec (adapt_datetime_iso d') (adapt_datetime_iso d))
      as [He'|Hne']; try reflexivity.
  - apply same_times in He. contradiction.
  - apply same_times in He'. contradiction.
Qed.

Lemma same_max_rowid (l1 l2 : list Sqlite.row) :
  alike_rows l1 l2 -> Sqlite.max_rowid l1 = Sqlite.max_rowid l2.
Proof.
  induction 1 as [|r1 r2 l1 l2 Hr Hl IH]; [reflexivity|].
  unfold Sqlite.max_rowid in *. cbn [fold_right].
  destruct Hr as (Hid & _). now rewrite Hid, IH.
Qed.

Lemma same_insert (t1 t2 : Sqlite.table) (d : datetime)
    (m e mp ep mean : Sqlite.sqlval) :
  alike t1 t2 ->
  alike (Sqlite.insert consumed t1 (adapt_datetime d, m, e, mp, ep, mean))
        (Sqlite.insert consumed t2 (adapt_datetime_iso d, m, e, mp, ep, mean)).
Proof.
  intros [Hrows Hseq].
  assert (Hnext : Sqlite.next_rowid t1 = Sqlite.next_rowid t2).
  { unfold Sqlite.next_rowid. now rewrite Hseq, (same_max_rowid _ _ Hrows). }
  unfold Sqlite.insert, Sqlite.conflict.
  rewrite (same_conflict _ _ d Hrows).
  destruct (existsb _ (Sqlite.rows t2)); split; cbn [Sqlite.rows Sqlite.sequence].
  - exact Hrows.
  - destruct consumed; assumption.
  - apply Forall2_app; [exact Hrows|].
    constructor; [|constructor].
    repeat split; cbn; eauto.
  - exact Hnext.
Qed.

Lemma same_executemany
    (data : list (datetime * value * value * value * value * value)) :
  forall t1 t2, alike t1 t2 ->
    match executemany datetime adapt_datetime consumed t1 data,
          executemany datetime adapt_datetime_iso consumed t2 data with
    | Return t1', Return t2' => alike t1' t2'
    | Raise e1, Raise e2 => e1 = e2
    | _, _ => False
    end.
Proof.
  induction data as [|[[[[[d v2] v3] v4] v5] v6] data IH]; intros t1 t2 Ht;
    [exact Ht|].
  cbn [executemany]. unfold bind_parameters.
  destruct (Sqlite.adapt v2) as [p2|x]; [|reflexivity].
  destruct (Sqlite.adapt v3) as [p3|x]; [|reflexivity].
  destruct (Sqlite.adapt v4) as [p4|x]; [|reflexivity].
  destruct (Sqlite.adapt v5) as [p5|x]; [|reflexivity].
  destruct (Sqlite.adapt v6) as [p6|x]; [|reflexivity].
  cbn. apply IH, same_insert, Ht.
Qed.

Lemma same_import_day (day_path : entry) (t1 t2 : Sqlite.table) :
  alike t1 t2 ->
  alike (fst (import_day datetime fromisoformat adapt_datetime consumed
                t1 day_path))
        (fst (import_day datetime fromisoformat adapt_datetime_iso consumed
                t2 day_path)) /\
  snd (import_day datetime fromisoformat adapt_datetime consumed t1 day_path) =
  snd (import_day datetime fromisoformat adapt_datetime_iso consumed t2 day_path).
Proof.
  intros Ht. destruct day_path as [[json_data|]|]; cbn [import_day fst snd]; auto.
  destruct (zip_data datetime fromisoformat json_data) as [data|x];
    cbn [fst snd]; auto.
  unfold transaction. pose proof (same_executemany data t1 t2 Ht) as Hrun.
  destruct (executemany datetime adapt_datetime consumed t1 data);
    destruct (executemany datetime adapt_datetime_iso consumed t2 data);
    cbn [fst snd]; try contradiction; auto.
  now subst.
Qed.

Lemma same_import_days (day_paths : list (string * entry)) :
  forall t1 t2, alike t1 t2 ->
    alike (fst (import_days datetime fromisoformat adapt_datetime consumed
                  t1 day_paths))
          (fst (import_days datetime fromisoformat adapt_datetime_iso consumed
                  t2 day_paths)) /\
    snd (import_days datetime fromisoformat adapt_datetime consumed t1 day_paths) =
    snd (import_days datetime fromisoformat adapt_datetime_iso consumed
           t2 day_paths).
Proof.
  induction day_paths as [|[name day_path] rest IH]; intros t1 t2 Ht;
    [split; [exact Ht|reflexivity]|].
  cbn [import_days].
  destruct (same_import_day day_path t1 t2 Ht) as [Hfst Hsnd].
  destruct (import_day datetime fromisoformat adapt_datetime consumed t1 day_path)
    as [t1' r1].
  destruct (import_day datetime fromisoformat adapt_datetime_iso consumed
              t2 day_path) as [t2' r2].
  cbn [fst snd] in *. subst r2.
  destruct r1 as [[]|x]; [apply IH, Hfst|split; [exact Hfst|reflexivity]].
Qed.

Lemma same_import_energy_meter (m1 m2 : meter_entry) :
  same_meter datetime adapt_datetime adapt_datetime_iso m1 m2 ->
  same_meter datetime adapt_datetime adapt_datetime_iso
    (fst (import_energy_meter datetime fromisoformat adapt_datetime consumed m1))
    (fst (import_energy_meter datetime fromisoformat adapt_datetime_iso
            consumed m2)) /\
  snd (import_energy_meter datetime fromisoformat adapt_datetime consumed m1) =
  snd (import_energy_meter datetime fromisoformat adapt_datetime_iso consumed m2).
Proof.
  destruct m1 as [|[entries1 db1]], m2 as [|[entries2 db2]]; cbn [same_meter];
    try contradiction; [split; [exact I|reflexivity]|].
  cbn [entries database]. intros [<- Hdb].
  assert (Hcon : alike (_check_database db1) (_check_database db2)).
  { destruct db1, db2; cbn in *; try contradiction; [exact Hdb|].
    split; [constructor|reflexivity]. }
  cbn [import_energy_meter entries database].
  destruct (same_import_days (sorted (glob_json entries1)) _ _ Hcon)
    as [Hfst Hsnd].
  destruct (import_days datetime fromisoformat adapt_datetime consumed _ _)
    as [t1 r1].
  destruct (import_days datetime fromisoformat adapt_datetime_iso consumed _ _)
    as [t2 r2].
  cbn [fst snd same_meter entries database same_database] in *. auto.
Qed.

Lemma same_import_energy_meters (meters1 meters2 : list (string * meter_entry)) :
  alike_meters meters1 meters2 ->
  Forall (fun nm => is_ignored IGNORED_PATH (fst nm) = false) meters1 ->
  alike_meters
    (fst (import_energy_meters datetime fromisoformat adapt_datetime consumed
            [] meters1))
    (fst (import_energy_meters datetime fromisoformat adapt_datetime_iso consumed
            IGNORED_PATH meters2)) /\
  snd (import_energy_meters datetime fromisoformat adapt_datetime consumed
         [] meters1) =
  snd (import_energy_meters datetime fromisoformat adapt_datetime_iso consumed
         IGNORED_PATH meters2).
Proof.
  induction 1 as [|[name1 m1] [name2 m2] rest1 rest2 [Hname Hm] Hrest IH];
    intros Hplain; [split; [constructor|reflexivity]|].
  cbn [fst snd] in Hname, Hm. subst name2.
  apply Forall_cons_1 in Hplain as [Hhere Hplain]. cbn [fst] in Hhere.
  specialize (IH Hplain). destruct IH as [IHfst IHsnd].
  cbn [import_energy_meters]. rewrite Hhere.
  change (is_ignored [] name1) with false. cbv iota.
  destruct (same_import_energy_meter m1 m2 Hm) as [Hfst Hsnd].
  destruct (import_energy_meter datetime fromisoformat adapt_datetime consumed m1)
    as [m1' r1].
  destruct (import_energy_meter datetime fromisoformat adapt_datetime_iso
              consumed m2) as [m2' r2].
  cbn [fst snd] in *. subst r2.
  destruct r1 as [[]|x].
  - destruct (import_energy_meters datetime fromisoformat adapt_datetime consumed
                [] rest1) as [rest1' r1].
    destruct (import_energy_meters datetime fromisoformat adapt_datetime_iso
                consumed IGNORED_PATH rest2) as [rest2' r2].
    cbn [fst snd] in *. split; [|exact IHsnd].
    constructor; [split; [reflexivity|exact Hfst]|exact IHfst].
  - cbn [fst snd]. split; [|reflexivity].
    constructor; [split; [reflexivity|exact Hfst]|exact Hrest].
Qed.

(** X24: the two revisions of [import_data] store a time under different
    texts, and the reworked one has two guards.  On storage trees that are
    the same up to the texts of the stored timestamps, with no plain file
    at the account level and no [.DS_Store] at the metering-point level,
    they end the same way and leave trees that are again the same up to
    those texts: the same rows with the same ids and values. *)
Theorem revisions_agree_up_to_the_timestamp_text (s1 s2 : storage) :
  plain_storage s1 ->
  same_storage datetime adapt_datetime adapt_datetime_iso s1 s2 ->
  same_storage datetime adapt_datetime adapt_datetime_iso
    (fst (ImportV1.import_data datetime fromisoformat adapt_datetime consumed s1))
    (fst (ImportV2.import_data datetime fromisoformat adapt_datetime_iso
            consumed s2)) /\
  snd (ImportV1.import_data datetime fromisoformat adapt_datetime consumed s1) =
  snd (ImportV2.import_data datetime fromisoformat adapt_datetime_iso consumed s2).
Proof.
  unfold ImportV1.import_data, ImportV2.import_data, plain_storage, same_storage.
  intros Hplain Hsame. revert Hplain.
  induction Hsame as [|[name1 a1] [name2 a2] rest1 rest2 [Hname Ha] Hrest IH];
    intros Hplain; [split; [constructor|reflexivity]|].
  cbn [fst snd] in Hname, Ha. subst name2.
  apply Forall_cons_1 in Hplain as [Hhere Hplain]. cbn [snd] in Hhere.
  specialize (IH Hplain). destruct IH as [IHfst IHsnd].
  cbn [import_accounts].
  destruct a1 as [|meters1]; [destruct Hhere|].
  destruct a2 as [|meters2]; [destruct Ha|].
  cbn [same_account plain_account import_account] in *.
  destruct (same_import_energy_meters meters1 meters2 Ha Hhere) as [Hfst Hsnd].
  destruct (import_energy_meters datetime fromisoformat adapt_datetime consumed
              [] meters1) as [meters1' r1].
  destruct (import_energy_meters datetime fromisoformat adapt_datetime_iso
              consumed IGNORED_PATH meters2) as [meters2' r2].
  cbn [fst snd] in *. subst r2.
  destruct r1 as [[]|x].
  - destruct (import_accounts datetime fromisoformat adapt_datetime consumed
                false [] rest1) as [rest1' r1].
    destruct (import_accounts datetime fromisoformat adapt_datetime_iso consumed
                true IGNORED_PATH rest2) as [rest2' r2].
    cbn [fst snd] in *. split; [|exact IHsnd].
    constructor; [split; [reflexivity|exact Hfst]|exact IHfst].
  - cbn [fst snd]. split; [|reflexivity].
    constructor; [split; [reflexivity|exact Hfst]|exact Hrest].
Qed.

End Revisions.

(** * The further properties at the sample data *)

Lemma maintenance_login_halts_only_the_reworked_run_witness :
  status_code (Fixture.portal_maintenance
                 (login_request (username Sample.settings)
                                (password Sample.settings))) = 999 /\
  (exists diagnostic,
     V2.main Fixture.portal_maintenance Sample.json_dumps Sample.isoformat
       Sample.settings 738522 Sample.files =
     ([Net (Sent (login_request (username Sample.settings)
                                (password Sample.settings)));
       Net (Printed diagnostic)],
      Sample.files, Raise (SystemExit 1))) /\
  result_of (V1Main.main Fixture.portal_maintenance Sample.json_dumps
               Sample.isoformat Sample.settings 738522 Sample.files) =
    Return tt /\
  fetched (trace_of (V1Main.main Fixture.portal_maintenance Sample.json_dumps
                       Sample.isoformat Sample.settings 738522 Sample.files)) =
    [("meter", 738521)] /\
  written (trace_of (V1Main.main Fixture.portal_maintenance Sample.json_dumps
                       Sample.isoformat Sample.settings 738522 Sample.files)) =
    [["data"; "account"; "meter"; "738521.json"]] /\
  exists rest,
    requests (trace_of (V1Main.main Fixture.portal_maintenance Sample.json_dumps
                          Sample.isoformat Sample.settings 738522 Sample.files)) =
    login_request (username Sample.settings) (password Sample.settings)
      :: account_ids_request :: rest.
Proof.
  assert (Hstatus :
    status_code (Fixture.portal_maintenance
                   (login_request (username Sample.settings)
                                  (password Sample.settings))) = 999)
    by reflexivity.
  destruct (maintenance_login_halts_only_the_reworked_run
              Sample.json_dumps Sample.isoformat Fixture.portal_maintenance
              Sample.settings 738522 Sample.files Hstatus)
    as ((diagnostic & Hhalt & _) & _ & Hgoes_on).
  split; [exact Hstatus|].
  split; [exists diagnostic; exact Hhalt|].
  split; [vm_compute; reflexivity|].
  split; [vm_compute; reflexivity|].
  split; [vm_compute; reflexivity|].
  exact Hgoes_on.
Defined.


Lemma sync_only_adds_day_files_witness :
  Sample.files !! ["data"] = Some Directory /\
  files_of (download_consumptions_for_meter
              (H := V2.smartmeter_like Sample.json_dumps Sample.isoformat)
              Sample.json_dumps Sample.isoformat 738522
              {| V2.session := Sample.portal |} Sample.meter_path "meter"
              738521 Sample.files) !! ["data"] = Some Directory.
Proof.
  assert (Hroot : Sample.files !! ["data"] = Some Directory)
    by (vm_compute; reflexivity).
  split; [exact Hroot|].
  exact (proj1 (sync_only_adds_day_files
                  (H := V2.smartmeter_like Sample.json_dumps Sample.isoformat)
                  Sample.json_dumps Sample.isoformat 738522 738521
                  {| V2.session := Sample.portal |} Sample.meter_path "meter"
                  Sample.files) ["data"] Directory Hroot).
Defined.

Lemma sync_fetches_in_order_once_witness :
  In ("meter", 738521)
     (fetched (trace_of (download_consumptions_for_meter
                           (H := V2.smartmeter_like Sample.json_dumps
                                   Sample.isoformat)
                           Sample.json_dumps Sample.isoformat 738522
                           {| V2.session := Sample.portal |} Sample.meter_path
                           "meter" 738521 Sample.files))) /\
  738521 <= 738521 < 738522.
Proof.
  assert (Hin :
    In ("meter", 738521)
       (fetched (trace_of (download_consumptions_for_meter
                             (H := V2.smartmeter_like Sample.json_dumps
                                     Sample.isoformat)
                             Sample.json_dumps Sample.isoformat 738522
                             {| V2.session := Sample.portal |} Sample.meter_path
                             "meter" 738521 Sample.files))))
    by (vm_compute; auto).
  split; [exact Hin|].
  destruct (sync_fetches_in_order_once
              (H := V2.smartmeter_like Sample.json_dumps Sample.isoformat)
              Sample.json_dumps Sample.isoformat 738522 738521
              {| V2.session := Sample.portal |} Sample.meter_path "meter"
              Sample.files) as (_ & _ & _ & Hall).
  exact (proj1 (proj2 (Hall "meter" 738521 Hin))).
Defined.

Lemma days_without_data :
  forall day,
    missing_data (H := V2.smartmeter_like Sample.json_dumps Sample.isoformat)
      {| V2.session := Fixture.portal_no_data |} "meter" day.
Proof.
  intros day. eexists _, _. split; [reflexivity|]. split; reflexivity.
Defined.

Lemma sync_writes_no_file_without_data_witness :
  (forall day,
     json_file Sample.isoformat Sample.meter_path day =
       json_file Sample.isoformat Sample.meter_path 738521 ->
     missing_data (H := V2.smartmeter_like Sample.json_dumps Sample.isoformat)
       {| V2.session := Fixture.portal_no_data |} "meter" day) /\
  ~ In (json_file Sample.isoformat Sample.meter_path 738521)
       (written (trace_of (download_consumptions_for_meter
                             (H := V2.smartmeter_like Sample.json_dumps
                                     Sample.isoformat)
                             Sample.json_dumps Sample.isoformat 738523
                             {| V2.session := Fixture.portal_no_data |}
                             Sample.meter_path "meter" 738521 Sample.files))).
Proof.
  assert (Hmiss : forall day,
     json_file Sample.isoformat Sample.meter_path day =
       json_file Sample.isoformat Sample.meter_path 738521 ->
     missing_data (H := V2.smartmeter_like Sample.json_dumps Sample.isoformat)
       {| V2.session := Fixture.portal_no_data |} "meter" day)
    by (intros day _; apply days_without_data).
  split; [exact Hmiss|].
  exact (proj1 (sync_writes_no_file_without_data
                  (H := V2.smartmeter_like Sample.json_dumps Sample.isoformat)
                  Sample.json_dumps Sample.isoformat 738523 738521
                  {| V2.session := Fixture.portal_no_data |} Sample.meter_path
                  "meter" Sample.files _ Hmiss)).
Defined.

Lemma sync_without_directory_writes_nothing_witness :
  Fixture.root !! Sample.meter_path <> Some Directory /\
  written (trace_of (download_consumptions_for_meter
                       (H := V2.smartmeter_like Sample.json_dumps Sample.isoformat)
                       Sample.json_dumps Sample.isoformat 738523
                       {| V2.session := Sample.portal |} Sample.meter_path
                       "meter" 738521 Fixture.root)) = [].
Proof.
  assert (Hdir : Fixture.root !! Sample.meter_path <> Some Directory)
    by (vm_compute; discriminate).
  split; [exact Hdir|].
  exact (proj2 (sync_without_directory_writes_nothing
                  (H := V2.smartmeter_like Sample.json_dumps Sample.isoformat)
                  Sample.json_dumps Sample.isoformat 738523 738521
                  {| V2.session := Sample.portal |} Sample.meter_path "meter"
                  Fixture.root Hdir)).
Defined.

Lemma session_is_established_or_refused_witness :
  passes (Fixture.portal (login_request "user" "secret")) = true /\
  status_code (Fixture.portal (login_request "user" "secret")) <> 999 /\
  passes (Fixture.portal extend_request) = true /\
  snd (V2.__init__ Fixture.portal "user" "secret") =
    Return {| V2.session := Fixture.portal |}.
Proof.
  assert (H1 : passes (Fixture.portal (login_request "user" "secret")) = true)
    by reflexivity.
  assert (H2 : status_code (Fixture.portal (login_request "user" "secret")) <> 999)
    by (vm_compute; discriminate).
  assert (H3 : passes (Fixture.portal extend_request) = true) by reflexivity.
  repeat (split; [assumption|]).
  apply (proj1 (session_is_established_or_refused Fixture.portal "user" "secret")).
  auto.
Defined.

Lemma enumeration_returns_every_entry_witness :
  passes (Fixture.portal consumption_info_request) = true /\
  Forall2 describes
    [VDict [("accountId", VStr "account"); ("meteringPointId", VStr "meter")]]
    [{| V2.account_id := "account"; V2.metering_point_id := "meter" |}] /\
  snd (V2.get_consumption_info Sample.json_dumps {| V2.session := Fixture.portal |}) =
    Return [{| V2.account_id := "account"; V2.metering_point_id := "meter" |}].
Proof.
  assert (Hok : passes (Fixture.portal consumption_info_request) = true)
    by reflexivity.
  assert (Hall : Forall2 describes
    [VDict [("accountId", VStr "account"); ("meteringPointId", VStr "meter")]]
    [{| V2.account_id := "account"; V2.metering_point_id := "meter" |}])
    by (repeat constructor).
  split; [exact Hok|]. split; [exact Hall|].
  apply (proj2 (enumeration_returns_every_entry Sample.json_dumps
                  {| V2.session := Fixture.portal |} Fixture.enumeration _)
           Hok eq_refl eq_refl).
  exact Hall.
Defined.

Lemma main_needs_session_and_enumeration_witness :
  (forall s,
     snd (V2.__init__ Sample.portal_maintenance (username Sample.settings)
            (password Sample.settings)) = Return s ->
     is_raise (snd (V2.get_consumption_info Sample.json_dumps s)) = true) /\
  files_of (V2.main Sample.portal_maintenance Sample.json_dumps Sample.isoformat
              Sample.settings 738530 Sample.files) = Sample.files.
Proof.
  assert (Hfail : forall s,
     snd (V2.__init__ Sample.portal_maintenance (username Sample.settings)
            (password Sample.settings)) = Return s ->
     is_raise (snd (V2.get_consumption_info Sample.json_dumps s)) = true)
    by (intros s Hs; discriminate Hs).
  split; [exact Hfail|].
  exact (proj1 (proj2 (main_needs_session_and_enumeration
                         Sample.json_dumps Sample.isoformat
                         Sample.portal_maintenance Sample.settings 738530
                         Sample.files Hfail))).
Defined.

Lemma main_keeps_every_entry_witness :
  Fixture.root !! ["data"] = Some Directory /\
  files_of (V2.main Fixture.portal Sample.json_dumps Sample.isoformat
              Sample.settings 738522 Fixture.root) !! ["data"] = Some Directory.
Proof.
  assert (Hroot : Fixture.root !! ["data"] = Some Directory)
    by (vm_compute; reflexivity).
  split; [exact Hroot|].
  exact (proj1 (main_keeps_every_entry Sample.json_dumps Sample.isoformat
                  Fixture.portal Sample.settings 738522)
           Fixture.root ["data"] Directory Hroot).
Defined.

Lemma fetched_record_carries_the_mean_profile_witness :
  passes (Fixture.portal (day_request Sample.isoformat "meter" 738521)) = true /\
  exists merged,
    snd (V2.get_consumption_records_for_day Sample.json_dumps Sample.isoformat
           {| V2.session := Fixture.portal |} "meter" 738521 true) =
      Return (VDict merged) /\
    Py.dict_get merged "meanProfile" = Some Sample.mean_profile /\
    (forall key, key <> "meanProfile" ->
       Py.dict_get merged key =
       Py.dict_get
         [("peakDemandTimes", VList [VStr "2023-01-01T00:15:00"]);
          ("meteredValues", VList [VFloat 0.25]);
          ("estimatedValues", VList [VNone]);
          ("meteredPeakDemands", VList [VFloat 1]);
          ("estimatedPeakDemands", VList [VNone])] key).
Proof.
  split; [reflexivity|].
  exact (fetched_record_carries_the_mean_profile Sample.json_dumps
           Sample.isoformat {| V2.session := Fixture.portal |} "meter" 738521
           _ Sample.mean_profile eq_refl eq_refl eq_refl eq_refl).
Defined.

Lemma first_revision_merges_into_the_response_witness :
  passes (Sample.portal_object (day_request Sample.isoformat "meter" 738521))
    = true /\
  snd (V1.get_consumption_records_for_day Sample.json_dumps Sample.isoformat
         {| V1.session := Sample.portal |} "meter" 738521 true) = Raise TypeError.
Proof.
  split; [reflexivity|].
  apply (proj2 (first_revision_merges_into_the_response Sample.json_dumps
                  Sample.isoformat {| V1.session := Sample.portal |} "meter"
                  738521 (VList [Sample.record]) Sample.mean_profile
                  eq_refl eq_refl eq_refl eq_refl)).
  intros record. discriminate.
Defined.

Lemma empty_day_response_raises_witness :
  json_body (Fixture.portal_empty_list
               (day_request Sample.isoformat "meter" 738521)) = Some (VList []) /\
  snd (V2.get_consumption_records_for_day Sample.json_dumps Sample.isoformat
         {| V2.session := Fixture.portal_empty_list |} "meter" 738521 false) =
    Raise IndexError.
Proof.
  split; [reflexivity|].
  destruct (empty_day_response_raises Sample.json_dumps Sample.isoformat
              {| V2.session := Fixture.portal_empty_list |} "meter" 738521 false
              eq_refl) as (_ & Hindex & _).
  apply Hindex. reflexivity.
Defined.

Lemma main_makes_the_directories_witness :
  result_of (V2.main Fixture.portal Sample.json_dumps Sample.isoformat
               Sample.settings 738522 Fixture.root) = Return tt /\
  (files_of (V2.main Fixture.portal Sample.json_dumps Sample.isoformat
               Sample.settings 738522 Fixture.root)
     !! ["data"; "account"; "meter"] = Some Directory \/
   exists text,
     Fixture.root !! ["data"; "account"; "meter"] = Some (File text) /\
     files_of (V2.main Fixture.portal Sample.json_dumps Sample.isoformat
                 Sample.settings 738522 Fixture.root)
       !! ["data"; "account"; "meter"] = Some (File text)).
Proof.
  assert (Hret :
    result_of (V2.main Fixture.portal Sample.json_dumps Sample.isoformat
                 Sample.settings 738522 Fixture.root) = Return tt)
    by (vm_compute; reflexivity).
  split; [exact Hret|].
  exact (main_makes_the_directories Sample.json_dumps Sample.isoformat
           Fixture.portal Sample.settings 738522 Fixture.root
           [{| V2.account_id := "account"; V2.metering_point_id := "meter" |}]
           Hret eq_refl
           {| V2.account_id := "account"; V2.metering_point_id := "meter" |}
           (or_introl eq_refl) ["data"; "account"; "meter"]
           (or_intror eq_refl)).
Defined.

Lemma account_meters_are_keyed_once_witness :
  snd (V1Main.get_account_meters Sample.json_dumps
         {| V1.session := Fixture.portal |}) =
    Return [(VStr "account", [VStr "meter"])] /\
  distinct_keys [(VStr "account", [VStr "meter"])].
Proof.
  assert (Hd : snd (V1Main.get_account_meters Sample.json_dumps
                      {| V1.session := Fixture.portal |}) =
               Return [(VStr "account", [VStr "meter"])]) by reflexivity.
  split; [exact Hd|].
  exact (proj1 (account_meters_are_keyed_once Sample.json_dumps
                  {| V1.session := Fixture.portal |} _ Hd)).
Defined.

Lemma first_revision_goes_on_after_login_witness :
  passes (Sample.portal_maintenance
            (login_request (username Sample.settings) (password Sample.settings)))
    = true /\
  exists rest,
    requests (trace_of (V1Main.main Sample.portal_maintenance Sample.json_dumps
                          Sample.isoformat Sample.settings 738530 Sample.files)) =
    login_request (username Sample.settings) (password Sample.settings)
      :: account_ids_request :: rest.
Proof.
  split; [reflexivity|].
  apply (first_revision_goes_on_after_login Sample.json_dumps Sample.isoformat).
  reflexivity.
Defined.

Lemma failing_day_file_ends_the_import_witness :
  snd (import_days string Sample.fromisoformat Sample.adapt_datetime_iso true
         Sqlite.created Fixture.broken_days) = Raise JSONDecodeError /\
  exists before name day_path after,
    Fixture.broken_days = before ++ (name, day_path) :: after /\
    import_days string Sample.fromisoformat Sample.adapt_datetime_iso true
      Sqlite.created before =
      (fst (import_days string Sample.fromisoformat Sample.adapt_datetime_iso
              true Sqlite.created Fixture.broken_days), Return tt) /\
    import_day string Sample.fromisoformat Sample.adapt_datetime_iso true
      (fst (import_days string Sample.fromisoformat Sample.adapt_datetime_iso
              true Sqlite.created Fixture.broken_days)) day_path =
      (fst (import_days string Sample.fromisoformat Sample.adapt_datetime_iso
              true Sqlite.created Fixture.broken_days), Raise JSONDecodeError).
Proof.
  split; [reflexivity|].
  apply (failing_day_file_ends_the_import string Sample.fromisoformat
           Sample.adapt_datetime_iso true Sqlite.created).
  reflexivity.
Defined.

Lemma import_stores_every_timestamp_witness :
  snd (import_days string Sample.fromisoformat Sample.adapt_datetime_iso true
         Sqlite.created
         [("2023-01-01.json",
           EFile (Some (Sample.day_record "2023-01-01T00:15:00"
                                          "2023-01-01T00:30:00")))]) = Return tt /\
  In "2023-01-01T00:30:00"
     (Sqlite.timestamps
        (fst (import_days string Sample.fromisoformat Sample.adapt_datetime_iso
                true Sqlite.created
                [("2023-01-01.json",
                  EFile (Some (Sample.day_record "2023-01-01T00:15:00"
                                                 "2023-01-01T00:30:00")))]))).
Proof.
  split; [reflexivity|].
  apply (proj2 (import_stores_every_timestamp string Sample.fromisoformat
                  Sample.adapt_datetime_iso true
                  [("2023-01-01.json",
                    EFile (Some (Sample.day_record "2023-01-01T00:15:00"
                                                   "2023-01-01T00:30:00")))]
                  Sqlite.created eq_refl "2023-01-01T00:30:00")).
  right. eexists. split; [left; reflexivity|]. vm_compute. auto.
Defined.

Lemma empty_day_record_adds_no_row_witness :
  Py.getitem Fixture.empty_record "meteredValues" = Return (VList []) /\
  import_day string Sample.fromisoformat Sample.adapt_datetime_iso true
    Sample.table (EFile (Some Fixture.empty_record)) = (Sample.table, Return tt).
Proof.
  split; [reflexivity|].
  apply (empty_day_record_adds_no_row string Sample.fromisoformat
           Sample.adapt_datetime_iso true Sample.table Fixture.empty_record
           (VList [VStr "2023-01-01T00:15:00"]) (VList [VNone]) (VList [VNone])
           (VList [VNone]) (VList [VFloat 0.2])
           ["2023-01-01T00:15:00"] [VNone] [VNone] [VNone] [VFloat 0.2]);
    reflexivity.
Defined.

Lemma revisions_agree_up_to_the_timestamp_text_witness :
  (forall d1 d2 : string,
     Fixture.adapt_datetime d1 = Fixture.adapt_datetime d2 <->
     Sample.adapt_datetime_iso d1 = Sample.adapt_datetime_iso d2) /\
  plain_storage Fixture.plain_tree /\
  same_storage string Fixture.adapt_datetime Sample.adapt_datetime_iso
    Fixture.plain_tree Fixture.plain_tree /\
  storage_rows
    (fst (ImportV1.import_data string Sample.fromisoformat
            Fixture.adapt_datetime true Fixture.plain_tree)) <>
  storage_rows
    (fst (ImportV2.import_data string Sample.fromisoformat
            Sample.adapt_datetime_iso true Fixture.plain_tree)) /\
  same_storage string Fixture.adapt_datetime Sample.adapt_datetime_iso
    (fst (ImportV1.import_data string Sample.fromisoformat
            Fixture.adapt_datetime true Fixture.plain_tree))
    (fst (ImportV2.import_data string Sample.fromisoformat
            Sample.adapt_datetime_iso true Fixture.plain_tree)) /\
  snd (ImportV1.import_data string Sample.fromisoformat
         Fixture.adapt_datetime true Fixture.plain_tree) =
  snd (ImportV2.import_data string Sample.fromisoformat
         Sample.adapt_datetime_iso true Fixture.plain_tree).
Proof.
  assert (Htimes : forall d1 d2 : string,
            Fixture.adapt_datetime d1 = Fixture.adapt_datetime d2 <->
            Sample.adapt_datetime_iso d1 = Sample.adapt_datetime_iso d2).
  { intros d1 d2. unfold Fixture.adapt_datetime, Sample.adapt_datetime_iso.
    split; [intros Heq; simpl in Heq; now injection Heq|now intros ->]. }
  assert (Hplain : plain_storage Fixture.plain_tree) by (repeat constructor).
  assert (Hsame : same_storage string Fixture.adapt_datetime
                    Sample.adapt_datetime_iso Fixture.plain_tree
                    Fixture.plain_tree) by (repeat constructor).
  split; [exact Htimes|]. split; [exact Hplain|]. split; [exact Hsame|].
  split; [vm_compute; discriminate|].
  exact (revisions_agree_up_to_the_timestamp_text string Sample.fromisoformat
           Fixture.adapt_datetime Sample.adapt_datetime_iso true Htimes
           Fixture.plain_tree Fixture.plain_tree Hplain Hsame).
Defined.

